(** * Math worksheet generator: problem model, configuration, generator, layout

    A shallow embedding of the core of the worksheet generator
    (MathProblem, WorksheetConfig, ProblemGenerator, LayoutEngine and the
    constant tables they read) together with the properties its
    specification states about them.

    Conventions of the embedding.
    - A JavaScript value is a [Js.Value].  A number that is an integer is
      [VInt z] with [z : Z]; integer arithmetic is exact, i.e. operands stay
      inside the safe-integer range of an IEEE double.  Numbers that are not
      integers (NaN, the infinities, fractions) are kept apart as
      [VNonInt].
    - Fractional quantities (ratios, page coordinates) are rationals [Q];
      [Math.random()] returns a rational of the interval [0,1).
    - A method that can throw returns a [Result]; methods that mutate the
      generator or draw random numbers thread a [State]. *)

From Stdlib Require Import ZArith QArith Qround Qabs Lia Ascii.
From stdpp Require Import base option list gmap strings pretty.

Local Open Scope Z_scope.

(* ===================================================================== *)
(** ** JavaScript values *)
(* ===================================================================== *)

Module Js.

(** Numbers for which [Number.isInteger] is false. [Fraction q] stands for
    a finite number with a fractional part. *)
Inductive NonInteger : Type :=
| NaN
| PosInfinity
| NegInfinity
| Fraction (q : Q).

Inductive Value : Type :=
| VUndefined
| VNull
| VBool (b : bool)
| VInt (z : Z)
| VNonInt (x : NonInteger)
| VString (s : string).

(** ToBoolean. *)
Definition truthy (v : Value) : bool :=
  match v with
  | VUndefined | VNull => false
  | VBool b => b
  | VInt z => negb (z =? 0)
  | VNonInt NaN => false
  | VNonInt _ => true
  | VString s => negb (String.eqb s "")
  end.

(** [a || b]. *)
Definition orElse (a b : Value) : Value := if truthy a then a else b.

(** [Number.isInteger(v)]. *)
Definition isInteger (v : Value) : bool :=
  match v with VInt _ => true | _ => false end.

(** The integer held by a value that passed [Number.isInteger]. *)
Definition asInt (v : Value) : Z :=
  match v with VInt z => z | _ => 0 end.

(** The characters of a string value. *)
Definition asString (v : Value) : string :=
  match v with VString s => s | _ => EmptyString end.

(** [v === s] for a string literal [s]. *)
Definition isString (v : Value) (s : string) : bool :=
  match v with VString t => String.eqb t s | _ => false end.

(** [v === n] for an integer number [n]. *)
Definition isNumber (v : Value) (n : Z) : bool :=
  match v with VInt z => z =? n | _ => false end.

(** [a === b]. *)
Definition strictEquals (a b : Value) : bool :=
  match a, b with
  | VUndefined, VUndefined => true
  | VNull, VNull => true
  | VBool x, VBool y => Bool.eqb x y
  | VInt x, VInt y => x =? y
  | VNonInt PosInfinity, VNonInt PosInfinity => true
  | VNonInt NegInfinity, VNonInt NegInfinity => true
  | VNonInt (Fraction x), VNonInt (Fraction y) => Qeq_bool x y
  | VString x, VString y => String.eqb x y
  | _, _ => false
  end.

End Js.
Export Js.

(* ===================================================================== *)
(** ** Random numbers *)
(* ===================================================================== *)

(** One result of [Math.random()]: the rational [num/den], in [0,1). *)
Record Rand : Type := mkRand {
  num : Z;
  den : Z;
  rand_ok : (0 <=? num) && (num <? den) = true
}.

(** [Math.floor(r * k)] for an integer [k]. *)
Definition floorMul (r : Rand) (k : Z) : Z := (num r * k) / den r.

(** [r < p/q] for a positive [q]. *)
Definition randLt (r : Rand) (p q : Z) : bool := num r * q <? p * den r.

(* ===================================================================== *)
(** ** Errors and results *)
(* ===================================================================== *)

(** The [throw] sites of the modelled code, one constructor each. *)
Inductive Error : Type :=
| ErrOperand1 (* 'Operand1 must be a non-negative integer' *)
| ErrOperand2 (* 'Operand2 must be a non-negative integer' *)
| ErrOperator (* 'Operator must be + or -' *)
| ErrResultIncorrect (given : Value) (expected : Z)
| ErrNegativeSubtraction (* 'Subtraction result cannot be negative' *)
| ErrInvalidDifficulty (v : Value)
| ErrInvalidOperationType (v : Value)
| ErrInvalidLayout (v : Value)
| ErrInvalidBackgroundStyle (v : Value)
| ErrProblemCount (* 'Problem count must be between 1 and 50' *)
| ErrCustomBackgroundUrl
| ErrConfigurationRequired (* 'Configuration is required' *)
| ErrUnsupportedOperation (name : string)
| ErrRatiosMustSum (* 'Ratios must sum to 1.0' *)
| ErrAdditionRatio (* 'Addition ratio must be between 0 and 1' *)
| ErrNoProblems (* 'No problems provided for layout calculation' *)
| ErrLayoutConfigRequired
| ErrInvalidLayoutResult (* 'Generated layout is invalid' *)
| TypeError (what : string)
| OutsideModel (what : string). (* behaviour the embedding does not cover *)

Inductive Result (A : Type) : Type :=
| Ok (a : A)
| Throw (e : Error).
Arguments Ok {A} a.
Arguments Throw {A} e.

Definition isOk {A} (r : Result A) : bool :=
  match r with Ok _ => true | Throw _ => false end.

(* ===================================================================== *)
(** ** The constant tables *)
(* ===================================================================== *)

Module Constants.

Record DifficultyLevel : Type := {
  dl_name : string;
  maxNumber : Z;
  minNumber : Z
}.

Record OperationType : Type := {
  op_name : string;
  symbol : string;
  operation : option (Z -> Z -> Z)
}.

Record Spacing : Type := { horizontal : Z; vertical : Z }.

Record LayoutType : Type := {
  lt_name : string;
  columns : Z;
  problemsPerPage : Z;
  spacing : Spacing
}.

Record BackgroundStyle : Type := {
  bg_name : string;
  bg_type : string
}.

(** The tables are looked up by own key; the names every object inherits
    (such as [toString]) are not part of the model. *)
Definition DIFFICULTY_LEVELS : gmap string DifficultyLevel :=
  list_to_map [
    ("within10", {| dl_name := "10以内"; maxNumber := 10; minNumber := 1 |});
    ("within20", {| dl_name := "20以内"; maxNumber := 20; minNumber := 1 |});
    ("within50", {| dl_name := "50以内"; maxNumber := 50; minNumber := 1 |});
    ("within100", {| dl_name := "100以内"; maxNumber := 100; minNumber := 1 |})
  ]%string.

Definition OPERATION_TYPES : gmap string OperationType :=
  list_to_map [
    ("addition", {| op_name := "加法"; symbol := "+";
                    operation := Some (fun a b => a + b) |});
    ("subtraction", {| op_name := "减法"; symbol := "-";
                       operation := Some (fun a b => a - b) |});
    ("mixed", {| op_name := "加减混合"; symbol := "±"; operation := None |})
  ]%string.

Definition LAYOUT_TYPES : gmap string LayoutType :=
  list_to_map [
    ("two-column", {| lt_name := "两列"; columns := 2; problemsPerPage := 20;
                      spacing := {| horizontal := 50; vertical := 80 |} |});
    ("three-column", {| lt_name := "三列"; columns := 3; problemsPerPage := 30;
                        spacing := {| horizontal := 40; vertical := 70 |} |})
  ]%string.

Definition BACKGROUND_STYLES : gmap string BackgroundStyle :=
  list_to_map [
    ("blank", {| bg_name := "空白"; bg_type := "blank" |});
    ("lined", {| bg_name := "横线"; bg_type := "lined" |});
    ("grid", {| bg_name := "方格"; bg_type := "grid" |});
    ("dotted", {| bg_name := "点阵"; bg_type := "dotted" |});
    ("custom", {| bg_name := "自定义"; bg_type := "custom" |})
  ]%string.

(** [VALIDATION_RULES.problemCount]. *)
Definition problemCount_min : Z := 1.
Definition problemCount_max : Z := 50.

(** [TABLE[v]]: the entry under the property key of [v]. The printed form
    of a value that is not a string names no key of the four tables. *)
Definition lookupTable {A} (table : gmap string A) (v : Value) : option A :=
  match v with
  | VString s => table !! s
  | _ => None
  end.

(** Truthiness of a looked-up entry: an entry is an object, a missing
    one is [undefined]. *)
Definition defined {A} (entry : option A) : bool :=
  match entry with Some _ => true | None => false end.

End Constants.
Export Constants.

(* ===================================================================== *)
(** ** Ambient effects and the state they thread *)
(* ===================================================================== *)

(** What the environment will answer: the k-th call of [Math.random()] and
    the k-th reading of the clock. *)
Record World : Type := {
  random : nat -> Rand;
  clock : nat -> Z
}.

(** Lines written with [console.warn]. *)
Inductive LogEntry : Type :=
| WarnDuplicate (slot : Z) (* 'Could not generate unique problem N, using duplicate' *)
| WarnValidationFailed (e : Error). (* 'Problem validation failed:' *)

(** The fields of a ProblemGenerator instance ([generatedProblems],
    [numberUsageTracker]) and the effects consumed and produced so far. *)
Record State : Type := mkState {
  world : World;
  draws : nat;
  ticks : nat;
  console : list LogEntry;
  generatedProblems : gset string;
  numberUsageTracker : gmap Z nat
}.

Definition M (A : Type) : Type := State -> Result A * State.

#[global] Instance M_ret : MRet M := fun A (a : A) st => (Ok a, st).

#[global] Instance M_bind : MBind M := fun A B (f : A -> M B) (m : M A) st =>
  match m st with
  | (Ok a, st') => f a st'
  | (Throw e, st') => (Throw e, st')
  end.

Definition throw {A} (e : Error) : M A := fun st => (Throw e, st).

Definition gets {A} (f : State -> A) : M A := fun st => (Ok (f st), st).

Definition modify (f : State -> State) : M unit := fun st => (Ok tt, f st).

(** [try { body } catch (error) { handler(error) }]. *)
Definition tryCatch {A} (body : M A) (handler : Error -> M A) : M A := fun st =>
  match body st with
  | (Ok a, st') => (Ok a, st')
  | (Throw e, st') => handler e st'
  end.

Definition Math_random : M Rand := fun st =>
  (Ok (random (world st) (draws st)),
   mkState (world st) (S (draws st)) (ticks st) (console st)
           (generatedProblems st) (numberUsageTracker st)).

Definition Date_now : M Z := fun st =>
  (Ok (clock (world st) (ticks st)),
   mkState (world st) (draws st) (S (ticks st)) (console st)
           (generatedProblems st) (numberUsageTracker st)).

Definition console_warn (e : LogEntry) : M unit := fun st =>
  (Ok tt,
   mkState (world st) (draws st) (ticks st) (console st ++ [e])
           (generatedProblems st) (numberUsageTracker st)).

(* ===================================================================== *)
(** ** MathProblem *)
(* ===================================================================== *)

Module MathProblem.

Inductive ProblemId : Type :=
| IdGiven (v : Value)
| IdGenerated (now : Z) (r : Rand).

(** A constructed problem. Construction validates the fields, so the
    operands and the result are stored as the integers, and the operator
    as the string, that validation found them to be. *)
Record Problem : Type := mkProblem {
  operand1 : Z;
  operand2 : Z;
  operator : string;
  result : Z;
  id : ProblemId;
  createdAt : Z
}.

(** [problem_${Date.now()}_${Math.random()...}]. *)
Definition generateId : M ProblemId :=
  now ← Date_now;
  r ← Math_random;
  mret (IdGenerated now r).

(** [validate()], on the four fields it reads. *)
Definition validate (operand1 operand2 operator result : Value) : Result unit :=
  if negb (isInteger operand1) || (asInt operand1 <? 0) then Throw ErrOperand1
  else if negb (isInteger operand2) || (asInt operand2 <? 0) then Throw ErrOperand2
  else if negb (isString operator "+") && negb (isString operator "-")
  then Throw ErrOperator
  else
    let expectedResult :=
      if isString operator "+"
      then asInt operand1 + asInt operand2
      else asInt operand1 - asInt operand2 in
    if negb (isNumber result expectedResult)
    then Throw (ErrResultIncorrect result expectedResult)
    else if isString operator "-" && (asInt result <? 0)
    then Throw ErrNegativeSubtraction
    else Ok tt.

(** [new MathProblem(operand1, operand2, operator, result, id)]. *)
Definition new (operand1 operand2 operator result : Value) (id : Value)
  : M Problem :=
  id' ← (if truthy id then mret (IdGiven id) else generateId);
  createdAt ← Date_now;
  match validate operand1 operand2 operator result with
  | Throw e => throw e
  | Ok _ =>
      mret (mkProblem (asInt operand1) (asInt operand2) (asString operator)
                      (asInt result) id' createdAt)
  end.

(** [problem.validate()] on a constructed problem. *)
Definition revalidate (p : Problem) : Result unit :=
  validate (VInt (operand1 p)) (VInt (operand2 p)) (VString (operator p))
           (VInt (result p)).

(** [fitsInDifficulty(difficultyLevel)]; the global table is defined. *)
Definition fitsInDifficulty (p : Problem) (difficultyLevel : Value) : bool :=
  match lookupTable DIFFICULTY_LEVELS difficultyLevel with
  | None => false
  | Some d =>
      (minNumber d <=? operand1 p) && (operand1 p <=? maxNumber d) &&
      (minNumber d <=? operand2 p) && (operand2 p <=? maxNumber d) &&
      (0 <=? result p)
  end.

(** [equals(other)] for another MathProblem. *)
Definition equals (this other : Problem) : bool :=
  (operand1 this =? operand1 other) && (operand2 this =? operand2 other)
  && String.eqb (operator this) (operator other).

Definition getDifficultyLevel (this : Problem) : string :=
  let maxOperand := Z.max (operand1 this) (operand2 this) in
  if maxOperand <=? 10 then "within10"
  else if maxOperand <=? 20 then "within20"
  else if maxOperand <=? 50 then "within50"
  else if maxOperand <=? 100 then "within100"
  else "custom".

End MathProblem.

(* ===================================================================== *)
(** ** WorksheetConfig *)
(* ===================================================================== *)

Module WorksheetConfig.

(** The [options] object of the constructor; an absent key reads
    [VUndefined]. *)
Record Options : Type := mkOptions {
  o_difficulty : Value;
  o_operationType : Value;
  o_layout : Value;
  o_backgroundStyle : Value;
  o_paperFormat : Value;
  o_customBackgroundUrl : Value;
  o_problemCount : Value;
  o_showAnswers : Value;
  o_title : Value
}.


(** The own properties of an instance. [createdAt] holds the time value
    of its Date. *)
Record Config : Type := mkConfig {
  difficulty : Value;
  operationType : Value;
  layout : Value;
  backgroundStyle : Value;
  paperFormat : Value;
  customBackgroundUrl : Value;
  problemCount : Value;
  showAnswers : Value;
  title : Value;
  createdAt : Value
}.

(** [LAYOUT_TYPES[layout] ? layoutConfig.problemsPerPage : 20]. *)
Definition defaultProblemCountFor (layout : Value) : Z :=
  match lookupTable LAYOUT_TYPES layout with
  | Some layoutConfig => problemsPerPage layoutConfig
  | None => 20
  end.

Definition getDefaultProblemCount (this : Config) : Z :=
  defaultProblemCountFor (layout this).

Definition validate (this : Config) : Result unit :=
  if negb (defined (lookupTable DIFFICULTY_LEVELS (difficulty this)))
  then Throw (ErrInvalidDifficulty (difficulty this))
  else if negb (defined (lookupTable OPERATION_TYPES (operationType this)))
  then Throw (ErrInvalidOperationType (operationType this))
  else if negb (defined (lookupTable LAYOUT_TYPES (layout this)))
  then Throw (ErrInvalidLayout (layout this))
  else if negb (defined (lookupTable BACKGROUND_STYLES (backgroundStyle this)))
  then Throw (ErrInvalidBackgroundStyle (backgroundStyle this))
  else if negb (isInteger (problemCount this))
          || (asInt (problemCount this) <? problemCount_min)
          || (asInt (problemCount this) >? problemCount_max)
  then Throw ErrProblemCount
  else if isString (backgroundStyle this) "custom"
          && negb (truthy (customBackgroundUrl this))
  then Throw ErrCustomBackgroundUrl
  else Ok tt.

(** [new WorksheetConfig(options)], at clock reading [now]. *)
Definition new (now : Z) (options : Options) : Result Config :=
  let layout := Js.orElse (o_layout options) (VString "two-column") in
  let this :=
    mkConfig
      (Js.orElse (o_difficulty options) (VString "within20"))
      (Js.orElse (o_operationType options) (VString "addition"))
      layout
      (Js.orElse (o_backgroundStyle options) (VString "blank"))
      (Js.orElse (o_paperFormat options) (VString "a4"))
      (Js.orElse (o_customBackgroundUrl options) VNull)
      (Js.orElse (o_problemCount options) (VInt (defaultProblemCountFor layout)))
      (Js.orElse (o_showAnswers options) (VBool false))
      (Js.orElse (o_title options) (VString ""))
      (VInt now) in
  match validate this with
  | Throw e => Throw e
  | Ok _ => Ok this
  end.

(** [clone()], at clock reading [now]. *)
Definition clone (now : Z) (this : Config) : Result Config :=
  new now (mkOptions (difficulty this) (operationType this) (layout this)
                     (backgroundStyle this) (paperFormat this)
                     (customBackgroundUrl this) (problemCount this)
                     (showAnswers this) (title this)).

Definition getDifficultyConfig (this : Config) : option DifficultyLevel :=
  lookupTable DIFFICULTY_LEVELS (difficulty this).

Definition getOperationConfig (this : Config) : option OperationType :=
  lookupTable OPERATION_TYPES (operationType this).

Definition getLayoutConfig (this : Config) : option LayoutType :=
  lookupTable LAYOUT_TYPES (layout this).

(** [updates[key]]. *)
Definition prop (updates : gmap string Value) (key : string) : Value :=
  default VUndefined (updates !! key).

(** The effect of the [forEach] of [update] on one own property: it is
    overwritten when [updates] has the key. *)
Definition assigned (updates : gmap string Value) (key : string) (old : Value)
  : Value :=
  match updates !! key with
  | Some v => v
  | None => old
  end.

(** The instance after the assignments of [update], before validation. *)
Definition applyUpdates (this : Config) (updates : gmap string Value) : Config :=
  let this1 :=
    mkConfig
      (assigned updates "difficulty" (difficulty this))
      (assigned updates "operationType" (operationType this))
      (assigned updates "layout" (layout this))
      (assigned updates "backgroundStyle" (backgroundStyle this))
      (assigned updates "paperFormat" (paperFormat this))
      (assigned updates "customBackgroundUrl" (customBackgroundUrl this))
      (assigned updates "problemCount" (problemCount this))
      (assigned updates "showAnswers" (showAnswers this))
      (assigned updates "title" (title this))
      (assigned updates "createdAt" (createdAt this)) in
  if truthy (prop updates "layout") && negb (truthy (prop updates "problemCount"))
  then
    mkConfig (difficulty this1) (operationType this1) (layout this1)
             (backgroundStyle this1) (paperFormat this1)
             (customBackgroundUrl this1)
             (VInt (getDefaultProblemCount this1))
             (showAnswers this1) (title this1) (createdAt this1)
  else this1.

(** [this.update(updates)]: the instance as the call leaves it, and
    whether the call returned ([this]) or threw. *)
Definition update (this : Config) (updates : gmap string Value)
  : Config * Result unit :=
  let this' := applyUpdates this updates in
  (this', validate this').

(** [equals(other)] for another WorksheetConfig. *)
Definition equals (this other : Config) : bool :=
  strictEquals (difficulty this) (difficulty other)
  && strictEquals (operationType this) (operationType other)
  && strictEquals (layout this) (layout other)
  && strictEquals (backgroundStyle this) (backgroundStyle other)
  && strictEquals (paperFormat this) (paperFormat other)
  && strictEquals (customBackgroundUrl this) (customBackgroundUrl other)
  && strictEquals (problemCount this) (problemCount other)
  && strictEquals (showAnswers this) (showAnswers other)
  && strictEquals (title this) (title other).



(** The plain object of [toJSON()]: the nine configuration values, and
    [createdAt] as the ISO string of the Date, which is kept here as the
    time value it denotes; [None] stands for an absent or empty
    [createdAt] of an object given to [fromJSON]. An ISO string is never
    empty, and parsing it gives back the time value. *)
Record Json : Type := mkJson {
  json_options : Options;
  json_createdAt : option Z
}.

(** [toJSON()]. An integer [createdAt] is the Date the constructor
    stored; any other value has no [toISOString]. *)
Definition toJSON (this : Config) : Result Json :=
  match createdAt this with
  | VInt t =>
      Ok (mkJson (mkOptions (difficulty this) (operationType this) (layout this)
                            (backgroundStyle this) (paperFormat this)
                            (customBackgroundUrl this) (problemCount this)
                            (showAnswers this) (title this))
                 (Some t))
  | _ => Throw (TypeError "this.createdAt.toISOString is not a function")
  end.

(** [WorksheetConfig.fromJSON(obj)], at clock reading [now]. *)
Definition fromJSON (now : Z) (obj : Json) : Result Config :=
  match new now (json_options obj) with
  | Throw e => Throw e
  | Ok config =>
      match json_createdAt obj with
      | Some t =>
          Ok (mkConfig (difficulty config) (operationType config) (layout config)
                       (backgroundStyle config) (paperFormat config)
                       (customBackgroundUrl config) (problemCount config)
                       (showAnswers config) (title config) (VInt t))
      | None => Ok config
      end
  end.

End WorksheetConfig.

(* ===================================================================== *)
(** ** ProblemGenerator *)
(* ===================================================================== *)

Module ProblemGenerator.

Import MathProblem.

(** [this.maxRetries]. *)
Definition maxRetries : nat := 100.

(** [this.generatedProblems.clear()]. *)
Definition clearGenerated : M unit :=
  modify (fun st =>
    mkState (world st) (draws st) (ticks st) (console st)
            ∅ (numberUsageTracker st)).

Definition resetDistributionTracking : M unit :=
  modify (fun st =>
    mkState (world st) (draws st) (ticks st) (console st)
            (generatedProblems st) ∅).

(** [tracker.get(num) || 0]. *)
Definition usageIn (tracker : gmap Z nat) (num : Z) : nat :=
  default 0%nat (tracker !! num).

Definition getNumberUsage (num : Z) : M nat :=
  gets (fun st => usageIn (numberUsageTracker st) num).

Definition trackNumberUsage (num : Z) : M unit :=
  currentCount ← getNumberUsage num;
  modify (fun st =>
    mkState (world st) (draws st) (ticks st) (console st)
            (generatedProblems st)
            (<[num := (currentCount + 1)%nat]> (numberUsageTracker st))).

(** [Math.min(...l)]. For an empty [l] JavaScript gives [Infinity]; the
    only use below then filters an empty list. *)
Definition minimum (l : list nat) : nat :=
  match l with
  | [] => 0%nat
  | x :: l' => foldr Nat.min x l'
  end.

(** The [numbers] array of [randomIntUniform]: value and usage of every
    integer of [min..max]. *)
Definition usageTable (tracker : gmap Z nat) (min max : Z) : list (Z * nat) :=
  (fun i => (i, usageIn tracker i)) <$> seqZ min (max - min + 1).

(** [numbers.filter(n => n.usage <= minUsage + 1)]. *)
Definition nearMinimum (numbers : list (Z * nat)) : list (Z * nat) :=
  let minUsage := minimum (snd <$> numbers) in
  List.filter (fun n => (snd n <=? minUsage + 1)%nat) numbers.

Definition randomIntUniform (min max : Z) : M Z :=
  let range := max - min + 1 in
  if range <=? 20 then
    tracker ← gets numberUsageTracker;
    let numbers := usageTable tracker min max in
    let candidates := nearMinimum numbers in
    r ← Math_random;
    match candidates !! Z.to_nat (floorMul r (Z.of_nat (length candidates))) with
    | Some selected => mret (fst selected)
    | None => throw (TypeError "selected is undefined")
    end
  else
    r ← Math_random;
    let candidate := floorMul r range + min in
    usage ← getNumberUsage candidate;
    if (2 <? usage)%nat then
      again ← Math_random;
      if randLt again 3 10 then
        r' ← Math_random;
        mret (floorMul r' range + min)
      else mret candidate
    else mret candidate.

Definition randomInt (min max : Z) (useUniformDistribution : bool) : M Z :=
  if useUniformDistribution then randomIntUniform min max
  else
    r ← Math_random;
    mret (floorMul r (max - min + 1) + min).

(** The body shared by [generateSingleProblem] and
    [generateSingleProblemOptimized], which differ only in the call that
    draws an operand. *)
Definition singleProblemWith (draw : Z -> Z -> M Z)
    (difficultyConfig : option DifficultyLevel)
    (operationConfig : option OperationType) : M Problem :=
  match difficultyConfig with
  | None => throw (TypeError "difficultyConfig is undefined")
  | Some d =>
      operand1 ← draw (minNumber d) (maxNumber d);
      operand2 ← draw (minNumber d) (maxNumber d);
      match operationConfig with
      | None => throw (TypeError "operationConfig is undefined")
      | Some oc =>
          '(operator, operand1, operand2) ←
            (if String.eqb (op_name oc) "加法" then
               mret ("+"%string, operand1, operand2)
             else if String.eqb (op_name oc) "减法" then
               if operand1 <? operand2
               then mret ("-"%string, operand2, operand1)
               else mret ("-"%string, operand1, operand2)
             else if String.eqb (op_name oc) "加减混合" then
               r ← Math_random;
               let operator := (if randLt r 1 2 then "+" else "-")%string in
               if String.eqb operator "-" && (operand1 <? operand2)
               then mret (operator, operand2, operand1)
               else mret (operator, operand1, operand2)
             else throw (ErrUnsupportedOperation (op_name oc)));
          let result :=
            if String.eqb operator "+"
            then operand1 + operand2
            else operand1 - operand2 in
          MathProblem.new (VInt operand1) (VInt operand2) (VString operator)
                          (VInt result) VNull
      end
  end.

Definition generateSingleProblem := singleProblemWith (fun min max => randomInt min max false).

Definition generateSingleProblemOptimized := singleProblemWith randomIntUniform.

Definition getProblemSignature (problem : Problem) : string :=
  pretty (operand1 problem) +:+ operator problem +:+ pretty (operand2 problem).

Definition isDuplicate (problem : Problem) : M bool :=
  gets (fun st =>
    bool_decide (getProblemSignature problem ∈ generatedProblems st)).

(** [this.generatedProblems.add(signature)]. *)
Definition addGenerated (signature : string) : M unit :=
  modify (fun st =>
    mkState (world st) (draws st) (ticks st) (console st)
            ({[signature]} ∪ generatedProblems st)
            (numberUsageTracker st)).

(** [validateProblem(problem, config)]; [problem] is a MathProblem. *)
Definition validateProblem (problem : Problem) (config : WorksheetConfig.Config)
  : M bool :=
  tryCatch
    (match revalidate problem with
     | Throw e => throw e
     | Ok _ =>
         if negb (fitsInDifficulty problem (WorksheetConfig.difficulty config))
         then mret false
         else
           match WorksheetConfig.getOperationConfig config with
           | None => throw (TypeError "operationConfig is undefined")
           | Some operationConfig =>
               if String.eqb (op_name operationConfig) "加法"
                  && negb (String.eqb (operator problem) "+")
               then mret false
               else if String.eqb (op_name operationConfig) "减法"
                       && negb (String.eqb (operator problem) "-")
               then mret false
               else if result problem <? 0 then mret false
               else mret true
           end
     end)
    (fun error => console_warn (WarnValidationFailed error);; mret false).

(** The loop [while (!problem && attempts < this.maxRetries)]: [remaining]
    is [maxRetries - attempts]. Returns [problem] and [attempts] as the
    loop leaves them. *)
Fixpoint findUnique (single : M Problem) (config : WorksheetConfig.Config)
    (remaining attempts : nat) : M (option Problem * nat) :=
  match remaining with
  | O => mret (None, attempts)
  | S remaining' =>
      candidate ← single;
      valid ← validateProblem candidate config;
      duplicate ← (if valid then isDuplicate candidate else mret false);
      if valid && negb duplicate then
        addGenerated (getProblemSignature candidate);;
        trackNumberUsage (operand1 candidate);;
        trackNumberUsage (operand2 candidate);;
        mret (Some candidate, S attempts)
      else findUnique single config remaining' (S attempts)
  end.

(** One iteration of the [for] loop of [generateProblems], for index [i]. *)
Definition fillSlot (single : M Problem) (config : WorksheetConfig.Config)
    (i : nat) : M Problem :=
  '(problem, _) ← findUnique single config maxRetries 0;
  match problem with
  | Some p => mret p
  | None =>
      p ← single;
      console_warn (WarnDuplicate (Z.of_nat i + 1));;
      mret p
  end.

(** The [for] loop: [n] more iterations from index [i]. *)
Fixpoint fillSlots (single : M Problem) (config : WorksheetConfig.Config)
    (n i : nat) : M (list Problem) :=
  match n with
  | O => mret []
  | S n' =>
      problem ← fillSlot single config i;
      problems ← fillSlots single config n' (S i);
      mret (problem :: problems)
  end.

(** The number of iterations of [for (let i = 0; i < bound; i++)];
    [None] when the embedding does not say (the loop does not end, or the
    bound is a string). *)
Definition loopBound (bound : Value) : option nat :=
  match bound with
  | VInt n => Some (Z.to_nat n)
  | VBool true => Some 1%nat
  | VNonInt (Fraction q) => Some (Z.to_nat (Qceiling q))
  | VNonInt PosInfinity | VString _ => None
  | _ => Some 0%nat
  end.

(** The body shared by [generateProblems] and
    [generateProblemsWithOptimizedDistribution]. [config] is [None] for
    a missing configuration; an omitted [count] is [VNull]. *)
Definition generateWith
    (single : option DifficultyLevel -> option OperationType -> M Problem)
    (config : option WorksheetConfig.Config) (count : Value)
  : M (list Problem) :=
  match config with
  | None => throw ErrConfigurationRequired
  | Some config =>
      let problemCount :=
        Js.orElse (Js.orElse count (WorksheetConfig.problemCount config)) (VInt 20) in
      let difficultyConfig := WorksheetConfig.getDifficultyConfig config in
      let operationConfig := WorksheetConfig.getOperationConfig config in
      clearGenerated;;
      resetDistributionTracking;;
      match loopBound problemCount with
      | Some n => fillSlots (single difficultyConfig operationConfig) config n 0
      | None => throw (OutsideModel "problemCount")
      end
  end.

Definition generateProblems := generateWith generateSingleProblem.

Definition generateProblemsWithOptimizedDistribution :=
  generateWith generateSingleProblemOptimized.

(** *** Ratio-controlled generation *)






(** [Math.round]. *)
Definition round (x : Q) : Z := Qfloor (x + (1 # 2)).





(** [[a[i], a[j]] = [a[j], a[i]]]. *)
Definition swap {A} (i j : nat) (a : list A) : list A :=
  match a !! i, a !! j with
  | Some ai, Some aj => <[j := ai]> (<[i := aj]> a)
  | _, _ => a
  end.

(** The loop of [shuffleArray], from index [i] down to 1. *)
Fixpoint shuffleFrom {A} (i : nat) (shuffled : list A) : M (list A) :=
  match i with
  | O => mret shuffled
  | S i' =>
      r ← Math_random;
      let j := Z.to_nat (floorMul r (Z.of_nat i + 1)) in
      shuffleFrom i' (swap i j shuffled)
  end.

Definition shuffleArray {A} (array : list A) : M (list A) :=
  shuffleFrom (length array - 1) array.


(** *** Balanced generation *)

(** [config.clone()] with [operationType] then set to [operationType]. *)
Definition cloneWithOperation (config : WorksheetConfig.Config)
    (operationType : string) : M WorksheetConfig.Config :=
  now ← Date_now;
  match WorksheetConfig.clone now config with
  | Throw e => throw e
  | Ok c =>
      mret (WorksheetConfig.mkConfig
              (WorksheetConfig.difficulty c) (VString operationType)
              (WorksheetConfig.layout c) (WorksheetConfig.backgroundStyle c)
              (WorksheetConfig.paperFormat c)
              (WorksheetConfig.customBackgroundUrl c)
              (WorksheetConfig.problemCount c) (WorksheetConfig.showAnswers c)
              (WorksheetConfig.title c) (WorksheetConfig.createdAt c))
  end.

Definition generateBalancedProblems (config : WorksheetConfig.Config)
    (count : Value) (additionRatio : Q) : M (list Problem) :=
  let problemCount :=
    Js.orElse (Js.orElse count (WorksheetConfig.problemCount config)) (VInt 20) in
  if negb (isString (WorksheetConfig.operationType config) "mixed")
  then generateProblems (Some config) problemCount
  else if negb (Qle_bool 0 additionRatio) || negb (Qle_bool additionRatio 1)
  then throw ErrAdditionRatio
  else
    match problemCount with
    | VInt n =>
        let additionCount := round (inject_Z n * additionRatio) in
        let subtractionCount := n - additionCount in
        additionConfig ← cloneWithOperation config "addition";
        additionProblems ← generateProblems (Some additionConfig) (VInt additionCount);
        subtractionConfig ← cloneWithOperation config "subtraction";
        subtractionProblems ←
          generateProblems (Some subtractionConfig) (VInt subtractionCount);
        shuffleArray (additionProblems ++ subtractionProblems)
    | _ => throw (OutsideModel "problemCount")
    end.

(** *** Helpers on lists of problems and numbers *)

(** The loop of [ensureUniqueness], with the signatures [seen] so far. *)
Fixpoint ensureUniquenessFrom (seen : gset string) (problems : list Problem)
  : list Problem :=
  match problems with
  | [] => []
  | problem :: rest =>
      let signature := getProblemSignature problem in
      if bool_decide (signature ∈ seen)
      then ensureUniquenessFrom seen rest
      else problem :: ensureUniquenessFrom ({[signature]} ∪ seen) rest
  end.

Definition ensureUniqueness (problems : list Problem) : list Problem :=
  ensureUniquenessFrom ∅ problems.






(** [problems.filter(p => p.operator === op).length]. *)
Definition countOperator (op : string) (problems : list Problem) : Z :=
  Z.of_nat (length (List.filter (fun p => String.eqb (operator p) op) problems)).


(** *** Constrained generation *)

(** The [constraints] object: an absent bound is [None]; [allowZero] is
    its truthiness; [specificOperands] is an array or absent. *)
Record Constraints : Type := {
  minResult : option Z;
  maxResult : option Z;
  allowZero : bool;
  specificOperands : option (list Z)
}.

(** The checks of [generateConstrainedProblems] on a candidate that
    [validateProblem] accepted. *)
Definition meetsConstraints (constraints : Constraints) (candidate : Problem) : bool :=
  match minResult constraints with
  | Some m => negb (result candidate <? m)
  | None => true
  end
  && match maxResult constraints with
     | Some m => negb (result candidate >? m)
     | None => true
     end
  && negb (negb (allowZero constraints) && (result candidate =? 0))
  && match specificOperands constraints with
     | Some l => bool_decide (operand1 candidate ∈ l)
                 || bool_decide (operand2 candidate ∈ l)
     | None => true
     end.

(** The [while] loop of [generateConstrainedProblems]; [remaining] is
    [maxRetries - attempts]. *)
Fixpoint findConstrained (constraints : Constraints)
    (config : WorksheetConfig.Config) (remaining : nat) : M (option Problem) :=
  match remaining with
  | O => mret None
  | S remaining' =>
      candidate ← generateSingleProblem (WorksheetConfig.getDifficultyConfig config)
                                        (WorksheetConfig.getOperationConfig config);
      valid ← validateProblem candidate config;
      let valid := valid && meetsConstraints constraints candidate in
      duplicate ← (if valid then isDuplicate candidate else mret false);
      if valid && negb duplicate then
        addGenerated (getProblemSignature candidate);;
        mret (Some candidate)
      else findConstrained constraints config remaining'
  end.

(** The [for] loop: [n] more iterations. A slot whose loop finds nothing
    is left out. *)
Fixpoint constrainedSlots (constraints : Constraints)
    (config : WorksheetConfig.Config) (n : nat) : M (list Problem) :=
  match n with
  | O => mret []
  | S n' =>
      problem ← findConstrained constraints config maxRetries;
      problems ← constrainedSlots constraints config n';
      mret (match problem with
            | Some p => p :: problems
            | None => problems
            end)
  end.

Definition generateConstrainedProblems (constraints : Constraints)
    (config : WorksheetConfig.Config) : M (list Problem) :=
  match loopBound (Js.orElse (WorksheetConfig.problemCount config) (VInt 20)) with
  | Some n => constrainedSlots constraints config n
  | None => throw (OutsideModel "problemCount")
  end.

End ProblemGenerator.

(* ===================================================================== *)
(** ** LayoutEngine *)
(* ===================================================================== *)

Module LayoutEngine.

Import MathProblem.
Local Open Scope Q_scope.

Definition Qltb (a b : Q) : bool := negb (Qle_bool b a).
Definition Qmax (a b : Q) : Q := if Qle_bool a b then b else a.

Record Position : Type := mkPosition {
  x : Q;
  y : Q;
  width : Q;
  height : Q
}.

Record Metadata : Type := mkMetadata {
  row : Z;
  column : Z;
  index : Z
}.

Record ProblemPosition : Type := mkProblemPosition {
  problem : Problem;
  position : Position;
  metadata : Metadata
}.

Record Margins : Type := {
  top : Q;
  right : Q;
  bottom : Q;
  left : Q
}.

Record CanvasConfig : Type := {
  canvas_width : Q;
  canvas_height : Q;
  margins : Margins
}.

(** The page: A4 at 300 DPI. *)
Definition CANVAS_CONFIG : CanvasConfig :=
  {| canvas_width := 2480; canvas_height := 3508;
     margins := {| top := 150; right := 150; bottom := 150; left := 150 |} |}.

(** [FONT_CONFIG.problem.size] and [FONT_CONFIG.lineHeight]. *)
Definition font_problem_size : Q := 24.
Definition font_lineHeight : Q := 12 # 10.

Record LayoutConfig : Type := {
  lc_columns : Z;
  lc_spacing : Spacing;
  lc_problemsPerPage : Z;
  alignment : string;
  distribution : string
}.

Record AvailableSpace : Type := {
  av_width : Q;
  av_height : Q;
  startX : Q;
  startY : Q
}.

Record LayoutMetadata : Type := {
  totalProblems : Z;
  md_columns : Z;
  rows : Z
}.

Record Layout : Type := mkLayout {
  problems : list ProblemPosition;
  pageSize : Q * Q; (* width, height *)
  layout_margins : Margins;
  layoutConfig : LayoutConfig;
  availableSpace : AvailableSpace;
  layout_metadata : LayoutMetadata
}.

Definition getLayoutConfig (config : WorksheetConfig.Config) : Result LayoutConfig :=
  match WorksheetConfig.getLayoutConfig config with
  | None => Throw (TypeError "baseConfig is undefined")
  | Some baseConfig =>
      Ok {| lc_columns := columns baseConfig;
            lc_spacing := {| horizontal := horizontal (spacing baseConfig);
                             vertical := vertical (spacing baseConfig) |};
            lc_problemsPerPage := problemsPerPage baseConfig;
            alignment := "left";
            distribution := "even" |}
  end.

Definition getCanvasConfig : CanvasConfig := CANVAS_CONFIG.

Definition calculateAvailableSpace (canvasConfig : CanvasConfig) : AvailableSpace :=
  let m := margins canvasConfig in
  {| av_width := canvas_width canvasConfig - left m - right m;
     av_height := canvas_height canvasConfig - top m - bottom m;
     startX := left m;
     startY := top m |}.

(** The [height] of [calculateProblemDimensions]: line height plus
    padding. *)
Definition problemHeight : Q := font_problem_size * font_lineHeight + 20.

(** [Math.ceil(n / columns)]. *)
Definition rowsFor (n : nat) (columns : Z) : Z :=
  Qceiling (inject_Z (Z.of_nat n) / inject_Z columns).

Definition calculateProblemPositions (problems : list Problem)
    (layoutConfig : LayoutConfig) (availableSpace : AvailableSpace)
  : list ProblemPosition :=
  let columns := lc_columns layoutConfig in
  let spacing := lc_spacing layoutConfig in
  let totalHorizontalSpacing := inject_Z ((columns - 1) * horizontal spacing) in
  let columnWidth :=
    (av_width availableSpace - totalHorizontalSpacing) / inject_Z columns in
  let totalRows := rowsFor (length problems) columns in
  let totalVerticalSpacing := inject_Z ((totalRows - 1) * vertical spacing) in
  let availableVerticalSpace := av_height availableSpace - totalVerticalSpacing in
  let rowHeight :=
    Qmax problemHeight (availableVerticalSpace / inject_Z totalRows) in
  imap (fun (i : nat) (problem : Problem) =>
          let index := Z.of_nat i in
          let row := (index / columns)%Z in
          let col := Z.rem index columns in
          mkProblemPosition problem
            (mkPosition
               (startX availableSpace
                + inject_Z col * (columnWidth + inject_Z (horizontal spacing)))
               (startY availableSpace
                + inject_Z row * (rowHeight + inject_Z (vertical spacing)))
               columnWidth rowHeight)
            (mkMetadata row col index))
       problems.

Definition optimizeVerticalSpacing (problems : list ProblemPosition)
    (layout : Layout) : list ProblemPosition :=
  match problems with
  | [] => problems
  | _ =>
      let columns := lc_columns (layoutConfig layout) in
      let totalRows := rowsFor (length problems) columns in
      if (totalRows <=? 1)%Z then problems
      else
        let usedHeight :=
          foldl (fun max p => Qmax max (y (position p) + height (position p)))
                0 problems in
        let availableHeight := av_height (availableSpace layout) in
        let remainingSpace :=
          availableHeight - (usedHeight - startY (availableSpace layout)) in
        if Qltb 0 remainingSpace then
          let extraSpacePerGap := remainingSpace / inject_Z (totalRows - 1) in
          imap (fun (i : nat) (problemPos : ProblemPosition) =>
                  let row := (Z.of_nat i / columns)%Z in
                  if (0 <? row)%Z then
                    let pos := position problemPos in
                    mkProblemPosition (problem problemPos)
                      (mkPosition (x pos)
                                  (y pos + inject_Z row * extraSpacePerGap)
                                  (width pos) (height pos))
                      (metadata problemPos)
                  else problemPos)
               problems
        else problems
  end.

(** Left alignment: every problem is already where it belongs. *)
Definition optimizeHorizontalAlignment (problems : list ProblemPosition)
    (layout : Layout) : list ProblemPosition := problems.

(** The comparator of the sort in [preventOverlaps]. *)
Definition compareByPosition (a b : ProblemPosition) : Q :=
  if Qltb (Qabs (y (position a) - y (position b))) 10
  then x (position a) - x (position b)
  else y (position a) - y (position b).

(** [Array.prototype.sort] is stable; for a comparator that is a
    consistent order every stable sort gives the result of this one. *)
Fixpoint insertSorted (compare : ProblemPosition -> ProblemPosition -> Q)
    (a : ProblemPosition) (sorted : list ProblemPosition) : list ProblemPosition :=
  match sorted with
  | [] => [a]
  | b :: sorted' =>
      if Qltb 0 (compare a b)
      then b :: insertSorted compare a sorted'
      else a :: sorted
  end.

Definition sort (compare : ProblemPosition -> ProblemPosition -> Q)
    (l : list ProblemPosition) : list ProblemPosition :=
  foldr (insertSorted compare) [] l.

(** The sweep of [preventOverlaps] from index 1 on; [previous] is the
    element before, as already adjusted. *)
Fixpoint sweep (previous : ProblemPosition) (rest : list ProblemPosition)
  : list ProblemPosition :=
  match rest with
  | [] => []
  | current :: rest' =>
      let prevRight := x (position previous) + width (position previous) in
      let current' :=
        if Qltb (Qabs (y (position current) - y (position previous))) 10
           && Qltb (x (position current)) (prevRight + 10)
        then
          mkProblemPosition (problem current)
            (mkPosition (prevRight + 20) (y (position current))
                        (width (position current)) (height (position current)))
            (metadata current)
        else current in
      current' :: sweep current' rest'
  end.

Definition preventOverlaps (problems : list ProblemPosition)
  : list ProblemPosition :=
  match sort compareByPosition problems with
  | [] => []
  | first :: rest => first :: sweep first rest
  end.

Definition optimizeSpacing (layout : Layout) : Layout :=
  let problems1 := optimizeVerticalSpacing (problems layout) layout in
  let problems2 := optimizeHorizontalAlignment problems1 layout in
  let problems3 := preventOverlaps problems2 in
  mkLayout problems3 (pageSize layout) (layout_margins layout)
           (layoutConfig layout) (availableSpace layout)
           (layout_metadata layout).

(** Every number of the embedding is finite, so the position is valid
    when its dimensions are positive. *)
Definition validateProblemPosition (problemPos : ProblemPosition)
    (layout : Layout) : bool :=
  let pos := position problemPos in
  negb (Qle_bool (width pos) 0 || Qle_bool (height pos) 0).

Definition problemsOverlap (problem1 problem2 : ProblemPosition) : bool :=
  let p1 := position problem1 in
  let p2 := position problem2 in
  negb (Qle_bool (x p1 + width p1) (x p2)
        || Qle_bool (x p2 + width p2) (x p1)
        || Qle_bool (y p1 + height p1) (y p2)
        || Qle_bool (y p2 + height p2) (y p1)).

(** The nested loops over [i < j]. *)
Fixpoint hasOverlaps (problems : list ProblemPosition) : bool :=
  match problems with
  | [] => false
  | p :: rest => existsb (problemsOverlap p) rest || hasOverlaps rest
  end.

Definition problemsFitInBounds (problems : list ProblemPosition)
    (layout : Layout) : bool :=
  let pageWidth := fst (pageSize layout) in
  let pageHeight := snd (pageSize layout) in
  forallb (fun problemPos =>
             let pos := position problemPos in
             negb (Qltb (x pos) 0 || Qltb (y pos) 0
                   || Qltb pageWidth (x pos + width pos)
                   || Qltb pageHeight (y pos + height pos)))
          problems.

Definition validateLayout (layout : Layout) : bool :=
  if negb (forallb (fun p => validateProblemPosition p layout) (problems layout))
  then false
  else if hasOverlaps (problems layout) then false
  else if negb (problemsFitInBounds (problems layout) layout) then false
  else true.

(** [calculateLayout(problems, config)]; [None] stands for a missing
    argument. The timestamp of the metadata, the console and the
    [currentLayout] cache of the engine are not part of the embedding. *)
Definition calculateLayout (problems : option (list Problem))
    (config : option WorksheetConfig.Config) : Result Layout :=
  match problems with
  | None | Some [] => Throw ErrNoProblems
  | Some problems =>
      match config with
      | None => Throw ErrLayoutConfigRequired
      | Some config =>
          match getLayoutConfig config with
          | Throw e => Throw e
          | Ok layoutConfig =>
              let canvasConfig := getCanvasConfig in
              let availableSpace := calculateAvailableSpace canvasConfig in
              let problemPositions :=
                calculateProblemPositions problems layoutConfig availableSpace in
              let layout :=
                mkLayout problemPositions
                  (canvas_width canvasConfig, canvas_height canvasConfig)
                  (margins canvasConfig) layoutConfig availableSpace
                  {| totalProblems := Z.of_nat (length problems);
                     md_columns := lc_columns layoutConfig;
                     rows := rowsFor (length problems) (lc_columns layoutConfig) |} in
              let optimizedLayout := optimizeSpacing layout in
              if negb (validateLayout optimizedLayout)
              then Throw ErrInvalidLayoutResult
              else Ok optimizedLayout
          end
      end
  end.

End LayoutEngine.

(* ===================================================================== *)
(** ** ConfigurationManager *)
(* ===================================================================== *)

Module ConfigurationManager.

(** The nested loops [for a = min..max, for b = min..a: count++]. *)
Definition countOrderedPairs (minNumber maxNumber : Z) : Z :=
  foldl (fun count a =>
           foldl (fun count _ => count + 1) count (seqZ minNumber (a - minNumber + 1)))
        0 (seqZ minNumber (maxNumber - minNumber + 1)).

Definition _calculateMaxPossibleProblems (config : WorksheetConfig.Config)
  : Result Z :=
  match WorksheetConfig.getDifficultyConfig config with
  | None => Throw (TypeError "difficultyConfig is undefined")
  | Some difficultyConfig =>
      let minNumber := minNumber difficultyConfig in
      let maxNumber := maxNumber difficultyConfig in
      if isString (WorksheetConfig.operationType config) "addition" then
        let range := maxNumber - minNumber + 1 in
        Ok (range * range)
      else if isString (WorksheetConfig.operationType config) "subtraction" then
        Ok (countOrderedPairs minNumber maxNumber)
      else if isString (WorksheetConfig.operationType config) "mixed" then
        let additionCount := (maxNumber - minNumber + 1) ^ 2 in
        Ok (additionCount + countOrderedPairs minNumber maxNumber)
      else Ok 0
  end.



Section Validation.

(** Whether [new URL(v)] returns. *)
Variable validUrl : Value -> bool.






End Validation.

(** [typeof v]. *)
Definition typeOf (v : Value) : string :=
  match v with
  | VUndefined => "undefined"
  | VNull => "object"
  | VBool _ => "boolean"
  | VInt _ | VNonInt _ => "number"
  | VString _ => "string"
  end.

(** [v === undefined || v === null]. *)
Definition missing (v : Value) : bool :=
  match v with VUndefined | VNull => true | _ => false end.

(** An entry of [validationRules]. [allowedValues] says whether the rule
    lists allowed values; only the wording of an error depends on it. *)
Record Rule : Type := {
  required : bool;
  type : option string;
  allowedValues : bool;
  validator : Value -> WorksheetConfig.Options -> bool;
  maxLength : option nat;
  min : option Z;
  max : option Z
}.

(** An entry of the [errors] array of [validateOptions]. *)
Inductive OptionError : Type :=
| IsRequired (property : string) (* '... is required' *)
| WrongType (property : string) (* '... must be of type ...' *)
| NotAllowed (property : string) (* '... must be one of: ...' *)
| InvalidValue (property : string) (* '... has invalid value: ...' *)
| TooLong (property : string) (* '... must not exceed ... characters' *)
| BelowMinimum (property : string) (* '... must be at least ...' *)
| AboveMaximum (property : string). (* '... must not exceed ...' *)

Section OptionValidation.

(** [s.length]: the number of UTF-16 code units of a string. *)
Variable jsLength : string -> nat.

(** [_initializeValidationRules()], in the order of its keys, each rule
    with the option it reads. *)
Definition validationRules
  : list (string * Rule * (WorksheetConfig.Options -> Value)) :=
  [ ("difficulty"%string,
     {| required := true; type := None; allowedValues := true;
        validator := fun value _ => defined (lookupTable DIFFICULTY_LEVELS value);
        maxLength := None; min := None; max := None |},
     WorksheetConfig.o_difficulty);
    ("operationType"%string,
     {| required := true; type := None; allowedValues := true;
        validator := fun value _ => defined (lookupTable OPERATION_TYPES value);
        maxLength := None; min := None; max := None |},
     WorksheetConfig.o_operationType);
    ("layout"%string,
     {| required := true; type := None; allowedValues := true;
        validator := fun value _ => defined (lookupTable LAYOUT_TYPES value);
        maxLength := None; min := None; max := None |},
     WorksheetConfig.o_layout);
    ("backgroundStyle"%string,
     {| required := true; type := None; allowedValues := true;
        validator := fun value _ => defined (lookupTable BACKGROUND_STYLES value);
        maxLength := None; min := None; max := None |},
     WorksheetConfig.o_backgroundStyle);
    ("paperFormat"%string,
     {| required := true; type := None; allowedValues := true;
        validator := fun value _ => isString value "a4";
        maxLength := None; min := None; max := None |},
     WorksheetConfig.o_paperFormat);
    ("problemCount"%string,
     {| required := true; type := Some "number"%string; allowedValues := false;
        validator := fun value _ =>
          isInteger value && (problemCount_min <=? asInt value)
          && (asInt value <=? problemCount_max);
        maxLength := None;
        min := Some problemCount_min; max := Some problemCount_max |},
     WorksheetConfig.o_problemCount);
    ("showAnswers"%string,
     {| required := false; type := Some "boolean"%string; allowedValues := false;
        validator := fun value _ => String.eqb (typeOf value) "boolean";
        maxLength := None; min := None; max := None |},
     WorksheetConfig.o_showAnswers);
    ("title"%string,
     {| required := false; type := Some "string"%string; allowedValues := false;
        validator := fun value _ =>
          match value with
          | VString s => (jsLength s <=? 100)%nat
          | _ => false
          end;
        maxLength := Some 100%nat; min := None; max := None |},
     WorksheetConfig.o_title);
    ("customBackgroundUrl"%string,
     {| required := false; type := Some "string"%string; allowedValues := false;
        validator := fun value config =>
          if isString (WorksheetConfig.o_backgroundStyle config) "custom"
          then match value with
               | VString s => negb (String.eqb s "")
               | _ => false
               end
          else true;
        maxLength := None; min := None; max := None |},
     WorksheetConfig.o_customBackgroundUrl) ].

(** One iteration of the loop of [validateOptions]. The checks of the
    length and of the range come after the validator has passed; in the
    rules above the value is then a string, respectively an integer. *)
Definition checkProperty (property : string) (rule : Rule)
    (options : WorksheetConfig.Options) (value : Value) : list OptionError :=
  if required rule && missing value then [IsRequired property]
  else if missing value then []
  else if match type rule with
          | Some t => negb (String.eqb (typeOf value) t)
          | None => false
          end
  then [WrongType property]
  else if negb (validator rule value options)
  then [if allowedValues rule then NotAllowed property else InvalidValue property]
  else
    (if match maxLength rule, value with
        | Some m, VString s => (m <? jsLength s)%nat
        | _, _ => false
        end
     then [TooLong property] else [])
    ++ (if match min rule with
           | Some m => asInt value <? m
           | None => false
           end
        then [BelowMinimum property] else [])
    ++ (if match max rule with
           | Some m => asInt value >? m
           | None => false
           end
        then [AboveMaximum property] else []).

(** The [errors] of [validateOptions(options)]; the warning about unknown
    properties is not part of the embedding. *)
Definition validateOptions (options : WorksheetConfig.Options) : list OptionError :=
  validationRules ≫= fun '(property, rule, get) =>
    checkProperty property rule options (get options).

End OptionValidation.



End ConfigurationManager.

(* ===================================================================== *)
(** ** Specification predicates *)
(* ===================================================================== *)

(** The Problem invariant, on the arguments of the constructor: operands
    that are non-negative integers, an operator that is + or -, and a result
    that is the value of the operation and not negative. *)
Definition ProblemInvariant (operand1 operand2 operator result : Value) : Prop :=
  exists a b : Z,
    operand1 = VInt a /\ operand2 = VInt b /\ 0 <= a /\ 0 <= b /\
    ((operator = VString "+" /\ result = VInt (a + b)) \/
     (operator = VString "-" /\ result = VInt (a - b) /\ b <= a)).

(** The invariant as a constructed problem carries it. *)
Definition WellFormedProblem (p : MathProblem.Problem) : Prop :=
  0 <= MathProblem.operand1 p /\ 0 <= MathProblem.operand2 p /\
  0 <= MathProblem.result p /\
  ((MathProblem.operator p = "+"%string /\
    MathProblem.result p = MathProblem.operand1 p + MathProblem.operand2 p) \/
   (MathProblem.operator p = "-"%string /\
    MathProblem.result p = MathProblem.operand1 p - MathProblem.operand2 p /\
    MathProblem.operand2 p <= MathProblem.operand1 p)).

(** [v] is an integer of [1, 50]. *)
Definition CountInRange (v : Value) : Prop :=
  exists n : Z, v = VInt n /\ 1 <= n <= 50.

(** [v] is a key of [table]. *)
Definition KeyOf {A} (table : gmap string A) (v : Value) : Prop :=
  exists k : string, v = VString k /\ is_Some (table !! k).

(** A value that is neither missing nor empty. *)
Definition NonEmpty (v : Value) : Prop :=
  truthy v = true /\ v <> VString "" /\ v <> VNull /\ v <> VUndefined.

(** The Configuration invariant. *)
Definition ConfigInvariant (c : WorksheetConfig.Config) : Prop :=
  KeyOf DIFFICULTY_LEVELS (WorksheetConfig.difficulty c) /\
  KeyOf OPERATION_TYPES (WorksheetConfig.operationType c) /\
  KeyOf LAYOUT_TYPES (WorksheetConfig.layout c) /\
  KeyOf BACKGROUND_STYLES (WorksheetConfig.backgroundStyle c) /\
  CountInRange (WorksheetConfig.problemCount c) /\
  (WorksheetConfig.backgroundStyle c = VString "custom" ->
   NonEmpty (WorksheetConfig.customBackgroundUrl c)).

(** Both operands of [p] lie in the range of the difficulty [d]. *)
Definition InRange (d : DifficultyLevel) (p : MathProblem.Problem) : Prop :=
  minNumber d <= MathProblem.operand1 p <= maxNumber d /\
  minNumber d <= MathProblem.operand2 p <= maxNumber d.

(* ===================================================================== *)
(** ** Predicates of the proofs, concrete worlds and configurations *)
(* ===================================================================== *)

(** The configuration [createDefault()] builds, and the options it is
    built from. *)
Definition defaultOptions : WorksheetConfig.Options :=
  WorksheetConfig.mkOptions
    (VString "within20") (VString "addition") (VString "two-column")
    (VString "blank") (VString "a4") VUndefined (VInt 20) (VBool false)
    (VString "").

Definition defaultConfig : WorksheetConfig.Config :=
  WorksheetConfig.mkConfig
    (VString "within20") (VString "addition") (VString "two-column")
    (VString "blank") (VString "a4") VNull (VInt 20) (VBool false)
    (VString "") (VInt 0).

(** Options that give only a problem count. *)
Definition onlyCount (v : Value) : WorksheetConfig.Options :=
  WorksheetConfig.mkOptions VUndefined VUndefined VUndefined VUndefined
                            VUndefined VUndefined v VUndefined VUndefined.

(** [m], run from [st], returns a value and leaves a state that satisfy
    [Q]; in particular it does not throw. *)
Definition returns {A} (m : M A) (st : State) (Q : A -> State -> Prop) : Prop :=
  exists a st', m st = (Ok a, st') /\ Q a st'.

(** Between [st] and [st'] only random numbers were drawn and the clock
    read: the console and the fields of the generator are as before. *)
Definition sameGenerator (st st' : State) : Prop :=
  world st' = world st /\ console st' = console st /\
  generatedProblems st' = generatedProblems st /\
  numberUsageTracker st' = numberUsageTracker st.

(** What the loop needs of the call that generates one problem. *)
Definition SingleSpec (d : DifficultyLevel) (single : M MathProblem.Problem) : Prop :=
  forall st, returns single st (fun p st' =>
    InRange d p /\ WellFormedProblem p /\ sameGenerator st st').

(** What [singleProblemWith] needs of the call that draws an operand. *)
Definition DrawSpec (draw : Z -> Z -> M Z) : Prop :=
  forall min max st, min <= max ->
    returns (draw min max) st (fun v st' => min <= v <= max /\ sameGenerator st st').

(** The three operation names of [OPERATION_TYPES]. *)
Definition KnownOperation (oc : OperationType) : Prop :=
  op_name oc = "加法"%string \/ op_name oc = "减法"%string \/
  op_name oc = "加减混合"%string.

(** The state after [n] more calls of [Math.random()]. *)
Definition drawn (n : nat) (st : State) : State :=
  mkState (world st) (n + draws st) (ticks st) (console st)
          (generatedProblems st) (numberUsageTracker st).

(** The plain uniform draw [Math.floor(r * (max - min + 1)) + min]. *)
Definition plainDraw (r : Rand) (min max : Z) : Z :=
  floorMul r (max - min + 1) + min.

(** The state after [console.warn] wrote [e]. *)
Definition warned (e : LogEntry) (st : State) : State :=
  mkState (world st) (draws st) (ticks st) (console st ++ [e])
          (generatedProblems st) (numberUsageTracker st).

(** How the loop [findUnique], entered in [st] with [attempts] tries made
    and [remaining] left, ends: with a problem whose signature was not yet
    generated, or with every remaining try used and the generator
    untouched. Nothing is written to the console. *)
Definition UniqueLoopEnds (d : DifficultyLevel) (st : State)
    (attempts remaining : nat)
    (res : option MathProblem.Problem * nat) (st' : State) : Prop :=
  world st' = world st /\ console st' = console st /\
  (snd res <= attempts + remaining)%nat /\
  match fst res with
  | Some p =>
      InRange d p /\ WellFormedProblem p /\
      (ProblemGenerator.getProblemSignature p ∉ generatedProblems st) /\
      (ProblemGenerator.getProblemSignature p ∈ generatedProblems st') /\
      (attempts < snd res)%nat
  | None =>
      snd res = (attempts + remaining)%nat /\
      generatedProblems st' = generatedProblems st /\
      numberUsageTracker st' = numberUsageTracker st
  end.

Definition zeroRand : Rand := mkRand 0 1 eq_refl.
Definition aboveTenth : Rand := mkRand 3 20 eq_refl. (* 0.15 *)

(** [Math.random()] always answers 0. *)
Definition constantWorld : World :=
  {| random := fun _ => zeroRand; clock := fun k => Z.of_nat k |}.

(** [Math.random()] answers 0.15 at its fifth call and 0 otherwise. *)
Definition fifthCallWorld : World :=
  {| random := fun k => if (k =? 4)%nat then aboveTenth else zeroRand;
     clock := fun k => Z.of_nat k |}.

(** A generator just constructed. *)
Definition freshState (w : World) : State := mkState w 0 0 [] ∅ ∅.

(** [{difficulty: 'within10', operationType: 'addition', problemCount: 5}],
    constructed. *)
Definition within10Addition : WorksheetConfig.Config :=
  WorksheetConfig.mkConfig
    (VString "within10") (VString "addition") (VString "two-column")
    (VString "blank") (VString "a4") VNull (VInt 5) (VBool false)
    (VString "") (VInt 0).

(** [{difficulty: 'within10', operationType: 'mixed', problemCount: 5}],
    constructed. *)
Definition within10Mixed : WorksheetConfig.Config :=
  WorksheetConfig.mkConfig
    (VString "within10") (VString "mixed") (VString "two-column")
    (VString "blank") (VString "a4") VNull (VInt 5) (VBool false)
    (VString "") (VInt 0).

(** The operand pairs of the problems a run returned. *)
Definition operandsOf (r : Result (list MathProblem.Problem)) : option (list (Z * Z)) :=
  match r with
  | Ok ps => Some (map (fun p => (MathProblem.operand1 p, MathProblem.operand2 p)) ps)
  | Throw _ => None
  end.

(** Two rectangles intersect: they share a region of positive area. *)
Definition Intersect (a b : LayoutEngine.Position) : Prop :=
  (LayoutEngine.x a < LayoutEngine.x b + LayoutEngine.width b /\
   LayoutEngine.x b < LayoutEngine.x a + LayoutEngine.width a /\
   LayoutEngine.y a < LayoutEngine.y b + LayoutEngine.height b /\
   LayoutEngine.y b < LayoutEngine.y a + LayoutEngine.height a)%Q.

(** A rectangle lies within [0, width] x [0, height] of the page. *)
Definition WithinPage (pageSize : Q * Q) (a : LayoutEngine.Position) : Prop :=
  (0 <= LayoutEngine.x a /\ 0 <= LayoutEngine.y a /\
   LayoutEngine.x a + LayoutEngine.width a <= fst pageSize /\
   LayoutEngine.y a + LayoutEngine.height a <= snd pageSize)%Q.

(** Eight problems to lay out. *)
Definition eightProblems : list MathProblem.Problem :=
  (fun k => MathProblem.mkProblem k 1 "+" (k + 1)
              (MathProblem.IdGiven (VString "p")) 0) <$> seqZ 1 8.

(** A decimal digit. *)
Definition digitChar (c : Ascii.ascii) : Prop :=
  c ∈ ["0"; "1"; "2"; "3"; "4"; "5"; "6"; "7"; "8"; "9"]%char.

(** A string of decimal digits. *)
Fixpoint allDigits (s : string) : Prop :=
  match s with
  | EmptyString => True
  | String c r => digitChar c /\ allDigits r
  end.

(** The fields [equals] and the signature look at are the same. *)
Definition SameProblem (p q : MathProblem.Problem) : Prop :=
  MathProblem.operand1 p = MathProblem.operand1 q /\
  MathProblem.operand2 p = MathProblem.operand2 q /\
  MathProblem.operator p = MathProblem.operator q.

(** The call [single] returns a well-formed problem that satisfies [P],
    and only draws random numbers and reads the clock. *)
Definition GoodSingle (P : MathProblem.Problem -> Prop)
    (single : M MathProblem.Problem) : Prop :=
  forall st, returns single st (fun p st' =>
    P p /\ WellFormedProblem p /\ sameGenerator st st').

(** The operator of [p] is the one the operation [oc] asks for: + for
    addition, - for subtraction, either for mixed. *)
Definition Conforms (oc : OperationType) (p : MathProblem.Problem) : Prop :=
  (op_name oc = "加法"%string -> MathProblem.operator p = "+"%string) /\
  (op_name oc = "减法"%string -> MathProblem.operator p = "-"%string).

(** How often the number [n] is an operand of [p], and of the problems
    [ps]. *)
Definition occursIn (n : Z) (p : MathProblem.Problem) : nat :=
  ((if bool_decide (MathProblem.operand1 p = n) then 1 else 0)
   + (if bool_decide (MathProblem.operand2 p = n) then 1 else 0))%nat.

Definition operandUses (n : Z) (ps : list MathProblem.Problem) : nat :=
  sum_list_with (occursIn n) ps.

(** The signatures of a list of problems. *)
Definition signatures (ps : list MathProblem.Problem) : list string :=
  ProblemGenerator.getProblemSignature <$> ps.

(** The generator accepted [p] as a new problem between [st] and [st']:
    its signature was not recorded before and is now, and both operands
    are counted in the usage tracker. *)
Definition Accepted (p : MathProblem.Problem) (st st' : State) : Prop :=
  (ProblemGenerator.getProblemSignature p ∉ generatedProblems st) /\
  generatedProblems st' = {[ProblemGenerator.getProblemSignature p]} ∪ generatedProblems st /\
  forall n, ProblemGenerator.usageIn (numberUsageTracker st') n
            = (ProblemGenerator.usageIn (numberUsageTracker st) n + occursIn n p)%nat.

(** The generator's record of signatures and usage is the same in [st]
    and [st']. *)
Definition Untracked (st st' : State) : Prop :=
  generatedProblems st' = generatedProblems st /\
  numberUsageTracker st' = numberUsageTracker st.

(** What a run of [n] slots from [st] leaves: the warnings [ws] on the
    console, a larger record of signatures and, when no warning was
    written, problems with pairwise different new signatures, all recorded,
    and a usage tracker that counts their operands. *)
Definition SlotsEffect (st : State) (ps : list MathProblem.Problem) (st' : State) : Prop :=
  world st' = world st /\
  exists ws,
    console st' = console st ++ ws /\
    generatedProblems st ⊆ generatedProblems st' /\
    (ws = [] ->
     NoDup (signatures ps) /\
     (forall sg, sg ∈ signatures ps -> sg ∉ generatedProblems st) /\
     generatedProblems st' = list_to_set (signatures ps) ∪ generatedProblems st /\
     forall n, ProblemGenerator.usageIn (numberUsageTracker st') n
               = (ProblemGenerator.usageIn (numberUsageTracker st) n
                  + operandUses n ps)%nat).

(** A problem the constrained loop may keep for the difficulty [d] and
    the operation [oc]. *)
Definition Kept (constraints : ProblemGenerator.Constraints)
    (d : DifficultyLevel) (oc : OperationType) (p : MathProblem.Problem) : Prop :=
  WellFormedProblem p /\ InRange d p /\ Conforms oc p /\
  ProblemGenerator.meetsConstraints constraints p = true.

(** Two positioned problems occupy the same rectangle. *)
Definition SamePosition (a b : LayoutEngine.ProblemPosition) : Prop :=
  LayoutEngine.position a = LayoutEngine.position b.

(** What a positioned problem carries besides its rectangle. *)
Definition labelOf (a : LayoutEngine.ProblemPosition)
  : MathProblem.Problem * LayoutEngine.Metadata :=
  (LayoutEngine.problem a, LayoutEngine.metadata a).

(** The label [calculateProblemPositions] gives the problem at index [i]
    in a grid of [columns] columns. *)
Definition gridLabel (columns : Z) (i : nat) (p : MathProblem.Problem)
  : MathProblem.Problem * LayoutEngine.Metadata :=
  (p, LayoutEngine.mkMetadata (Z.of_nat i / columns) (Z.rem (Z.of_nat i) columns)
                              (Z.of_nat i)).

(** A problem to fill a page with, and a configuration with the layout
    [k]. *)
Definition plainProblem : MathProblem.Problem :=
  MathProblem.mkProblem 1 1 "+" 2 (MathProblem.IdGiven (VString "p")) 0.

Definition configWithLayout (k : string) : WorksheetConfig.Config :=
  WorksheetConfig.mkConfig
    (VString "within20") (VString "addition") (VString k)
    (VString "blank") (VString "a4") VNull (VInt 20) (VBool false)
    (VString "") (VInt 0).

(** Whether [calculateLayout] returns for [n] problems in the layout
    [k]. *)
Definition layoutSucceeds (k : string) (n : nat) : bool :=
  match LayoutEngine.calculateLayout (Some (replicate n plainProblem))
                                     (Some (configWithLayout k)) with
  | Ok _ => true
  | Throw _ => false
  end.

(** What the signature of a problem is made of. *)
Definition problemKey (p : MathProblem.Problem) : string * (Z * Z) :=
  (MathProblem.operator p, (MathProblem.operand1 p, MathProblem.operand2 p)).

(** The pairs (a, b) with a in [l] and b in [g a]. *)
Definition pairsWith (g : Z -> list Z) (l : list Z) : list (Z * Z) :=
  l ≫= fun a => pair a <$> g a.

(** The additions and the subtractions with operands in the range of the
    difficulty [d]. *)
Definition additionKeys (d : DifficultyLevel) : list (string * (Z * Z)) :=
  pair "+"%string <$>
    pairsWith (fun _ => seqZ (minNumber d) (maxNumber d - minNumber d + 1))
              (seqZ (minNumber d) (maxNumber d - minNumber d + 1)).

Definition subtractionKeys (d : DifficultyLevel) : list (string * (Z * Z)) :=
  pair "-"%string <$>
    pairsWith (fun a => seqZ (minNumber d) (a - minNumber d + 1))
              (seqZ (minNumber d) (maxNumber d - minNumber d + 1)).

(* ===================================================================== *)
(** ** MathProblem: construction validates *)
(* ===================================================================== *)

Section MathProblemFacts.

Import MathProblem.

Lemma isString_true v s : isString v s = true <-> v = VString s.
Proof.
  destruct v; simpl; try (split; [discriminate | intros H; inversion H]).
  rewrite String.eqb_eq. split; [intros -> | intros H; inversion H]; reflexivity.
Qed.



Lemma invariant_validate_ok o1 o2 op r :
  ProblemInvariant o1 o2 op r -> validate o1 o2 op r = Ok tt.
Proof.
  intros (a & b & -> & -> & Ha & Hb & Hop).
  unfold validate. simpl.
  apply Z.ltb_ge in Ha as Ha'. apply Z.ltb_ge in Hb as Hb'.
  rewrite Ha', Hb'. simpl.
  destruct Hop as [[-> ->] | (-> & -> & Hle)]; simpl.
  - rewrite Z.eqb_refl. reflexivity.
  - rewrite Z.eqb_refl. simpl.
    assert ((a - b <? 0) = false) as -> by (apply Z.ltb_ge; lia).
    reflexivity.
Qed.


Lemma invariant_well_formed a b op r :
  ProblemInvariant (VInt a) (VInt b) op r ->
  forall i c, WellFormedProblem (mkProblem a b (asString op) (asInt r) i c).
Proof.
  intros (a' & b' & Ea & Eb & Ha & Hb & Hop) i c.
  inversion Ea; inversion Eb; subst a' b'.
  unfold WellFormedProblem; simpl.
  destruct Hop as [[-> ->] | (-> & -> & Hle)]; simpl.
  - split; [lia | split; [lia | split; [lia | left; split; reflexivity]]].
  - split; [lia | split; [lia | split; [lia | right]]].
    split; [reflexivity | split; [reflexivity | lia]].
Qed.

End MathProblemFacts.


(* ===================================================================== *)
(** ** WorksheetConfig: validation at construction and on update *)
(* ===================================================================== *)

Section WorksheetConfigFacts.

Import WorksheetConfig.

Lemma defined_lookup {A} (table : gmap string A) v :
  defined (lookupTable table v) = true <-> KeyOf table v.
Proof.
  unfold KeyOf. destruct v; simpl;
    try (split; [discriminate | intros (k & Hk & _); discriminate]).
  split.
  - intros H. exists s. split; [reflexivity|].
    destruct (table !! s); [eauto | discriminate].
  - intros (k & Hk & [a Ha]). inversion Hk; subst. rewrite Ha. reflexivity.
Qed.

Lemma count_check v :
  negb (isInteger v) || (asInt v <? problemCount_min)
    || (asInt v >? problemCount_max) = false
  <-> CountInRange v.
Proof.
  unfold CountInRange, problemCount_min, problemCount_max.
  destruct v as [| | |n| |]; simpl;
    try (split; [discriminate | intros (k & Hk & _); discriminate]).
  rewrite orb_false_iff, Z.ltb_ge, Z.gtb_ltb, Z.ltb_ge. split.
  - intros [H1 H2]. exists n. split; [reflexivity | lia].
  - intros (k & Hk & H). inversion Hk; subst. lia.
Qed.

Lemma truthy_nonempty v : truthy v = true <-> NonEmpty v.
Proof.
  unfold NonEmpty. split; [|tauto].
  intros H. repeat split; auto; intros ->; discriminate.
Qed.

Lemma validate_ok_invariant_config c :
  validate c = Ok tt <-> ConfigInvariant c.
Proof.
  unfold validate, ConfigInvariant.
  rewrite <- !defined_lookup, <- count_check.
  destruct (defined (lookupTable DIFFICULTY_LEVELS (difficulty c))); simpl;
    [|split; [discriminate | intros (? & _); discriminate]].
  destruct (defined (lookupTable OPERATION_TYPES (operationType c))); simpl;
    [|split; [discriminate | intros (_ & ? & _); discriminate]].
  destruct (defined (lookupTable LAYOUT_TYPES (layout c))); simpl;
    [|split; [discriminate | intros (_ & _ & ? & _); discriminate]].
  destruct (defined (lookupTable BACKGROUND_STYLES (backgroundStyle c))); simpl;
    [|split; [discriminate | intros (_ & _ & _ & ? & _); discriminate]].
  destruct (negb (isInteger (problemCount c))
            || (asInt (problemCount c) <? problemCount_min)
            || (asInt (problemCount c) >? problemCount_max)); simpl;
    [split; [discriminate | intros (_ & _ & _ & _ & ? & _); discriminate]|].
  destruct (isString (backgroundStyle c) "custom") eqn:Hc; simpl.
  - apply isString_true in Hc.
    destruct (truthy (customBackgroundUrl c)) eqn:Ht; simpl.
    + split; [|reflexivity]. intros _. repeat (split; [reflexivity|]).
      intros _. apply truthy_nonempty. exact Ht.
    + split; [discriminate|]. intros (_ & _ & _ & _ & _ & H).
      apply H in Hc. apply truthy_nonempty in Hc. congruence.
  - split; [|reflexivity]. intros _. repeat (split; [reflexivity|]).
    intros Hb. apply isString_true in Hb. congruence.
Qed.

Lemma validate_throw_not_invariant c e :
  validate c = Throw e -> ~ ConfigInvariant c.
Proof.
  intros H Hinv. apply validate_ok_invariant_config in Hinv. congruence.
Qed.

Lemma new_ok_validated now options c :
  new now options = Ok c -> validate c = Ok tt.
Proof.
  unfold new.
  match goal with |- context [validate ?t] => destruct (validate t) as [[]|] eqn:Hv end;
    [|discriminate].
  intros H. injection H as <-. exact Hv.
Qed.


Lemma assigned_lookup updates key old v :
  updates !! key = Some v -> assigned updates key old = v.
Proof. unfold assigned. intros ->. reflexivity. Qed.

End WorksheetConfigFacts.






(** C10. update() assigns the fields of the instance before it validates,
    and nothing is rolled back when validation throws: after a failed
    update() the instance holds the values of [updates], and so no longer
    satisfies the invariant. *)
Theorem C10_failed_update_keeps_changes :
  forall (this : WorksheetConfig.Config) (updates : gmap string Value)
         (this' : WorksheetConfig.Config) (e : Error),
    WorksheetConfig.update this updates = (this', Throw e) ->
    this' = WorksheetConfig.applyUpdates this updates /\
    WorksheetConfig.validate this' = Throw e /\
    ~ ConfigInvariant this' /\
    (forall v, updates !! "difficulty"%string = Some v ->
               WorksheetConfig.difficulty this' = v) /\
    (forall v, updates !! "operationType"%string = Some v ->
               WorksheetConfig.operationType this' = v) /\
    (forall v, updates !! "layout"%string = Some v ->
               WorksheetConfig.layout this' = v) /\
    (forall v, updates !! "backgroundStyle"%string = Some v ->
               WorksheetConfig.backgroundStyle this' = v) /\
    (forall v, updates !! "customBackgroundUrl"%string = Some v ->
               WorksheetConfig.customBackgroundUrl this' = v) /\
    (forall v, updates !! "problemCount"%string = Some v -> truthy v = true ->
               WorksheetConfig.problemCount this' = v).
Proof.
  intros this updates this' e H. unfold WorksheetConfig.update in H.
  injection H as <- Hv.
  split; [reflexivity|]. split; [exact Hv|].
  split; [eapply validate_throw_not_invariant; exact Hv|].
  unfold WorksheetConfig.applyUpdates, WorksheetConfig.prop.
  repeat split; intros v Hk;
    try (destruct (truthy _ && negb (truthy _)); simpl;
         apply assigned_lookup; exact Hk).
  intros Ht. rewrite Hk. simpl. rewrite Ht, andb_false_r. simpl.
  apply assigned_lookup. exact Hk.
Qed.

Lemma C10_failed_update_keeps_changes_witness :
  WorksheetConfig.validate defaultConfig = Ok tt /\
  WorksheetConfig.problemCount
    (fst (WorksheetConfig.update defaultConfig {[ "problemCount"%string := VInt 100 ]}))
  = VInt 100.
Proof.
  split; [reflexivity|].
  refine (proj2 (proj2 (proj2 (proj2 (proj2 (proj2 (proj2 (proj2
    (C10_failed_update_keeps_changes defaultConfig
       {[ "problemCount"%string := VInt 100 ]} _ ErrProblemCount _))))))))
    (VInt 100) _ eq_refl).
  - vm_compute. reflexivity.
  - vm_compute. reflexivity.
Defined.

(* ===================================================================== *)
(** ** ProblemGenerator: total correctness of the generation loop *)
(* ===================================================================== *)

Section MonadFacts.

Lemma returns_ret {A} (a : A) st (Q : A -> State -> Prop) :
  Q a st -> returns (mret a) st Q.
Proof. intros H. exists a, st. split; [reflexivity | exact H]. Qed.

Lemma returns_bind {A B} (m : M A) (f : A -> M B) st (Q : B -> State -> Prop) :
  returns m st (fun a st' => returns (f a) st' Q) -> returns (m ≫= f) st Q.
Proof.
  intros (a & st' & Hm & b & st'' & Hf & HQ). exists b, st''.
  split; [|exact HQ]. unfold mbind, M_bind. rewrite Hm. exact Hf.
Qed.

Lemma returns_mono {A} (m : M A) st (Q Q' : A -> State -> Prop) :
  returns m st Q -> (forall a st', Q a st' -> Q' a st') -> returns m st Q'.
Proof. intros (a & st' & Hm & HQ) H. exists a, st'. auto. Qed.

Lemma returns_gets {A} (f : State -> A) st (Q : A -> State -> Prop) :
  Q (f st) st -> returns (gets f) st Q.
Proof. intros H. exists (f st), st. split; [reflexivity | exact H]. Qed.

Lemma returns_modify (f : State -> State) st (Q : unit -> State -> Prop) :
  Q tt (f st) -> returns (modify f) st Q.
Proof. intros H. exists tt, (f st). split; [reflexivity | exact H]. Qed.

Lemma sameGenerator_trans st1 st2 st3 :
  sameGenerator st1 st2 -> sameGenerator st2 st3 -> sameGenerator st1 st3.
Proof.
  intros (A1 & A2 & A3 & A4) (B1 & B2 & B3 & B4).
  repeat split; congruence.
Qed.

Lemma returns_Math_random st (Q : Rand -> State -> Prop) :
  (forall st', sameGenerator st st' -> draws st' = S (draws st) ->
               Q (random (world st) (draws st)) st') ->
  returns Math_random st Q.
Proof.
  intros H. eexists _, _. split; [reflexivity|].
  apply H; [repeat split | reflexivity].
Qed.

Lemma randOk (r : Rand) : 0 <= num r < den r.
Proof.
  destruct r as [n d ok]. simpl.
  apply andb_true_iff in ok as [H1 H2].
  apply Z.leb_le in H1. apply Z.ltb_lt in H2. lia.
Qed.

Lemma floorMul_bounds (r : Rand) (k : Z) : 0 < k -> 0 <= floorMul r k < k.
Proof.
  intros Hk. pose proof (randOk r) as [H0 H1]. unfold floorMul. split.
  - apply Z.div_pos; nia.
  - apply Z.div_lt_upper_bound; nia.
Qed.

End MonadFacts.

Section DrawFacts.

Import ProblemGenerator.


Lemma randomInt_plain_spec : DrawSpec (fun min max => randomInt min max false).
Proof.
  intros min max st Hle. unfold randomInt.
  apply returns_bind, returns_Math_random. intros st' Hs _.
  apply returns_ret. split; [|exact Hs].
  pose proof (floorMul_bounds (random (world st) (draws st)) (max - min + 1)).
  lia.
Qed.

End DrawFacts.

Section UniformFacts.

Import ProblemGenerator.

Lemma foldr_min_le (y : nat) (l : list nat) :
  (foldr Nat.min y l <= y)%nat /\
  (forall x, x ∈ l -> (foldr Nat.min y l <= x)%nat).
Proof.
  induction l as [|z l [IH1 IH2]]; simpl.
  - split; [lia|]. intros x Hx. inversion Hx.
  - split; [lia|]. intros x Hx.
    apply elem_of_cons in Hx as [-> | Hx]; [lia|].
    specialize (IH2 x Hx). lia.
Qed.

Lemma minimum_le (l : list nat) (x : nat) : x ∈ l -> (minimum l <= x)%nat.
Proof.
  destruct l as [|y l]; [intros H; inversion H|]. simpl.
  destruct (foldr_min_le y l) as [H1 H2].
  intros Hx. apply elem_of_cons in Hx as [-> | Hx]; auto.
Qed.

Lemma minimum_elem (l : list nat) : l <> [] -> minimum l ∈ l.
Proof.
  destruct l as [|y l]; [congruence|]. intros _. simpl.
  revert y. induction l as [|z l IH]; intros y; simpl.
  - apply list_elem_of_here.
  - destruct (Nat.min_spec z (foldr Nat.min y l)) as [[_ ->] | [_ ->]].
    + apply list_elem_of_further, list_elem_of_here.
    + specialize (IH y). apply elem_of_cons in IH as [-> | IH].
      * apply list_elem_of_here.
      * apply list_elem_of_further, list_elem_of_further, IH.
Qed.

Lemma elem_of_usageTable tracker min max i u :
  (i, u) ∈ usageTable tracker min max <-> min <= i <= max /\ u = usageIn tracker i.
Proof.
  unfold usageTable. rewrite list_elem_of_fmap. split.
  - intros (j & Hj & Hin). inversion Hj; subst.
    apply elem_of_seqZ in Hin. split; [lia | reflexivity].
  - intros [Hi ->]. exists i. split; [reflexivity|].
    apply elem_of_seqZ. lia.
Qed.

Lemma elem_of_nearMinimum numbers (n : Z * nat) :
  n ∈ nearMinimum numbers <->
  n ∈ numbers /\ (snd n <= minimum (snd <$> numbers) + 1)%nat.
Proof.
  unfold nearMinimum. rewrite !list_elem_of_In, List.filter_In.
  rewrite Nat.leb_le. reflexivity.
Qed.

Lemma nearMinimum_nonempty numbers : numbers <> [] -> nearMinimum numbers <> [].
Proof.
  intros Hne Hnil.
  assert (snd <$> numbers <> []) as Hs by (destruct numbers; simpl; congruence).
  apply minimum_elem in Hs. apply list_elem_of_fmap in Hs as (n & Hn & Hin).
  assert (n ∈ nearMinimum numbers) as H.
  { apply elem_of_nearMinimum. split; [exact Hin | lia]. }
  rewrite Hnil in H. inversion H.
Qed.

Lemma usageTable_nonempty tracker min max :
  min <= max -> usageTable tracker min max <> [].
Proof.
  intros Hle Hnil.
  assert ((min, usageIn tracker min) ∈ usageTable tracker min max) as H.
  { apply elem_of_usageTable. split; [lia | reflexivity]. }
  rewrite Hnil in H. inversion H.
Qed.

(** [randomIntUniform] on a range of at most 20 values. *)
Lemma randomIntUniform_small min max st :
  max - min + 1 <= 20 ->
  randomIntUniform min max st =
  (match nearMinimum (usageTable (numberUsageTracker st) min max)
           !! Z.to_nat (floorMul (random (world st) (draws st))
                          (Z.of_nat (length (nearMinimum
                             (usageTable (numberUsageTracker st) min max)))))
   with
   | Some selected => Ok (fst selected)
   | None => Throw (TypeError "selected is undefined")
   end, drawn 1 st).
Proof.
  intros Hr. unfold randomIntUniform.
  apply Z.leb_le in Hr. rewrite Hr.
  unfold mbind, M_bind, gets, Math_random, mret, M_ret, throw, drawn. simpl.
  destruct (nearMinimum _ !! _); reflexivity.
Qed.

(** [randomIntUniform] on a range of more than 20 values. *)
Lemma randomIntUniform_large min max st :
  20 < max - min + 1 ->
  randomIntUniform min max st =
  let candidate := plainDraw (random (world st) (draws st)) min max in
  if (2 <? usageIn (numberUsageTracker st) candidate)%nat then
    if randLt (random (world st) (S (draws st))) 3 10
    then (Ok (plainDraw (random (world st) (S (S (draws st)))) min max), drawn 3 st)
    else (Ok candidate, drawn 2 st)
  else (Ok candidate, drawn 1 st).
Proof.
  intros Hr. unfold randomIntUniform.
  apply Z.leb_gt in Hr. rewrite Hr.
  unfold mbind, M_bind, gets, getNumberUsage, Math_random, mret, M_ret, drawn,
    plainDraw. simpl.
  destruct (2 <? usageIn _ _)%nat; simpl; [|reflexivity].
  destruct (randLt _ 3 10); reflexivity.
Qed.

Lemma sameGenerator_drawn n st : sameGenerator st (drawn n st).
Proof. repeat split. Qed.

Lemma plainDraw_bounds r min max : min <= max -> min <= plainDraw r min max <= max.
Proof.
  intros Hle. unfold plainDraw.
  pose proof (floorMul_bounds r (max - min + 1)). lia.
Qed.

(** The candidate picked on a small range exists and is a near-minimum
    entry of the usage table. *)
Lemma nearMinimum_pick tracker min max (r : Rand) :
  min <= max ->
  exists selected,
    nearMinimum (usageTable tracker min max)
      !! Z.to_nat (floorMul r (Z.of_nat (length (nearMinimum
                                   (usageTable tracker min max)))))
    = Some selected /\
    selected ∈ nearMinimum (usageTable tracker min max).
Proof.
  intros Hle.
  pose proof (nearMinimum_nonempty _ (usageTable_nonempty tracker min max Hle)) as Hne.
  set (cands := nearMinimum (usageTable tracker min max)) in *.
  assert (0 < Z.of_nat (length cands)) as Hlen.
  { destruct cands; [congruence | simpl; lia]. }
  pose proof (floorMul_bounds r _ Hlen) as Hb.
  destruct (lookup_lt_is_Some_2 cands (Z.to_nat (floorMul r (Z.of_nat (length cands)))))
    as [sel Hsel]; [lia|].
  exists sel. split; [exact Hsel|].
  eapply list_elem_of_lookup_2. exact Hsel.
Qed.

Lemma randomIntUniform_spec : DrawSpec randomIntUniform.
Proof.
  intros min max st Hle.
  destruct (Z_le_gt_dec (max - min + 1) 20) as [Hs | Hl].
  - destruct (nearMinimum_pick (numberUsageTracker st) min max
                (random (world st) (draws st)) Hle) as ([v u] & Hsel & Hin).
    exists v, (drawn 1 st). rewrite randomIntUniform_small by exact Hs.
    rewrite Hsel. split; [reflexivity|].
    split; [|apply sameGenerator_drawn].
    apply elem_of_nearMinimum in Hin as [Hin _].
    apply elem_of_usageTable in Hin. tauto.
  - unfold returns. rewrite (randomIntUniform_large min max st) by lia. simpl.
    destruct (2 <? usageIn _ _)%nat; [destruct (randLt _ 3 10)|];
      eexists _, _; (split; [reflexivity|]);
      (split; [apply plainDraw_bounds; exact Hle | apply sameGenerator_drawn]).
Qed.

End UniformFacts.

Section SingleProblemFacts.

Import MathProblem ProblemGenerator.

Lemma returns_new a b op r st (Q : Problem -> State -> Prop) :
  ProblemInvariant (VInt a) (VInt b) (VString op) (VInt r) ->
  (forall p st',
     operand1 p = a -> operand2 p = b -> operator p = op -> result p = r ->
     WellFormedProblem p -> sameGenerator st st' -> Q p st') ->
  returns (MathProblem.new (VInt a) (VInt b) (VString op) (VInt r) VNull) st Q.
Proof.
  intros Hinv HQ.
  pose proof (invariant_validate_ok _ _ _ _ Hinv) as Hv.
  unfold returns, MathProblem.new, generateId, mbind, M_bind, mret, M_ret,
    Date_now, Math_random. simpl. rewrite Hv.
  eexists _, _. split; [reflexivity|].
  apply HQ; try reflexivity.
  - apply (invariant_well_formed a b (VString op) (VInt r)). exact Hinv.
  - repeat split.
Qed.

Lemma addition_invariant a b :
  0 <= a -> 0 <= b -> ProblemInvariant (VInt a) (VInt b) (VString "+") (VInt (a + b)).
Proof. intros Ha Hb. exists a, b. repeat split; auto. Qed.

Lemma subtraction_invariant a b :
  0 <= b -> b <= a -> ProblemInvariant (VInt a) (VInt b) (VString "-") (VInt (a - b)).
Proof.
  intros Hb Hle. exists a, b. repeat split; auto; try lia.
Qed.

(** The problem [singleProblemWith] builds from the two operands its
    draws return: the operands are the two values drawn, exchanged only
    for a subtraction. *)
Lemma singleProblemWith_from_draws draw d oc st v1 st1 v2 st2 :
  draw (minNumber d) (maxNumber d) st = (Ok v1, st1) ->
  draw (minNumber d) (maxNumber d) st1 = (Ok v2, st2) ->
  0 <= v1 -> 0 <= v2 -> KnownOperation oc ->
  returns (singleProblemWith draw (Some d) (Some oc)) st (fun p st' =>
    ((operand1 p = v1 /\ operand2 p = v2) \/
     (operand1 p = v2 /\ operand2 p = v1 /\ operator p = "-"%string)) /\
    WellFormedProblem p /\ sameGenerator st2 st').
Proof.
  intros H1 H2 Hv1 Hv2 Hknown. unfold singleProblemWith.
  apply returns_bind. exists v1, st1. split; [exact H1|].
  apply returns_bind. exists v2, st2. split; [exact H2|].
  apply returns_bind.
  destruct Hknown as [Hn | [Hn | Hn]]; rewrite Hn.
  - change (String.eqb "加法" "加法") with true. cbv iota.
    apply returns_ret. simpl.
    apply returns_new; [apply addition_invariant; assumption|].
    intros p st' E1 E2 E3 E4 Hwf Hs. auto.
  - change (String.eqb "减法" "加法") with false.
    change (String.eqb "减法" "减法") with true. cbv iota.
    destruct (v1 <? v2) eqn:Hlt; apply returns_ret; simpl.
    + apply Z.ltb_lt in Hlt.
      apply returns_new; [apply subtraction_invariant; lia|].
      intros p st' E1 E2 E3 E4 Hwf Hs. auto 6.
    + apply Z.ltb_ge in Hlt.
      apply returns_new; [apply subtraction_invariant; lia|].
      intros p st' E1 E2 E3 E4 Hwf Hs. auto.
  - change (String.eqb "加减混合" "加法") with false.
    change (String.eqb "加减混合" "减法") with false.
    change (String.eqb "加减混合" "加减混合") with true. cbv iota.
    apply returns_bind, returns_Math_random. intros st3 Hs3 _.
    destruct (randLt _ 1 2); simpl.
    + apply returns_ret. simpl.
      apply returns_new; [apply addition_invariant; assumption|].
      intros p st' E1 E2 E3 E4 Hwf Hs.
      split; [auto|]. split; [exact Hwf|].
      eapply sameGenerator_trans; eassumption.
    + destruct (v1 <? v2) eqn:Hlt; apply returns_ret; simpl.
      * apply Z.ltb_lt in Hlt.
        apply returns_new; [apply subtraction_invariant; lia|].
        intros p st' E1 E2 E3 E4 Hwf Hs.
        split; [auto 6|]. split; [exact Hwf|].
        eapply sameGenerator_trans; eassumption.
      * apply Z.ltb_ge in Hlt.
        apply returns_new; [apply subtraction_invariant; lia|].
        intros p st' E1 E2 E3 E4 Hwf Hs.
        split; [auto|]. split; [exact Hwf|].
        eapply sameGenerator_trans; eassumption.
Qed.

Lemma singleProblemWith_spec draw d oc :
  DrawSpec draw -> 0 <= minNumber d <= maxNumber d -> KnownOperation oc ->
  SingleSpec d (singleProblemWith draw (Some d) (Some oc)).
Proof.
  intros Hdraw Hd Hknown st.
  destruct (Hdraw (minNumber d) (maxNumber d) st) as (v1 & st1 & H1 & Hr1 & Hs1);
    [lia|].
  destruct (Hdraw (minNumber d) (maxNumber d) st1) as (v2 & st2 & H2 & Hr2 & Hs2);
    [lia|].
  eapply returns_mono.
  - eapply singleProblemWith_from_draws; eauto; lia.
  - intros p st' (Hops & Hwf & Hs). split; [|split; [exact Hwf|]].
    + unfold InRange. destruct Hops as [[-> ->] | (-> & -> & _)]; lia.
    + eapply sameGenerator_trans; [exact Hs1|].
      eapply sameGenerator_trans; [exact Hs2 | exact Hs].
Qed.

End SingleProblemFacts.

Section LoopFacts.

Import MathProblem ProblemGenerator.

Lemma well_formed_revalidate p : WellFormedProblem p -> revalidate p = Ok tt.
Proof.
  intros (H1 & H2 & H3 & Hop). apply invariant_validate_ok.
  exists (operand1 p), (operand2 p). repeat split; auto.
  destruct Hop as [[-> ->] | (-> & -> & Hle)]; [left | right]; repeat split; auto.
Qed.

(** Validating a well-formed problem against a configuration whose
    operation type is in the table throws nothing and writes nothing. *)
Lemma validateProblem_quiet p config oc st :
  WellFormedProblem p ->
  WorksheetConfig.getOperationConfig config = Some oc ->
  exists b, validateProblem p config st = (Ok b, st).
Proof.
  intros Hwf Hoc. unfold validateProblem, tryCatch.
  rewrite (well_formed_revalidate p Hwf), Hoc.
  destruct (negb (fitsInDifficulty p _)); [eexists; reflexivity|].
  destruct (_ && _); [eexists; reflexivity|].
  destruct (_ && _); [eexists; reflexivity|].
  destruct (result p <? 0); eexists; reflexivity.
Qed.

Variable d : DifficultyLevel.
Variable single : M Problem.
Variable config : WorksheetConfig.Config.
Variable oc : OperationType.
Hypothesis Hsingle : SingleSpec d single.
Hypothesis Hoc : WorksheetConfig.getOperationConfig config = Some oc.

Lemma findUnique_ends remaining : forall attempts st,
  returns (findUnique single config remaining attempts) st
          (UniqueLoopEnds d st attempts remaining).
Proof.
  induction remaining as [|k IH]; intros attempts st; simpl.
  - apply returns_ret. unfold UniqueLoopEnds. simpl.
    repeat split; auto; lia.
  - apply returns_bind.
    destruct (Hsingle st) as (p & st1 & Hp & Hr & Hwf & (Sw & Sc & Sg & St)).
    exists p, st1. split; [exact Hp|].
    apply returns_bind.
    destruct (validateProblem_quiet p config oc st1 Hwf Hoc) as [valid Hvalid].
    exists valid, st1. split; [exact Hvalid|].
    apply returns_bind.
    destruct valid; simpl.
    + apply returns_gets.
      destruct (bool_decide (getProblemSignature p ∈ generatedProblems st1)) eqn:Hdup;
        simpl.
      * eapply returns_mono; [apply IH|].
        intros [found n] st' (Hw & Hc & Hn & Hres). unfold UniqueLoopEnds. simpl in *.
        split; [congruence|]. split; [congruence|]. split; [lia|].
        destruct found as [q|].
        -- destruct Hres as (? & ? & ? & ? & ?). rewrite <- Sg.
           split; [assumption|]. split; [assumption|]. split; [assumption|].
           split; [assumption | lia].
        -- destruct Hres as (? & ? & ?). repeat split; try congruence; lia.
      * apply bool_decide_eq_false in Hdup.
        eexists _, _. split; [reflexivity|]. unfold UniqueLoopEnds. simpl.
        split; [exact Sw|]. split; [exact Sc|]. split; [lia|].
        split; [exact Hr|]. split; [exact Hwf|].
        split; [rewrite <- Sg; exact Hdup|].
        split; [apply elem_of_union_l, elem_of_singleton; reflexivity | lia].
    + apply returns_ret. simpl.
      eapply returns_mono; [apply IH|].
      intros [found n] st' (Hw & Hc & Hn & Hres). unfold UniqueLoopEnds. simpl in *.
      split; [congruence|]. split; [congruence|]. split; [lia|].
      destruct found as [q|].
      * destruct Hres as (? & ? & ? & ? & ?). rewrite <- Sg.
        split; [assumption|]. split; [assumption|]. split; [assumption|].
        split; [assumption | lia].
      * destruct Hres as (? & ? & ?). repeat split; try congruence; lia.
Qed.

(** The slot is filled by what the loop found, or, when the loop found
    nothing, by one more generated problem, with a warning. *)
Lemma fillSlot_cases i st found attempts st1 :
  findUnique single config maxRetries 0 st = (Ok (found, attempts), st1) ->
  match found with
  | Some p => fillSlot single config i st = (Ok p, st1)
  | None =>
      forall p st2, single st1 = (Ok p, st2) ->
        fillSlot single config i st
        = (Ok p, warned (WarnDuplicate (Z.of_nat i + 1)) st2)
  end.
Proof.
  intros Hf. unfold fillSlot, mbind, M_bind. rewrite Hf.
  destruct found as [p|]; [reflexivity|].
  intros p st2 Hp. rewrite Hp. reflexivity.
Qed.

Lemma fillSlot_returns i st :
  returns (fillSlot single config i) st (fun p st' =>
    InRange d p /\ WellFormedProblem p /\ world st' = world st).
Proof.
  destruct (findUnique_ends maxRetries 0 st)
    as ([found n] & st1 & Hf & Hw & Hc & Hn & Hres).
  pose proof (fillSlot_cases i st found n st1 Hf) as Hcase. simpl in Hres.
  destruct found as [p|].
  - exists p, st1. split; [exact Hcase|]. tauto.
  - destruct (Hsingle st1) as (p & st2 & Hp & Hr & Hwf & (Sw & _)).
    exists p, (warned (WarnDuplicate (Z.of_nat i + 1)) st2).
    split; [apply Hcase; exact Hp|].
    split; [exact Hr|]. split; [exact Hwf|]. simpl. congruence.
Qed.

Lemma fillSlots_returns n : forall i st,
  returns (fillSlots single config n i) st (fun ps st' =>
    length ps = n /\ Forall (InRange d) ps /\ Forall WellFormedProblem ps /\
    world st' = world st).
Proof.
  induction n as [|n IH]; intros i st; simpl.
  - apply returns_ret. repeat split; constructor.
  - apply returns_bind.
    eapply returns_mono; [apply fillSlot_returns|].
    intros p st1 (Hr & Hwf & Hw). apply returns_bind.
    eapply returns_mono; [apply IH|].
    intros ps st2 (Hlen & Hrs & Hwfs & Hw2). apply returns_ret.
    simpl. repeat split; auto. congruence.
Qed.

End LoopFacts.

Section GenerateFacts.

Import MathProblem ProblemGenerator.

Lemma difficulty_table :
  map_Forall (fun _ d => minNumber d = 1 /\ 1 <= maxNumber d) DIFFICULTY_LEVELS.
Proof. apply (bool_decide_unpack _). vm_compute. exact I. Qed.

Lemma operation_table :
  map_Forall (fun _ oc => op_name oc = "加法"%string \/ op_name oc = "减法"%string \/
                          op_name oc = "加减混合"%string) OPERATION_TYPES.
Proof. apply (bool_decide_unpack _). vm_compute. exact I. Qed.

Lemma lookupTable_KeyOf {A} (table : gmap string A) v :
  KeyOf table v -> exists k a, v = VString k /\ table !! k = Some a /\
                               lookupTable table v = Some a.
Proof.
  intros (k & -> & [a Ha]). exists k, a. simpl. auto.
Qed.

(** What the generator reads of a valid configuration. *)
Lemma valid_config_parts config :
  WorksheetConfig.validate config = Ok tt ->
  exists d oc n,
    WorksheetConfig.getDifficultyConfig config = Some d /\
    minNumber d = 1 /\ 1 <= maxNumber d /\
    WorksheetConfig.getOperationConfig config = Some oc /\
    KnownOperation oc /\
    WorksheetConfig.problemCount config = VInt n /\ 1 <= n <= 50.
Proof.
  intros Hv. apply validate_ok_invariant_config in Hv.
  destruct Hv as (Hd & Ho & _ & _ & (n & Hn & Hr) & _).
  apply lookupTable_KeyOf in Hd as (kd & d & Ekd & Hd & Hld).
  apply lookupTable_KeyOf in Ho as (ko & oc & Eko & Ho & Hlo).
  exists d, oc, n.
  pose proof (difficulty_table kd d Hd) as [Hmin Hmax].
  pose proof (operation_table ko oc Ho) as Hop.
  unfold WorksheetConfig.getDifficultyConfig, WorksheetConfig.getOperationConfig.
  split; [exact Hld|]. split; [exact Hmin|]. split; [exact Hmax|].
  split; [exact Hlo|]. split; [exact Hop|]. split; [exact Hn | exact Hr].
Qed.

Lemma generateWith_returns single config count st d oc n :
  WorksheetConfig.getDifficultyConfig config = Some d ->
  WorksheetConfig.getOperationConfig config = Some oc ->
  SingleSpec d (single (Some d) (Some oc)) ->
  loopBound (Js.orElse (Js.orElse count (WorksheetConfig.problemCount config)) (VInt 20))
  = Some n ->
  returns (generateWith single (Some config) count) st (fun ps st' =>
    length ps = n /\ Forall (InRange d) ps /\ Forall WellFormedProblem ps /\
    world st' = world st).
Proof.
  intros Hd Ho Hsingle Hn. unfold generateWith. rewrite Hd, Ho, Hn.
  apply returns_bind, returns_modify. apply returns_bind, returns_modify.
  eapply returns_mono.
  - eapply fillSlots_returns; eassumption.
  - intros ps st' H. exact H.
Qed.

Lemma generateWith_outside_model single config count st :
  loopBound (Js.orElse (Js.orElse count (WorksheetConfig.problemCount config)) (VInt 20))
  = None ->
  fst (generateWith single (Some config) count st) = Throw (OutsideModel "problemCount").
Proof. intros Hn. unfold generateWith. rewrite Hn. reflexivity. Qed.

Lemma generateSingleProblem_spec d oc :
  0 <= minNumber d <= maxNumber d -> KnownOperation oc ->
  SingleSpec d (generateSingleProblem (Some d) (Some oc)).
Proof. apply singleProblemWith_spec, randomInt_plain_spec. Qed.

(** A valid configuration and any count: if [generateProblems] returns,
    the problems are in range and well formed; it does return, with as
    many problems as the loop bound says, whenever the model covers the
    count. *)
Lemma generateProblems_valid config count st d :
  WorksheetConfig.validate config = Ok tt ->
  WorksheetConfig.getDifficultyConfig config = Some d ->
  (forall ps st', generateProblems (Some config) count st = (Ok ps, st') ->
     Forall (InRange d) ps /\ Forall WellFormedProblem ps) /\
  (forall n,
     loopBound (Js.orElse (Js.orElse count (WorksheetConfig.problemCount config)) (VInt 20))
     = Some n ->
     returns (generateProblems (Some config) count) st (fun ps _ => length ps = n)).
Proof.
  intros Hv Hd.
  destruct (valid_config_parts config Hv) as (d' & oc & n & Hd' & Hmin & Hmax & Ho & Hk & _).
  rewrite Hd in Hd'. injection Hd' as <-.
  assert (SingleSpec d (generateSingleProblem (Some d) (Some oc))) as Hs
    by (apply generateSingleProblem_spec; [lia | exact Hk]).
  split.
  - intros ps st' Hrun.
    destruct (loopBound (Js.orElse (Js.orElse count (WorksheetConfig.problemCount config))
                               (VInt 20))) as [m|] eqn:Hm.
    + destruct (generateWith_returns generateSingleProblem config count st d oc m
                  Hd Ho Hs Hm) as (ps' & st'' & Hrun' & _ & H1 & H2 & _).
      unfold generateProblems in Hrun. rewrite Hrun in Hrun'.
      injection Hrun' as <- <-. auto.
    + pose proof (generateWith_outside_model generateSingleProblem config count st Hm)
        as Hout.
      unfold generateProblems in Hrun. rewrite Hrun in Hout. discriminate.
  - intros m Hm.
    eapply returns_mono.
    + apply (generateWith_returns generateSingleProblem config count st d oc m
               Hd Ho Hs Hm).
    + intros ps st' (Hlen & _). exact Hlen.
Qed.

End GenerateFacts.

(* ===================================================================== *)
(** ** ProblemGenerator: the claims on generateProblems *)
(* ===================================================================== *)

(** C2. For a valid configuration generateProblems returns exactly [count]
    problems for every positive [count], and exactly config.problemCount
    problems when [count] is omitted. A [count] of 0 is not honoured: the
    call behaves as if [count] were omitted and returns
    config.problemCount (at least one) problems instead of none. *)
Theorem C2_length_and_zero_count :
  forall (config : WorksheetConfig.Config) (st : State),
    WorksheetConfig.validate config = Ok tt ->
    (forall c, 0 < c ->
       returns (ProblemGenerator.generateProblems (Some config) (VInt c)) st
               (fun ps _ => Z.of_nat (length ps) = c)) /\
    returns (ProblemGenerator.generateProblems (Some config) VNull) st
            (fun ps _ => VInt (Z.of_nat (length ps))
                         = WorksheetConfig.problemCount config) /\
    ProblemGenerator.generateProblems (Some config) (VInt 0) st
    = ProblemGenerator.generateProblems (Some config) VNull st /\
    returns (ProblemGenerator.generateProblems (Some config) (VInt 0)) st
            (fun ps _ => (0 < length ps)%nat /\
                         VInt (Z.of_nat (length ps))
                         = WorksheetConfig.problemCount config).
Proof.
  intros config st Hv.
  destruct (valid_config_parts config Hv)
    as (d & oc & n & Hd & Hmin & Hmax & Ho & Hk & Hn & Hr).
  destruct (generateProblems_valid config VNull st d Hv Hd) as [_ Hnull].
  assert (returns (ProblemGenerator.generateProblems (Some config) VNull) st
            (fun ps _ => length ps = Z.to_nat n)) as Hrun.
  { apply Hnull. rewrite Hn. unfold Js.orElse. simpl.
    destruct (n =? 0) eqn:E; [apply Z.eqb_eq in E; lia | reflexivity]. }
  split; [|split; [|split]].
  - intros c Hc.
    destruct (generateProblems_valid config (VInt c) st d Hv Hd) as [_ Hcount].
    eapply returns_mono.
    + apply (Hcount (Z.to_nat c)). unfold Js.orElse. simpl.
      destruct (c =? 0) eqn:E; [apply Z.eqb_eq in E; lia|]. simpl. rewrite E.
      reflexivity.
    + intros ps st' Hlen. simpl in Hlen. lia.
  - eapply returns_mono; [exact Hrun|].
    intros ps st' Hlen. simpl in Hlen. rewrite Hn, Hlen. f_equal. lia.
  - reflexivity.
  - change (ProblemGenerator.generateProblems (Some config) (VInt 0))
      with (ProblemGenerator.generateProblems (Some config) VNull).
    eapply returns_mono; [exact Hrun|].
    intros ps st' Hlen. simpl in Hlen. rewrite Hn, Hlen.
    split; [lia | f_equal; lia].
Qed.

Lemma C2_length_and_zero_count_witness :
  returns (ProblemGenerator.generateProblems (Some within10Addition) (VInt 0))
          (freshState constantWorld)
          (fun ps _ => (0 < length ps)%nat /\ VInt (Z.of_nat (length ps)) = VInt 5).
Proof.
  exact (proj2 (proj2 (proj2
    (C2_length_and_zero_count within10Addition (freshState constantWorld) eq_refl)))).
Defined.

(** The caller generateBalancedProblems passes counts that can be 0 and
    depends on getting that many problems: asked for 4 problems, all of
    them additions (ratio 1), it asks generateProblems for 0 subtractions,
    receives config.problemCount = 5 of them, and returns 9 problems. *)
Lemma generateBalancedProblems_zero_share :
  (fun ps => (length ps,
              length (List.filter (fun p => String.eqb (MathProblem.operator p) "-") ps)))
    <$> (match fst (ProblemGenerator.generateBalancedProblems within10Mixed (VInt 4) 1
                      (freshState fifthCallWorld)) with
         | Ok ps => Some ps
         | Throw _ => None
         end)
  = Some (9%nat, 5%nat).
Proof. vm_compute. reflexivity. Qed.

(** C3. Range invariant: for a valid configuration, both operands of every
    problem that generateProblems returns lie in [minNumber, maxNumber] of
    the entry of the configured difficulty (within10 is [1,10], within100
    is [1,100]); and the call does return, for an omitted or an integer
    count. *)
Theorem C3_operands_within_difficulty_range :
  forall (config : WorksheetConfig.Config) (count : Value) (st : State)
         (d : DifficultyLevel),
    WorksheetConfig.validate config = Ok tt ->
    WorksheetConfig.getDifficultyConfig config = Some d ->
    (forall ps st',
       ProblemGenerator.generateProblems (Some config) count st = (Ok ps, st') ->
       Forall (InRange d) ps) /\
    (count = VNull \/ (exists c, count = VInt c) ->
     returns (ProblemGenerator.generateProblems (Some config) count) st
             (fun ps _ => Forall (InRange d) ps)) /\
    (fun e => (minNumber e, maxNumber e)) <$> lookupTable DIFFICULTY_LEVELS (VString "within10")
    = Some (1, 10) /\
    (fun e => (minNumber e, maxNumber e)) <$> lookupTable DIFFICULTY_LEVELS (VString "within100")
    = Some (1, 100).
Proof.
  intros config count st d Hv Hd.
  destruct (generateProblems_valid config count st d Hv Hd) as [Hin Hrun].
  split; [|split; [|split; reflexivity]].
  - intros ps st' H. apply (Hin ps st' H).
  - intros Hcount.
    destruct (valid_config_parts config Hv)
      as (_ & _ & n & _ & _ & _ & _ & _ & Hn & Hr).
    assert (exists m,
      ProblemGenerator.loopBound
        (Js.orElse (Js.orElse count (WorksheetConfig.problemCount config)) (VInt 20))
      = Some m) as [m Hm].
    { rewrite Hn. destruct Hcount as [-> | [c ->]]; unfold Js.orElse; simpl.
      - destruct (n =? 0); simpl; eauto.
      - destruct (c =? 0); simpl; [destruct (n =? 0); simpl; eauto|].
        destruct (c =? 0); simpl; eauto. }
    destruct (Hrun m Hm) as (ps & st' & Hps & _).
    exists ps, st'. split; [exact Hps|]. apply (Hin ps st' Hps).
Qed.

Lemma C3_operands_within_difficulty_range_witness :
  returns (ProblemGenerator.generateProblems (Some within10Addition) VNull)
          (freshState fifthCallWorld)
          (fun ps _ =>
             Forall (InRange {| dl_name := "10以内"; maxNumber := 10; minNumber := 1 |}) ps).
Proof.
  exact (proj1 (proj2
    (C3_operands_within_difficulty_range within10Addition VNull
       (freshState fifthCallWorld) _ eq_refl eq_refl)) (or_introl eq_refl)).
Defined.



(* ===================================================================== *)
(** ** ProblemGenerator: which sampler draws the operands *)
(* ===================================================================== *)

Section SamplerFacts.

Import MathProblem ProblemGenerator.



End SamplerFacts.




(** On the world and configuration of the counterexample the optimized
    generator does avoid the number used twice: its second problem is
    2 + 3, where generateProblems gives 1 + 2. *)
Lemma optimized_generation_balances :
  operandsOf (fst (ProblemGenerator.generateProblemsWithOptimizedDistribution
                     (Some within10Addition) (VInt 2) (freshState fifthCallWorld)))
  = Some [(1, 1); (2, 3)] /\
  operandsOf (fst (ProblemGenerator.generateProblems
                     (Some within10Addition) (VInt 2) (freshState fifthCallWorld)))
  = Some [(1, 1); (1, 2)].
Proof. split; vm_compute; reflexivity. Qed.

(* ===================================================================== *)
(** ** ProblemGenerator: ratio-controlled generation *)
(* ===================================================================== *)

Section RatioFacts.

Import MathProblem ProblemGenerator.








End RatioFacts.



(* ===================================================================== *)
(** ** LayoutEngine: a returned layout has been validated *)
(* ===================================================================== *)

Section LayoutFacts.

Import LayoutEngine.

Lemma Qltb_false a b : Qltb a b = false <-> (b <= a)%Q.
Proof. unfold Qltb. rewrite negb_false_iff. apply Qle_bool_iff. Qed.

Lemma problemsOverlap_false a b :
  problemsOverlap a b = false -> ~ Intersect (position a) (position b).
Proof.
  unfold problemsOverlap, Intersect. rewrite negb_false_iff, !orb_true_iff.
  rewrite !Qle_bool_iff.
  intros [[[H | H] | H] | H] (H1 & H2 & H3 & H4).
  - exact (Qlt_not_le _ _ H2 H).
  - exact (Qlt_not_le _ _ H1 H).
  - exact (Qlt_not_le _ _ H4 H).
  - exact (Qlt_not_le _ _ H3 H).
Qed.

Lemma Intersect_sym a b : Intersect a b -> Intersect b a.
Proof. unfold Intersect. tauto. Qed.

Lemma hasOverlaps_false l :
  hasOverlaps l = false ->
  forall i j a b, (i < j)%nat -> l !! i = Some a -> l !! j = Some b ->
                  ~ Intersect (position a) (position b).
Proof.
  induction l as [|p l IH]; intros Hno i j a b Hij Ha Hb.
  - rewrite lookup_nil in Ha. discriminate.
  - simpl in Hno. apply orb_false_iff in Hno as [Hp Hl].
    destruct j as [|j]; [lia|]. simpl in Hb.
    destruct i as [|i]; simpl in Ha.
    + injection Ha as <-. apply problemsOverlap_false.
      destruct (problemsOverlap p b) eqn:E; [|reflexivity].
      assert (existsb (problemsOverlap p) l = true) as Hex.
      { apply existsb_exists. exists b. split; [|exact E].
        apply list_elem_of_In. eapply list_elem_of_lookup_2. exact Hb. }
      congruence.
    + apply (IH Hl i j a b); [lia | exact Ha | exact Hb].
Qed.

Lemma problemsFitInBounds_true l layout :
  problemsFitInBounds l layout = true ->
  Forall (fun a => WithinPage (pageSize layout) (position a)) l.
Proof.
  unfold problemsFitInBounds. intros H.
  apply Forall_forall. intros a Ha.
  rewrite forallb_forall in H. apply list_elem_of_In in Ha.
  specialize (H a Ha). rewrite negb_true_iff, !orb_false_iff in H.
  destruct H as [[[H1 H2] H3] H4].
  apply Qltb_false in H1, H2, H3, H4. unfold WithinPage. auto.
Qed.

Lemma validateLayout_true layout :
  validateLayout layout = true ->
  hasOverlaps (problems layout) = false /\
  problemsFitInBounds (problems layout) layout = true.
Proof.
  unfold validateLayout.
  destruct (negb (forallb _ _)); [discriminate|].
  destruct (hasOverlaps _); [discriminate|].
  destruct (problemsFitInBounds _ _); [auto | discriminate].
Qed.

Lemma calculateLayout_validated problems config layout :
  calculateLayout problems config = Ok layout ->
  validateLayout layout = true /\ pageSize layout = (2480, 3508)%Q.
Proof.
  unfold calculateLayout.
  destruct problems as [[|p ps]|]; try discriminate.
  destruct config as [config|]; try discriminate.
  destruct (getLayoutConfig config) as [lc|]; try discriminate.
  match goal with |- context [validateLayout ?l] =>
    destruct (validateLayout l) eqn:Hv end; simpl; [|discriminate].
  intros H. injection H as <-. split; [exact Hv | reflexivity].
Qed.

End LayoutFacts.

(** C9. In every layout that calculateLayout returns, no two positioned
    problems have rectangles that intersect, and every rectangle lies
    within the page, [0, pageSize.width] x [0, pageSize.height]. *)
Theorem C9_layout_no_overlap_within_page :
  forall (problems : option (list MathProblem.Problem))
         (config : option WorksheetConfig.Config) (layout : LayoutEngine.Layout),
    LayoutEngine.calculateLayout problems config = Ok layout ->
    (forall i j a b,
       i <> j ->
       LayoutEngine.problems layout !! i = Some a ->
       LayoutEngine.problems layout !! j = Some b ->
       ~ Intersect (LayoutEngine.position a) (LayoutEngine.position b)) /\
    Forall (fun a => WithinPage (LayoutEngine.pageSize layout) (LayoutEngine.position a))
           (LayoutEngine.problems layout).
Proof.
  intros problems config layout H.
  apply calculateLayout_validated in H as [Hv _].
  apply validateLayout_true in Hv as [Hno Hfit].
  split.
  - intros i j a b Hij Ha Hb.
    destruct (Nat.lt_total i j) as [Hlt | [Heq | Hgt]]; [|contradiction|].
    + eapply hasOverlaps_false; eassumption.
    + intros Hi. apply Intersect_sym in Hi. revert Hi.
      eapply hasOverlaps_false; eassumption.
  - apply problemsFitInBounds_true. exact Hfit.
Qed.

Lemma C9_layout_no_overlap_within_page_witness :
  exists layout,
    LayoutEngine.calculateLayout (Some eightProblems) (Some defaultConfig) = Ok layout /\
    length (LayoutEngine.problems layout) = 8%nat /\
    Forall (fun a => WithinPage (2480, 3508)%Q (LayoutEngine.position a))
           (LayoutEngine.problems layout).
Proof.
  eexists. split; [vm_compute; reflexivity|]. split; [reflexivity|].
  exact (proj2 (C9_layout_no_overlap_within_page (Some eightProblems)
                  (Some defaultConfig) _ ltac:(vm_compute; reflexivity))).
Defined.


(* ===================================================================== *)
(** ** MathProblem: signatures, equality and difficulty levels *)
(* ===================================================================== *)

Section SignatureFacts.

Import MathProblem ProblemGenerator.

Lemma pretty_N_char_digit x : digitChar (pretty_N_char x).
Proof.
  unfold digitChar, pretty_N_char.
  repeat case_match; repeat (first [apply list_elem_of_here | apply list_elem_of_further]).
Qed.

Lemma pretty_N_go_digits x : forall s, allDigits s -> allDigits (pretty_N_go x s).
Proof.
  induction (N.lt_wf_0 x) as [x _ IH]. intros s Hs.
  destruct (decide (x = 0)%N) as [-> | Hx].
  - rewrite pretty_N_go_0. exact Hs.
  - rewrite pretty_N_go_step by lia. apply IH.
    + apply N.div_lt; lia.
    + simpl. split; [apply pretty_N_char_digit | exact Hs].
Qed.

Lemma pretty_N_digits (x : N) : allDigits (pretty x).
Proof.
  unfold pretty, pretty_N. destruct (decide (x = 0)%N).
  - simpl. split; [|exact I]. unfold digitChar. apply list_elem_of_here.
  - apply pretty_N_go_digits. exact I.
Qed.

Lemma pretty_Z_digits (z : Z) : 0 <= z -> allDigits (pretty z).
Proof.
  intros Hz. destruct z as [|q|q]; [| |lia].
  - simpl. split; [|exact I]. unfold digitChar. apply list_elem_of_here.
  - apply (pretty_N_digits (N.pos q)).
Qed.

(** A string of digits followed by a character that is not a digit
    splits in one way only. *)
Lemma digits_split_unique d1 : forall d2 c1 c2 r1 r2,
  allDigits d1 -> allDigits d2 -> ~ digitChar c1 -> ~ digitChar c2 ->
  d1 +:+ String c1 r1 = d2 +:+ String c2 r2 ->
  d1 = d2 /\ c1 = c2 /\ r1 = r2.
Proof.
  induction d1 as [|a d1 IH]; intros d2 c1 c2 r1 r2 H1 H2 N1 N2 Heq.
  - destruct d2 as [|b d2]; simpl in Heq.
    + injection Heq as -> ->. auto.
    + injection Heq as -> _. destruct H2 as [Hb _]. contradiction.
  - destruct d2 as [|b d2]; simpl in Heq.
    + injection Heq as -> _. destruct H1 as [Ha _]. contradiction.
    + injection Heq as -> Heq. destruct H1 as [_ H1], H2 as [_ H2].
      destruct (IH d2 c1 c2 r1 r2 H1 H2 N1 N2 Heq) as (-> & -> & ->). auto.
Qed.

Lemma plus_not_digit : ~ digitChar "+"%char.
Proof. unfold digitChar. intros H. repeat (apply elem_of_cons in H as [H | H]; [discriminate|]). inversion H. Qed.

Lemma minus_not_digit : ~ digitChar "-"%char.
Proof. unfold digitChar. intros H. repeat (apply elem_of_cons in H as [H | H]; [discriminate|]). inversion H. Qed.

Lemma well_formed_operator p :
  WellFormedProblem p -> operator p = "+"%string \/ operator p = "-"%string.
Proof. intros (_ & _ & _ & [[H _] | [H _]]); auto. Qed.

Lemma signature_inj p q :
  WellFormedProblem p -> WellFormedProblem q ->
  getProblemSignature p = getProblemSignature q -> SameProblem p q.
Proof.
  intros Hp Hq Hsig. unfold getProblemSignature in Hsig.
  pose proof (pretty_Z_digits (operand1 p) (proj1 Hp)) as D1.
  pose proof (pretty_Z_digits (operand1 q) (proj1 Hq)) as D2.
  assert (exists c1 c2, operator p = String c1 "" /\ operator q = String c2 "" /\
                        ~ digitChar c1 /\ ~ digitChar c2) as (c1 & c2 & E1 & E2 & N1 & N2).
  { destruct (well_formed_operator p Hp) as [-> | ->],
             (well_formed_operator q Hq) as [-> | ->];
      eexists _, _; (split; [reflexivity|]); (split; [reflexivity|]);
      auto using plus_not_digit, minus_not_digit. }
  rewrite E1, E2 in Hsig. simpl in Hsig.
  destruct (digits_split_unique _ _ _ _ _ _ D1 D2 N1 N2 Hsig) as (Ha & Hc & Hb).
  apply (inj pretty) in Ha. apply (inj pretty) in Hb.
  unfold SameProblem. rewrite E1, E2, Hc. auto.
Qed.

Lemma equals_true p q : equals p q = true <-> SameProblem p q.
Proof.
  unfold equals, SameProblem.
  rewrite !andb_true_iff, !Z.eqb_eq, String.eqb_eq. tauto.
Qed.

Lemma same_problem_signature p q :
  SameProblem p q -> getProblemSignature p = getProblemSignature q.
Proof. intros (H1 & H2 & H3). unfold getProblemSignature. rewrite H1, H2, H3. reflexivity. Qed.

End SignatureFacts.

(** X3. The signature used for duplicate detection identifies a problem
    exactly as MathProblem.equals does: two valid problems have the same
    signature if and only if equals holds between them, that is, if and
    only if they agree on operand1, operator and operand2. *)
Theorem signature_agrees_with_equals :
  forall p q : MathProblem.Problem,
    WellFormedProblem p -> WellFormedProblem q ->
    (ProblemGenerator.getProblemSignature p = ProblemGenerator.getProblemSignature q
     <-> MathProblem.equals p q = true) /\
    (MathProblem.equals p q = true <-> SameProblem p q).
Proof.
  intros p q Hp Hq. split; [|apply equals_true].
  rewrite equals_true. split.
  - apply signature_inj; assumption.
  - apply same_problem_signature.
Qed.

Lemma signature_agrees_with_equals_witness :
  ProblemGenerator.getProblemSignature
    (MathProblem.mkProblem 12 3 "+" 15 (MathProblem.IdGiven (VString "a")) 0)
  = ProblemGenerator.getProblemSignature
      (MathProblem.mkProblem 12 3 "+" 15 (MathProblem.IdGiven (VString "b")) 7)
  <-> MathProblem.equals
        (MathProblem.mkProblem 12 3 "+" 15 (MathProblem.IdGiven (VString "a")) 0)
        (MathProblem.mkProblem 12 3 "+" 15 (MathProblem.IdGiven (VString "b")) 7)
      = true.
Proof.
  exact (proj1 (signature_agrees_with_equals
    (MathProblem.mkProblem 12 3 "+" 15 (MathProblem.IdGiven (VString "a")) 0)
    (MathProblem.mkProblem 12 3 "+" 15 (MathProblem.IdGiven (VString "b")) 7)
    ltac:(unfold WellFormedProblem; simpl; intuition lia)
    ltac:(unfold WellFormedProblem; simpl; intuition lia))).
Defined.

Section TableFacts.

Lemma difficulty_entries k d :
  DIFFICULTY_LEVELS !! k = Some d ->
  (k, minNumber d, maxNumber d)
  ∈ [("within10"%string, 1, 10); ("within20"%string, 1, 20);
     ("within50"%string, 1, 50); ("within100"%string, 1, 100)].
Proof.
  intros H. apply elem_of_list_to_map_2 in H.
  repeat (apply elem_of_cons in H as [H | H];
          [injection H as -> ->; simpl;
           repeat (first [apply list_elem_of_here | apply list_elem_of_further])|]).
  inversion H.
Qed.

Lemma operation_keys k o :
  OPERATION_TYPES !! k = Some o ->
  k = "addition"%string \/ k = "subtraction"%string \/ k = "mixed"%string.
Proof.
  intros H. apply elem_of_list_to_map_2 in H.
  repeat (apply elem_of_cons in H as [H | H]; [injection H as -> _; auto|]).
  inversion H.
Qed.

Lemma layout_table :
  map_Forall (fun k lt => k <> ""%string /\ 1 <= problemsPerPage lt <= 50 /\
                          (columns lt = 2 \/ columns lt = 3)) LAYOUT_TYPES.
Proof. apply (bool_decide_unpack _). vm_compute. exact I. Qed.

Lemma difficulty_keys_nonempty :
  map_Forall (fun k (_ : DifficultyLevel) => k <> ""%string) DIFFICULTY_LEVELS.
Proof. apply (bool_decide_unpack _). vm_compute. exact I. Qed.

Lemma operation_keys_nonempty :
  map_Forall (fun k (_ : OperationType) => k <> ""%string) OPERATION_TYPES.
Proof. apply (bool_decide_unpack _). vm_compute. exact I. Qed.

Lemma lookup_within10 :
  DIFFICULTY_LEVELS !! "within10"%string
  = Some {| dl_name := "10以内"; maxNumber := 10; minNumber := 1 |}.
Proof. reflexivity. Qed.

Lemma lookup_within20 :
  DIFFICULTY_LEVELS !! "within20"%string
  = Some {| dl_name := "20以内"; maxNumber := 20; minNumber := 1 |}.
Proof. reflexivity. Qed.

Lemma lookup_within50 :
  DIFFICULTY_LEVELS !! "within50"%string
  = Some {| dl_name := "50以内"; maxNumber := 50; minNumber := 1 |}.
Proof. reflexivity. Qed.

Lemma lookup_within100 :
  DIFFICULTY_LEVELS !! "within100"%string
  = Some {| dl_name := "100以内"; maxNumber := 100; minNumber := 1 |}.
Proof. reflexivity. Qed.

Lemma lookup_custom_level : DIFFICULTY_LEVELS !! "custom"%string = None.
Proof. reflexivity. Qed.

Lemma truthy_key k : k <> ""%string -> truthy (VString k) = true.
Proof.
  intros Hk. simpl. apply negb_true_iff.
  destruct (String.eqb k "") eqn:E; [|reflexivity].
  apply String.eqb_eq in E. contradiction.
Qed.

Lemma orElse_key k d : k <> ""%string -> Js.orElse (VString k) d = VString k.
Proof. intros Hk. unfold Js.orElse. rewrite (truthy_key k Hk). reflexivity. Qed.

End TableFacts.

Section DifficultyLevelFacts.

Import MathProblem.

Lemma fitsInDifficulty_true p k :
  fitsInDifficulty p (VString k) = true <->
  exists d, DIFFICULTY_LEVELS !! k = Some d /\
            minNumber d <= operand1 p <= maxNumber d /\
            minNumber d <= operand2 p <= maxNumber d /\ 0 <= result p.
Proof.
  unfold fitsInDifficulty. simpl. destruct (DIFFICULTY_LEVELS !! k) as [d|].
  - rewrite !andb_true_iff, !Z.leb_le. split.
    + intros H. exists d. split; [reflexivity | lia].
    + intros (d' & Hd & H). injection Hd as <-. lia.
  - split; [discriminate | intros (d & Hd & _); discriminate].
Qed.

Lemma level_lookup p :
  1 <= operand1 p -> 1 <= operand2 p -> operand1 p <= 100 -> operand2 p <= 100 ->
  exists d0, DIFFICULTY_LEVELS !! getDifficultyLevel p = Some d0 /\
             minNumber d0 = 1 /\
             Z.max (operand1 p) (operand2 p) <= maxNumber d0 /\
             forall m, m ∈ [10; 20; 50; 100] ->
                       Z.max (operand1 p) (operand2 p) <= m -> maxNumber d0 <= m.
Proof.
  intros H1 H2 H3 H4. unfold getDifficultyLevel.
  assert (forall (m : Z) (P : Prop),
            m ∈ [10; 20; 50; 100] ->
            (m = 10 \/ m = 20 \/ m = 50 \/ m = 100 -> P) -> P) as Hcases.
  { intros m P Hm HP. apply HP.
    repeat (apply elem_of_cons in Hm as [Hm | Hm]; [auto|]). inversion Hm. }
  destruct (Z.max _ _ <=? 10) eqn:E10; [apply Z.leb_le in E10 | apply Z.leb_gt in E10].
  { eexists. split; [apply lookup_within10|]. simpl.
    split; [reflexivity|]. split; [lia|].
    intros m Hm Hle. apply (Hcases m _ Hm). lia. }
  destruct (Z.max _ _ <=? 20) eqn:E20; [apply Z.leb_le in E20 | apply Z.leb_gt in E20].
  { eexists. split; [apply lookup_within20|]. simpl.
    split; [reflexivity|]. split; [lia|].
    intros m Hm Hle. apply (Hcases m _ Hm). lia. }
  destruct (Z.max _ _ <=? 50) eqn:E50; [apply Z.leb_le in E50 | apply Z.leb_gt in E50].
  { eexists. split; [apply lookup_within50|]. simpl.
    split; [reflexivity|]. split; [lia|].
    intros m Hm Hle. apply (Hcases m _ Hm). lia. }
  destruct (Z.max _ _ <=? 100) eqn:E100; [apply Z.leb_le in E100 | apply Z.leb_gt in E100].
  { eexists. split; [apply lookup_within100|]. simpl.
    split; [reflexivity|]. split; [lia|].
    intros m Hm Hle. apply (Hcases m _ Hm). lia. }
  lia.
Qed.

End DifficultyLevelFacts.

(** X11. getDifficultyLevel names the least difficulty level that fits:
    a problem with both operands in [1, 100] and a non-negative result fits
    the level getDifficultyLevel returns, and every level it fits has a
    maxNumber at least that large. A problem with an operand below 1 or
    above 100, or with a negative result, fits no level at all, although
    getDifficultyLevel still names one for it (an operand of 0 gives
    'within10'). *)
Theorem difficulty_level_is_least_fitting :
  forall p : MathProblem.Problem,
    (1 <= MathProblem.operand1 p <= 100 -> 1 <= MathProblem.operand2 p <= 100 ->
     0 <= MathProblem.result p ->
     MathProblem.fitsInDifficulty p (VString (MathProblem.getDifficultyLevel p)) = true /\
     forall k, MathProblem.fitsInDifficulty p (VString k) = true ->
       exists d0 d,
         DIFFICULTY_LEVELS !! MathProblem.getDifficultyLevel p = Some d0 /\
         DIFFICULTY_LEVELS !! k = Some d /\ maxNumber d0 <= maxNumber d) /\
    (MathProblem.operand1 p < 1 \/ MathProblem.operand2 p < 1 \/
     100 < MathProblem.operand1 p \/ 100 < MathProblem.operand2 p \/
     MathProblem.result p < 0 ->
     forall v, MathProblem.fitsInDifficulty p v = false).
Proof.
  intros p. split.
  - intros H1 H2 Hr.
    destruct (level_lookup p) as (d0 & Hd0 & Hmin & Hmax & Hleast); try lia.
    split.
    + apply fitsInDifficulty_true. exists d0. split; [exact Hd0 | lia].
    + intros k Hk. apply fitsInDifficulty_true in Hk as (d & Hd & Ha & Hb & _).
      exists d0, d. split; [exact Hd0|]. split; [exact Hd|].
      apply Hleast; [|lia].
      pose proof (difficulty_entries k d Hd) as He.
      repeat (apply elem_of_cons in He as [He | He];
              [injection He as _ _ ->;
               repeat (first [apply list_elem_of_here | apply list_elem_of_further])|]).
      inversion He.
  - intros Hbad v.
    destruct (MathProblem.fitsInDifficulty p v) eqn:E; [|reflexivity].
    exfalso. destruct v; try discriminate.
    apply fitsInDifficulty_true in E as (d & Hd & Ha & Hb & Hr).
    pose proof (difficulty_entries s d Hd) as He.
    repeat (apply elem_of_cons in He as [He | He];
            [injection He as _ Emin Emax; lia|]).
    inversion He.
Qed.

Lemma difficulty_level_is_least_fitting_witness :
  MathProblem.fitsInDifficulty
    (MathProblem.mkProblem 15 3 "-" 12 (MathProblem.IdGiven (VString "a")) 0)
    (VString "within20") = true /\
  MathProblem.getDifficultyLevel
    (MathProblem.mkProblem 0 0 "+" 0 (MathProblem.IdGiven (VString "z")) 0)
  = "within10"%string /\
  MathProblem.fitsInDifficulty
    (MathProblem.mkProblem 0 0 "+" 0 (MathProblem.IdGiven (VString "z")) 0)
    (VString "within10") = false.
Proof.
  split; [|split; [reflexivity|]].
  - exact (proj1 (proj1 (difficulty_level_is_least_fitting
      (MathProblem.mkProblem 15 3 "-" 12 (MathProblem.IdGiven (VString "a")) 0))
      ltac:(simpl; lia) ltac:(simpl; lia) ltac:(simpl; lia))).
  - apply (proj2 (difficulty_level_is_least_fitting
      (MathProblem.mkProblem 0 0 "+" 0 (MathProblem.IdGiven (VString "z")) 0))).
    left. simpl. lia.
Defined.

(* ===================================================================== *)
(** ** WorksheetConfig: clone, equals, update and createQuick *)
(* ===================================================================== *)

Section CloneFacts.

Import WorksheetConfig.

Lemma orElse_idem a d : Js.orElse (Js.orElse a d) d = Js.orElse a d.
Proof.
  unfold Js.orElse. destruct (truthy a) eqn:E; [rewrite E; reflexivity|].
  destruct (truthy d); reflexivity.
Qed.

Lemma strictEquals_truthy_refl a : truthy a = true -> strictEquals a a = true.
Proof.
  destruct a as [| |b|z|[| | |q]|s]; simpl; try discriminate; intros _.
  - destruct b; reflexivity.
  - apply Z.eqb_refl.
  - reflexivity.
  - reflexivity.
  - apply Qeq_bool_iff. reflexivity.
  - apply String.eqb_refl.
Qed.

Lemma strictEquals_orElse_refl a d :
  strictEquals d d = true ->
  strictEquals (Js.orElse a d) (Js.orElse a d) = true.
Proof.
  intros Hd. unfold Js.orElse. destruct (truthy a) eqn:E; [|exact Hd].
  apply strictEquals_truthy_refl. exact E.
Qed.

(** A constructed configuration, as the constructor builds it from its
    options. *)
Lemma new_ok_fields now options c :
  new now options = Ok c ->
  c = mkConfig
        (Js.orElse (o_difficulty options) (VString "within20"))
        (Js.orElse (o_operationType options) (VString "addition"))
        (Js.orElse (o_layout options) (VString "two-column"))
        (Js.orElse (o_backgroundStyle options) (VString "blank"))
        (Js.orElse (o_paperFormat options) (VString "a4"))
        (Js.orElse (o_customBackgroundUrl options) VNull)
        (Js.orElse (o_problemCount options)
           (VInt (defaultProblemCountFor
                    (Js.orElse (o_layout options) (VString "two-column")))))
        (Js.orElse (o_showAnswers options) (VBool false))
        (Js.orElse (o_title options) (VString ""))
        (VInt now).
Proof.
  unfold new.
  match goal with |- context [validate ?t] => destruct (validate t) as [[]|] end;
    [|discriminate].
  intros H. injection H as <-. reflexivity.
Qed.

Lemma validate_ignores_createdAt c t :
  validate (mkConfig (difficulty c) (operationType c) (layout c) (backgroundStyle c)
                     (paperFormat c) (customBackgroundUrl c) (problemCount c)
                     (showAnswers c) (title c) t)
  = validate c.
Proof. reflexivity. Qed.

End CloneFacts.

(** X12. clone() of a configuration that the constructor produced never
    throws, and the copy equals() the original in both directions: it has
    the same nine configuration fields and a creation time of its own. *)
Theorem clone_of_constructed_equals :
  forall (now now' : Z) (options : WorksheetConfig.Options) (c : WorksheetConfig.Config),
    WorksheetConfig.new now options = Ok c ->
    exists c',
      WorksheetConfig.clone now' c = Ok c' /\
      WorksheetConfig.equals c c' = true /\
      WorksheetConfig.equals c' c = true /\
      c' = WorksheetConfig.mkConfig
             (WorksheetConfig.difficulty c) (WorksheetConfig.operationType c)
             (WorksheetConfig.layout c) (WorksheetConfig.backgroundStyle c)
             (WorksheetConfig.paperFormat c) (WorksheetConfig.customBackgroundUrl c)
             (WorksheetConfig.problemCount c) (WorksheetConfig.showAnswers c)
             (WorksheetConfig.title c) (VInt now').
Proof.
  intros now now' options c Hnew.
  pose proof (new_ok_validated _ _ _ Hnew) as Hv.
  pose proof (new_ok_fields _ _ _ Hnew) as Hc. subst c.
  eexists. split; [|split; [|split; [|reflexivity]]].
  - unfold WorksheetConfig.clone, WorksheetConfig.new. simpl.
    rewrite !orElse_idem.
    match goal with |- context [WorksheetConfig.validate ?t] =>
      assert (WorksheetConfig.validate t = Ok tt) as -> by exact Hv
    end.
    reflexivity.
  - unfold WorksheetConfig.equals. simpl.
    rewrite !strictEquals_orElse_refl
      by (simpl; first [apply Z.eqb_refl | reflexivity]).
    reflexivity.
  - unfold WorksheetConfig.equals. simpl.
    rewrite !strictEquals_orElse_refl
      by (simpl; first [apply Z.eqb_refl | reflexivity]).
    reflexivity.
Qed.

Lemma clone_of_constructed_equals_witness :
  exists c c',
    WorksheetConfig.new 0 (onlyCount (VInt 7)) = Ok c /\
    WorksheetConfig.clone 1 c = Ok c' /\
    WorksheetConfig.equals c c' = true /\
    WorksheetConfig.problemCount c' = VInt 7.
Proof.
  eexists.
  destruct (clone_of_constructed_equals 0 1 (onlyCount (VInt 7)) _
              ltac:(vm_compute; reflexivity)) as (c' & H1 & H2 & _ & H4).
  exists c'. split; [vm_compute; reflexivity|].
  split; [exact H1|]. split; [exact H2|]. rewrite H4. reflexivity.
Defined.

Section UpdateFacts.

Import WorksheetConfig.

Lemma applyUpdates_count this (n : Z) :
  n <> 0 ->
  applyUpdates this {[ "problemCount"%string := VInt n ]}
  = mkConfig (difficulty this) (operationType this) (layout this)
             (backgroundStyle this) (paperFormat this) (customBackgroundUrl this)
             (VInt n) (showAnswers this) (title this) (createdAt this).
Proof.
  intros Hn. unfold applyUpdates, assigned, prop.
  rewrite lookup_singleton_eq. rewrite !lookup_singleton_ne by discriminate.
  reflexivity.
Qed.

Lemma applyUpdates_layout this (L : string) :
  L <> ""%string ->
  applyUpdates this {[ "layout"%string := VString L ]}
  = mkConfig (difficulty this) (operationType this) (VString L)
             (backgroundStyle this) (paperFormat this) (customBackgroundUrl this)
             (VInt (defaultProblemCountFor (VString L)))
             (showAnswers this) (title this) (createdAt this).
Proof.
  intros HL. unfold applyUpdates, assigned, prop.
  rewrite lookup_singleton_eq. rewrite !lookup_singleton_ne by discriminate.
  simpl default. rewrite (truthy_key L HL). reflexivity.
Qed.

End UpdateFacts.

(** X13. A change of layout through update() resets the problem count: on
    a valid configuration, update({problemCount: n}) with n in [1, 50]
    succeeds and stores n, and a following update({layout: L}) with L a
    layout of the table succeeds as well and replaces n by the
    problemsPerPage of L. *)
Theorem update_layout_resets_problem_count :
  forall (this : WorksheetConfig.Config) (n : Z) (L : string) (lt : LayoutType),
    WorksheetConfig.validate this = Ok tt ->
    1 <= n <= 50 ->
    LAYOUT_TYPES !! L = Some lt ->
    let step1 := WorksheetConfig.update this {[ "problemCount"%string := VInt n ]} in
    let step2 := WorksheetConfig.update (fst step1) {[ "layout"%string := VString L ]} in
    snd step1 = Ok tt /\
    WorksheetConfig.problemCount (fst step1) = VInt n /\
    snd step2 = Ok tt /\
    WorksheetConfig.layout (fst step2) = VString L /\
    WorksheetConfig.problemCount (fst step2) = VInt (problemsPerPage lt).
Proof.
  intros this n L lt Hv Hn HL step1 step2.
  destruct (layout_table L lt HL) as (HLne & Hppp & _).
  apply validate_ok_invariant_config in Hv.
  destruct Hv as (Hd & Ho & Hl & Hb & Hc & Hu).
  subst step2 step1. unfold WorksheetConfig.update. simpl.
  rewrite applyUpdates_count by lia.
  rewrite applyUpdates_layout by exact HLne. simpl.
  assert (WorksheetConfig.defaultProblemCountFor (VString L) = problemsPerPage lt) as Hdef.
  { unfold WorksheetConfig.defaultProblemCountFor. simpl. rewrite HL. reflexivity. }
  rewrite Hdef.
  split; [|split; [reflexivity|split; [|split; reflexivity]]].
  - apply validate_ok_invariant_config. unfold ConfigInvariant. simpl.
    repeat (split; [assumption|]). split; [|exact Hu].
    exists n. split; [reflexivity | lia].
  - apply validate_ok_invariant_config. unfold ConfigInvariant. simpl.
    split; [exact Hd|]. split; [exact Ho|].
    split; [exists L; split; [reflexivity | eauto]|].
    split; [exact Hb|]. split; [|exact Hu].
    exists (problemsPerPage lt). split; [reflexivity | lia].
Qed.

Lemma update_layout_resets_problem_count_witness :
  WorksheetConfig.problemCount
    (fst (WorksheetConfig.update
            (fst (WorksheetConfig.update defaultConfig
                    {[ "problemCount"%string := VInt 7 ]}))
            {[ "layout"%string := VString "three-column" ]}))
  = VInt 30.
Proof.
  exact (proj2 (proj2 (proj2 (proj2
    (update_layout_resets_problem_count defaultConfig 7 "three-column"
       {| lt_name := "三列"; columns := 3; problemsPerPage := 30;
          spacing := {| horizontal := 40; vertical := 70 |} |}
       eq_refl ltac:(lia) eq_refl))))).
Defined.



(* ===================================================================== *)
(** ** ConfigurationManager: the number of possible problems *)
(* ===================================================================== *)

Section FeasibilityFacts.

Import ConfigurationManager.

Lemma foldl_count {A} (l : list A) (count : Z) :
  foldl (fun count _ => count + 1) count l = count + Z.of_nat (length l).
Proof.
  revert count. induction l as [|x l IH]; intros count; simpl; [lia|].
  rewrite IH. lia.
Qed.

Lemma countOrderedPairs_upto minNumber (n : nat) :
  2 * foldl (fun count a =>
               foldl (fun count _ => count + 1) count
                     (seqZ minNumber (a - minNumber + 1)))
            0 (seqZ minNumber (Z.of_nat n))
  = Z.of_nat n * (Z.of_nat n + 1).
Proof.
  induction n as [|n IH].
  - reflexivity.
  - rewrite seqZ_S, foldl_app. cbn [foldl].
    rewrite foldl_count, length_seqZ.
    rewrite Z2Nat.id by lia. rewrite Nat2Z.inj_succ. nia.
Qed.

Lemma countOrderedPairs_formula minNumber maxNumber :
  minNumber <= maxNumber + 1 ->
  2 * countOrderedPairs minNumber maxNumber
  = (maxNumber - minNumber + 1) * (maxNumber - minNumber + 2).
Proof.
  intros H. unfold countOrderedPairs.
  replace (maxNumber - minNumber + 1) with (Z.of_nat (Z.to_nat (maxNumber - minNumber + 1)))
    at 1 by lia.
  rewrite countOrderedPairs_upto. rewrite Z2Nat.id by lia. ring.
Qed.

Lemma difficulty_table_ten :
  map_Forall (fun _ d => minNumber d = 1 /\ 10 <= maxNumber d) DIFFICULTY_LEVELS.
Proof. apply (bool_decide_unpack _). vm_compute. exact I. Qed.

End FeasibilityFacts.

(** X15. For a valid configuration _calculateMaxPossibleProblems returns,
    with range = maxNumber - minNumber + 1: range^2 for addition,
    range * (range + 1) / 2 for subtraction, and their sum for mixed. The
    result is at least 55, above every valid problemCount, so the
    feasibility comparison problemCount > maxPossibleProblems is never true
    for a valid configuration. *)
Theorem max_possible_problems_closed_form :
  forall (config : WorksheetConfig.Config) (d : DifficultyLevel),
    WorksheetConfig.validate config = Ok tt ->
    WorksheetConfig.getDifficultyConfig config = Some d ->
    let range := maxNumber d - minNumber d + 1 in
    exists m,
      ConfigurationManager._calculateMaxPossibleProblems config = Ok m /\
      (WorksheetConfig.operationType config = VString "addition" -> m = range * range) /\
      (WorksheetConfig.operationType config = VString "subtraction" ->
       2 * m = range * (range + 1)) /\
      (WorksheetConfig.operationType config = VString "mixed" ->
       2 * m = 2 * (range * range) + range * (range + 1)) /\
      55 <= m /\
      asInt (WorksheetConfig.problemCount config) < m.
Proof.
  intros config d Hv Hd range.
  pose proof Hv as Hinv. apply validate_ok_invariant_config in Hinv.
  destruct Hinv as (Kd & Ko & _ & _ & (n & Hn & Hr) & _).
  destruct (lookupTable_KeyOf _ _ Kd) as (kd & ed & Ekd & Hkd & Hld).
  destruct (lookupTable_KeyOf _ _ Ko) as (ko & eo & Eko & Hko & _).
  unfold WorksheetConfig.getDifficultyConfig in Hd. rewrite Hld in Hd.
  injection Hd as ->.
  destruct (difficulty_table_ten kd d Hkd) as [Hmin Hmax].
  pose proof (countOrderedPairs_formula (minNumber d) (maxNumber d) ltac:(lia)) as Hpairs.
  unfold ConfigurationManager._calculateMaxPossibleProblems,
    WorksheetConfig.getDifficultyConfig.
  rewrite Hld, Eko, Hn. simpl asInt.
  destruct (operation_keys ko eo Hko) as [-> | [-> | ->]]; simpl; eexists;
    (split; [reflexivity|]);
    (split; [intros E; try discriminate; subst range; try nia|]);
    (split; [intros E; try discriminate; subst range; try nia|]);
    (split; [intros E; try discriminate; subst range; try nia|]);
    subst range; split; nia.
Qed.

Lemma max_possible_problems_closed_form_witness :
  exists m,
    ConfigurationManager._calculateMaxPossibleProblems
      (WorksheetConfig.mkConfig
         (VString "within10") (VString "subtraction") (VString "two-column")
         (VString "blank") (VString "a4") VNull (VInt 50) (VBool false)
         (VString "") (VInt 0)) = Ok m /\
    m = 55.
Proof.
  destruct (max_possible_problems_closed_form
              (WorksheetConfig.mkConfig
                 (VString "within10") (VString "subtraction") (VString "two-column")
                 (VString "blank") (VString "a4") VNull (VInt 50) (VBool false)
                 (VString "") (VInt 0))
              {| dl_name := "10以内"; maxNumber := 10; minNumber := 1 |}
              eq_refl eq_refl) as (m & Hm & _ & Hs & _).
  exists m. split; [exact Hm|].
  specialize (Hs eq_refl). simpl in Hs. lia.
Defined.


(* ===================================================================== *)
(** ** ProblemGenerator: what the generation loop records *)
(* ===================================================================== *)

Section TrackingFacts.

Import MathProblem ProblemGenerator.

Lemma usageIn_insert tracker a k n :
  usageIn (<[a := k]> tracker) n = if decide (a = n) then k else usageIn tracker n.
Proof.
  unfold usageIn. rewrite lookup_insert. destruct (decide (a = n)); reflexivity.
Qed.

Lemma usageIn_tracked tracker a b n :
  usageIn (<[b := (usageIn (<[a := (usageIn tracker a + 1)%nat]> tracker) b + 1)%nat]>
             (<[a := (usageIn tracker a + 1)%nat]> tracker)) n
  = (usageIn tracker n
     + ((if bool_decide (a = n) then 1 else 0) + (if bool_decide (b = n) then 1 else 0)))%nat.
Proof.
  rewrite !usageIn_insert.
  repeat case_bool_decide; repeat case_decide; subst; try congruence; lia.
Qed.

Variable P : Problem -> Prop.
Variable single : M Problem.
Variable config : WorksheetConfig.Config.
Variable oc : OperationType.
Hypothesis Hsingle : GoodSingle P single.
Hypothesis Hoc : WorksheetConfig.getOperationConfig config = Some oc.

Lemma findUnique_effect remaining : forall attempts st,
  returns (findUnique single config remaining attempts) st (fun res st' =>
    world st' = world st /\ console st' = console st /\
    match fst res with
    | Some p => P p /\ WellFormedProblem p /\ Accepted p st st'
    | None => Untracked st st'
    end).
Proof.
  induction remaining as [|k IH]; intros attempts st; simpl.
  - apply returns_ret. simpl. repeat split.
  - apply returns_bind.
    destruct (Hsingle st) as (p & st1 & Hp & HP & Hwf & (Sw & Sc & Sg & St)).
    exists p, st1. split; [exact Hp|].
    apply returns_bind.
    destruct (validateProblem_quiet p config oc st1 Hwf Hoc) as [valid Hvalid].
    exists valid, st1. split; [exact Hvalid|].
    assert (returns (findUnique single config k (S attempts)) st1 (fun res st' =>
              world st' = world st /\ console st' = console st /\
              match fst res with
              | Some p => P p /\ WellFormedProblem p /\ Accepted p st st'
              | None => Untracked st st'
              end)) as Hrec.
    { eapply returns_mono; [apply IH|].
      intros [found n] st' (Hw & Hc & Hres). simpl in *.
      split; [congruence|]. split; [congruence|].
      destruct found as [q|].
      - destruct Hres as (HPq & Hwq & Hn & Hg & Hu).
        split; [exact HPq|]. split; [exact Hwq|].
        unfold Accepted. rewrite <- Sg, <- St. auto.
      - destruct Hres as [Hg Hu]. unfold Untracked. split; congruence. }
    apply returns_bind.
    destruct valid; simpl.
    + apply returns_gets.
      destruct (bool_decide (getProblemSignature p ∈ generatedProblems st1)) eqn:Hdup;
        simpl; [exact Hrec|].
      apply bool_decide_eq_false in Hdup.
      eexists _, _. split; [reflexivity|]. simpl.
      split; [exact Sw|]. split; [exact Sc|].
      split; [exact HP|]. split; [exact Hwf|].
      unfold Accepted. simpl. rewrite <- Sg, <- St.
      split; [exact Hdup|]. split; [reflexivity|].
      intros n. unfold occursIn. apply usageIn_tracked.
    + apply returns_ret. simpl. exact Hrec.
Qed.

Lemma fillSlot_effect i st :
  returns (fillSlot single config i) st (fun p st' =>
    P p /\ WellFormedProblem p /\ world st' = world st /\
    ((console st' = console st /\ Accepted p st st') \/
     (console st' = console st ++ [WarnDuplicate (Z.of_nat i + 1)] /\
      Untracked st st'))).
Proof.
  destruct (findUnique_effect maxRetries 0 st)
    as ([found n] & st1 & Hf & Hw & Hc & Hres).
  pose proof (fillSlot_cases single config i st found n st1 Hf) as Hcase.
  simpl in Hres. destruct found as [p|].
  - exists p, st1. split; [exact Hcase|].
    destruct Hres as (HP & Hwf & Hacc). auto 6.
  - destruct (Hsingle st1) as (p & st2 & Hp & HP & Hwf & (Sw & Sc & Sg & St)).
    exists p, (warned (WarnDuplicate (Z.of_nat i + 1)) st2).
    split; [apply Hcase; exact Hp|].
    split; [exact HP|]. split; [exact Hwf|]. simpl.
    split; [congruence|]. right.
    destruct Hres as [Hg Hu]. unfold Untracked. simpl.
    split; [congruence|]. split; congruence.
Qed.

Lemma fillSlots_effect n : forall i st,
  returns (fillSlots single config n i) st (fun ps st' =>
    length ps = n /\ Forall P ps /\ Forall WellFormedProblem ps /\
    SlotsEffect st ps st').
Proof.
  induction n as [|n IH]; intros i st; simpl.
  - apply returns_ret. split; [reflexivity|]. split; [constructor|].
    split; [constructor|]. split; [reflexivity|].
    exists []. split; [rewrite app_nil_r; reflexivity|].
    split; [reflexivity|]. intros _.
    split; [constructor|]. split; [intros sg H; inversion H|].
    split; [simpl; rewrite (left_id_L ∅ (∪)); reflexivity|].
    intros k. simpl. lia.
  - apply returns_bind.
    eapply returns_mono; [apply fillSlot_effect|].
    intros p st1 (HP & Hwf & Hw1 & Hslot). apply returns_bind.
    eapply returns_mono; [apply IH|].
    intros ps st2 (Hlen & HPs & Hwfs & Hw2 & ws2 & Hc2 & Hsub2 & Hclean).
    apply returns_ret.
    split; [simpl; congruence|]. split; [constructor; assumption|].
    split; [constructor; assumption|]. split; [congruence|].
    destruct Hslot as [[Hc1 (Hnew & Hg1 & Hu1)] | [Hc1 [Hg1 Hu1]]].
    + exists ws2. split; [rewrite Hc2, Hc1; reflexivity|].
      split; [rewrite <- Hsub2, Hg1; apply union_subseteq_r|].
      intros Hws. destruct (Hclean Hws) as (Hnd & Hfresh & Hg2 & Hu2).
      unfold signatures in *. simpl.
      split.
      { constructor; [|exact Hnd]. intros Hin.
        apply (Hfresh _ Hin). rewrite Hg1.
        apply elem_of_union_l, elem_of_singleton. reflexivity. }
      split.
      { intros sg Hsg. apply elem_of_cons in Hsg as [-> | Hsg]; [exact Hnew|].
        intros Hin. apply (Hfresh _ Hsg). rewrite Hg1.
        apply elem_of_union_r. exact Hin. }
      split.
      { rewrite Hg2, Hg1. rewrite (assoc_L (∪)).
        rewrite (comm_L (∪) (list_to_set _) {[_]}). reflexivity. }
      intros k. rewrite Hu2, Hu1. unfold operandUses. simpl. lia.
    + exists ([WarnDuplicate (Z.of_nat i + 1)] ++ ws2).
      split; [rewrite Hc2, Hc1, <- app_assoc; reflexivity|].
      split; [rewrite <- Hsub2, Hg1; reflexivity|].
      intros Hws. discriminate.
Qed.

End TrackingFacts.

(* ===================================================================== *)
(** ** ProblemGenerator: shuffling and de-duplication *)
(* ===================================================================== *)

Section ShuffleFacts.

Import MathProblem ProblemGenerator.

Lemma swap_Permutation {A} (i j : nat) (l : list A) : swap i j l ≡ₚ l.
Proof.
  unfold swap. destruct (l !! i) as [ai|] eqn:Ei; [|reflexivity].
  destruct (l !! j) as [aj|] eqn:Ej; [|reflexivity].
  apply Permutation_insert_swap; assumption.
Qed.

Lemma shuffleFrom_Permutation {A} (i : nat) : forall (l : list A) st,
  returns (shuffleFrom i l) st (fun l' st' => l' ≡ₚ l /\ st' = drawn i st).
Proof.
  induction i as [|i IH]; intros l st; simpl.
  - apply returns_ret. split; [reflexivity|]. destruct st; reflexivity.
  - apply returns_bind.
    exists (random (world st) (draws st)), (drawn 1 st). split; [reflexivity|].
    eapply returns_mono; [apply IH|].
    intros l' st' [Hp ->]. split.
    + rewrite Hp. apply swap_Permutation.
    + unfold drawn. simpl. f_equal. lia.
Qed.

Lemma shuffleArray_Permutation {A} (l : list A) st :
  returns (shuffleArray l) st (fun l' st' =>
    l' ≡ₚ l /\ st' = drawn (length l - 1) st).
Proof. apply shuffleFrom_Permutation. Qed.




Lemma countOperator_nonneg op ps : 0 <= countOperator op ps.
Proof. unfold countOperator. lia. Qed.


Lemma ensureUniquenessFrom_spec problems : forall seen,
  ensureUniquenessFrom seen problems `sublist_of` problems /\
  NoDup (signatures (ensureUniquenessFrom seen problems)) /\
  (forall sg, sg ∈ signatures (ensureUniquenessFrom seen problems) -> sg ∉ seen) /\
  (forall sg, sg ∈ signatures problems ->
     sg ∈ seen \/ sg ∈ signatures (ensureUniquenessFrom seen problems)).
Proof.
  induction problems as [|p ps IH]; intros seen; simpl.
  - split; [constructor|]. split; [constructor|].
    split; intros sg H; inversion H.
  - destruct (bool_decide (getProblemSignature p ∈ seen)) eqn:E.
    + apply bool_decide_eq_true in E.
      destruct (IH seen) as (H1 & H2 & H3 & H4).
      split; [apply sublist_cons; exact H1|]. split; [exact H2|].
      split; [exact H3|].
      intros sg Hsg. unfold signatures in Hsg. simpl in Hsg.
      apply elem_of_cons in Hsg as [-> | Hsg]; [left; exact E | apply H4; exact Hsg].
    + apply bool_decide_eq_false in E.
      destruct (IH ({[getProblemSignature p]} ∪ seen)) as (H1 & H2 & H3 & H4).
      split; [apply sublist_skip; exact H1|].
      unfold signatures in *. simpl.
      split.
      { constructor; [|exact H2]. intros Hin. apply (H3 _ Hin).
        apply elem_of_union_l, elem_of_singleton. reflexivity. }
      split.
      { intros sg Hsg. apply elem_of_cons in Hsg as [-> | Hsg]; [exact E|].
        intros Hin. apply (H3 _ Hsg). apply elem_of_union_r. exact Hin. }
      intros sg Hsg. apply elem_of_cons in Hsg as [-> | Hsg].
      * right. apply elem_of_cons. left. reflexivity.
      * destruct (H4 _ Hsg) as [Hin | Hin].
        -- apply elem_of_union in Hin as [Hin | Hin].
           ++ apply elem_of_singleton in Hin. subst sg.
              right. apply elem_of_cons. left. reflexivity.
           ++ left. exact Hin.
        -- right. apply elem_of_cons. right. exact Hin.
Qed.

Lemma ensureUniquenessFrom_fixed problems : forall seen,
  NoDup (signatures problems) ->
  (forall sg, sg ∈ signatures problems -> sg ∉ seen) ->
  ensureUniquenessFrom seen problems = problems.
Proof.
  induction problems as [|p ps IH]; intros seen Hnd Hfresh; simpl; [reflexivity|].
  unfold signatures in *. simpl in *.
  apply NoDup_cons in Hnd as [Hp Hnd].
  rewrite bool_decide_eq_false_2
    by (apply Hfresh, elem_of_cons; left; reflexivity).
  f_equal. apply IH; [exact Hnd|].
  intros sg Hsg Hin. apply elem_of_union in Hin as [Hin | Hin].
  - apply elem_of_singleton in Hin. subst sg. contradiction.
  - apply (Hfresh sg); [apply elem_of_cons; right; exact Hsg | exact Hin].
Qed.

End ShuffleFacts.

(** X1. shuffleArray returns a rearrangement of its argument: the same
    elements, each as often as before. It calls Math.random() once for
    every position but the first and changes nothing else. *)
Theorem shuffleArray_is_permutation :
  forall (A : Type) (array : list A) (st : State),
    returns (ProblemGenerator.shuffleArray array) st (fun shuffled st' =>
      shuffled ≡ₚ array /\ st' = drawn (length array - 1) st).
Proof. intros A array st. apply shuffleArray_Permutation. Qed.

(** X2. ensureUniqueness keeps, in their order, problems of its argument
    with pairwise different signatures; every signature of the argument
    is still present; a list without duplicate signatures is returned
    unchanged, so that applying the function twice changes nothing
    more. *)
Theorem ensureUniqueness_removes_duplicates :
  forall problems : list MathProblem.Problem,
    ProblemGenerator.ensureUniqueness problems `sublist_of` problems /\
    NoDup (signatures (ProblemGenerator.ensureUniqueness problems)) /\
    (forall p, p ∈ problems ->
       exists q, q ∈ ProblemGenerator.ensureUniqueness problems /\
                 ProblemGenerator.getProblemSignature q
                 = ProblemGenerator.getProblemSignature p) /\
    (NoDup (signatures problems) ->
       ProblemGenerator.ensureUniqueness problems = problems) /\
    ProblemGenerator.ensureUniqueness (ProblemGenerator.ensureUniqueness problems)
    = ProblemGenerator.ensureUniqueness problems.
Proof.
  intros problems. unfold ProblemGenerator.ensureUniqueness.
  destruct (ensureUniquenessFrom_spec problems ∅) as (H1 & H2 & H3 & H4).
  split; [exact H1|]. split; [exact H2|].
  split.
  { intros p Hp.
    destruct (H4 (ProblemGenerator.getProblemSignature p)) as [Hin | Hin].
    - unfold signatures. apply list_elem_of_fmap. exists p. auto.
    - apply elem_of_empty in Hin. contradiction.
    - unfold signatures in Hin. apply list_elem_of_fmap in Hin as (q & Hq & Hin).
      exists q. auto. }
  split.
  - intros Hnd. apply ensureUniquenessFrom_fixed; [exact Hnd|].
    intros sg _ Hin. apply elem_of_empty in Hin. contradiction.
  - apply ensureUniquenessFrom_fixed; [exact H2|].
    intros sg _ Hin. apply elem_of_empty in Hin. contradiction.
Qed.

(* ===================================================================== *)
(** ** ProblemGenerator: operation distribution and diverse numbers *)
(* ===================================================================== *)

Section DistributionFacts.

Import MathProblem ProblemGenerator.




End DistributionFacts.




(* ===================================================================== *)
(** ** ProblemGenerator: what a run of the generator guarantees *)
(* ===================================================================== *)

Section RunFacts.

Import MathProblem ProblemGenerator.

Lemma singleProblemWith_good draw d oc :
  DrawSpec draw -> 0 <= minNumber d <= maxNumber d -> KnownOperation oc ->
  GoodSingle (fun p => InRange d p /\ Conforms oc p)
             (singleProblemWith draw (Some d) (Some oc)).
Proof.
  intros Hdraw Hd Hknown st.
  destruct (Hdraw (minNumber d) (maxNumber d) st) as (v1 & st1 & H1 & Hr1 & Hs1);
    [lia|].
  destruct (Hdraw (minNumber d) (maxNumber d) st1) as (v2 & st2 & H2 & Hr2 & Hs2);
    [lia|].
  assert (sameGenerator st st2) as Hs12
    by (eapply sameGenerator_trans; eassumption).
  unfold singleProblemWith.
  apply returns_bind. exists v1, st1. split; [exact H1|].
  apply returns_bind. exists v2, st2. split; [exact H2|].
  apply returns_bind.
  destruct Hknown as [Hn | [Hn | Hn]]; rewrite Hn.
  - change (String.eqb "加法" "加法") with true. cbv iota.
    apply returns_ret. simpl.
    apply returns_new; [apply addition_invariant; lia|].
    intros p st' E1 E2 E3 E4 Hwf Hs.
    split; [split|split; [exact Hwf | eapply sameGenerator_trans; eassumption]].
    + unfold InRange. rewrite E1, E2. lia.
    + unfold Conforms. rewrite Hn, E3. split; [reflexivity | discriminate].
  - change (String.eqb "减法" "加法") with false.
    change (String.eqb "减法" "减法") with true. cbv iota.
    destruct (v1 <? v2) eqn:Hlt; apply returns_ret; simpl;
      [apply Z.ltb_lt in Hlt | apply Z.ltb_ge in Hlt];
      (apply returns_new; [apply subtraction_invariant; lia|]);
      intros p st' E1 E2 E3 E4 Hwf Hs;
      (split; [split|split; [exact Hwf | eapply sameGenerator_trans; eassumption]]);
      try (unfold InRange; rewrite E1, E2; lia);
      unfold Conforms; rewrite Hn, E3; (split; [discriminate | reflexivity]).
  - change (String.eqb "加减混合" "加法") with false.
    change (String.eqb "加减混合" "减法") with false.
    change (String.eqb "加减混合" "加减混合") with true. cbv iota.
    apply returns_bind, returns_Math_random. intros st3 Hs3 _.
    assert (sameGenerator st st3) as Hs13
      by (eapply sameGenerator_trans; eassumption).
    destruct (randLt _ 1 2); simpl.
    + apply returns_ret. simpl.
      apply returns_new; [apply addition_invariant; lia|].
      intros p st' E1 E2 E3 E4 Hwf Hs.
      split; [split|split; [exact Hwf | eapply sameGenerator_trans; eassumption]].
      * unfold InRange. rewrite E1, E2. lia.
      * unfold Conforms. rewrite Hn. split; discriminate.
    + destruct (v1 <? v2) eqn:Hlt; apply returns_ret; simpl;
        [apply Z.ltb_lt in Hlt | apply Z.ltb_ge in Hlt];
        (apply returns_new; [apply subtraction_invariant; lia|]);
        intros p st' E1 E2 E3 E4 Hwf Hs;
        (split; [split|split; [exact Hwf | eapply sameGenerator_trans; eassumption]]);
        try (unfold InRange; rewrite E1, E2; lia);
        unfold Conforms; rewrite Hn; (split; discriminate).
Qed.

(** A valid problem within the configured difficulty and with the
    configured operator is accepted by [validateProblem], silently. *)
Lemma validateProblem_accepts p config d oc st :
  WellFormedProblem p ->
  WorksheetConfig.getDifficultyConfig config = Some d -> InRange d p ->
  WorksheetConfig.getOperationConfig config = Some oc -> Conforms oc p ->
  validateProblem p config st = (Ok true, st).
Proof.
  intros Hwf Hd Hr Hoc [Ca Cs]. unfold validateProblem, tryCatch.
  rewrite (well_formed_revalidate p Hwf), Hoc.
  assert (fitsInDifficulty p (WorksheetConfig.difficulty config) = true) as ->.
  { unfold fitsInDifficulty. unfold WorksheetConfig.getDifficultyConfig in Hd.
    rewrite Hd. destruct Hr as [R1 R2]. destruct Hwf as (_ & _ & R3 & _).
    rewrite !andb_true_iff, !Z.leb_le. lia. }
  cbn [negb].
  assert ((String.eqb (op_name oc) "加法" && negb (String.eqb (operator p) "+")) = false)
    as ->.
  { destruct (String.eqb (op_name oc) "加法") eqn:E; [|reflexivity].
    apply String.eqb_eq in E. rewrite (Ca E). reflexivity. }
  assert ((String.eqb (op_name oc) "减法" && negb (String.eqb (operator p) "-")) = false)
    as ->.
  { destruct (String.eqb (op_name oc) "减法") eqn:E; [|reflexivity].
    apply String.eqb_eq in E. rewrite (Cs E). reflexivity. }
  destruct Hwf as (_ & _ & R3 & _).
  assert ((result p <? 0) = false) as -> by (apply Z.ltb_ge; exact R3).
  reflexivity.
Qed.

Lemma usageIn_empty k : usageIn ∅ k = 0%nat.
Proof. unfold usageIn. rewrite lookup_empty. reflexivity. Qed.

(** What a run of [generateWith] returns and leaves, for a call [single]
    that makes good problems. *)
Lemma generateWith_effect P single config count st oc n :
  WorksheetConfig.getOperationConfig config = Some oc ->
  GoodSingle P (single (WorksheetConfig.getDifficultyConfig config) (Some oc)) ->
  loopBound (Js.orElse (Js.orElse count (WorksheetConfig.problemCount config)) (VInt 20))
  = Some n ->
  returns (generateWith single (Some config) count) st (fun ps st' =>
    length ps = n /\ Forall P ps /\ Forall WellFormedProblem ps /\
    world st' = world st /\
    exists ws, console st' = console st ++ ws /\
      (ws = [] ->
       NoDup (signatures ps) /\
       generatedProblems st' = list_to_set (signatures ps) /\
       forall k, usageIn (numberUsageTracker st') k = operandUses k ps)).
Proof.
  intros Ho Hsingle Hn. unfold generateWith. rewrite Ho, Hn.
  apply returns_bind, returns_modify. apply returns_bind, returns_modify.
  eapply returns_mono.
  - eapply fillSlots_effect; eassumption.
  - intros ps st' (Hlen & HP & Hwf & Hw & ws & Hc & _ & Hclean). simpl in *.
    split; [exact Hlen|]. split; [exact HP|]. split; [exact Hwf|].
    split; [exact Hw|]. exists ws. split; [exact Hc|].
    intros Hws. destruct (Hclean Hws) as (Hnd & _ & Hg & Hu).
    split; [exact Hnd|]. split.
    + rewrite Hg. apply (right_id_L ∅ (∪)).
    + intros k. rewrite Hu, usageIn_empty. reflexivity.
Qed.

(** The same for a valid configuration and either way of drawing
    operands. *)
Lemma generateWith_valid draw config count st n :
  DrawSpec draw ->
  WorksheetConfig.validate config = Ok tt ->
  loopBound (Js.orElse (Js.orElse count (WorksheetConfig.problemCount config)) (VInt 20))
  = Some n ->
  returns (generateWith (singleProblemWith draw) (Some config) count) st (fun ps st' =>
    length ps = n /\
    Forall (fun p => WellFormedProblem p /\
                     forall st0, validateProblem p config st0 = (Ok true, st0)) ps /\
    world st' = world st /\
    exists ws, console st' = console st ++ ws /\
      (ws = [] ->
       NoDup (signatures ps) /\
       generatedProblems st' = list_to_set (signatures ps) /\
       forall k, usageIn (numberUsageTracker st') k = operandUses k ps)).
Proof.
  intros Hdraw Hv Hn.
  destruct (valid_config_parts config Hv)
    as (d & oc & m & Hd & Hmin & Hmax & Ho & Hk & _).
  eapply returns_mono.
  - apply (generateWith_effect (fun p => InRange d p /\ Conforms oc p)
             (singleProblemWith draw) config count st oc n Ho); [|exact Hn].
    rewrite Hd. apply singleProblemWith_good; [exact Hdraw | lia | exact Hk].
  - intros ps st' (Hlen & HP & Hwf & Hw & Hrest).
    split; [exact Hlen|]. split; [|split; [exact Hw | exact Hrest]].
    apply Forall_forall. intros p Hp.
    rewrite Forall_forall in HP, Hwf.
    destruct (HP p Hp) as [Hr Hc].
    split; [apply Hwf; exact Hp|].
    intros st0. eapply validateProblem_accepts; eauto.
Qed.

Lemma console_unchanged (l ws : list LogEntry) : l = l ++ ws -> ws = [].
Proof.
  intros H. apply (app_inv_head l). rewrite app_nil_r. symmetry. exact H.
Qed.

Lemma NoDup_signatures_equals ps :
  NoDup (signatures ps) ->
  forall i j p q, ps !! i = Some p -> ps !! j = Some q -> i <> j ->
                  equals p q = false.
Proof.
  intros Hnd i j p q Hi Hj Hij.
  destruct (equals p q) eqn:E; [|reflexivity]. exfalso. apply Hij.
  apply equals_true, same_problem_signature in E.
  rewrite NoDup_alt in Hnd.
  apply (Hnd i j (getProblemSignature p)); unfold signatures;
    rewrite list_lookup_fmap; [rewrite Hi | rewrite Hj, E]; reflexivity.
Qed.

End RunFacts.

(** X4. For a valid configuration generateProblems returns as many
    problems as asked for, and each of them, a duplicate taken after the
    retries included, is a valid problem that validateProblem accepts for
    this configuration without a warning: it is correct arithmetic, within
    the difficulty level, and with the operator of the operation type. *)
Theorem generateProblems_output_passes_validation :
  forall (config : WorksheetConfig.Config) (count : Value) (st : State) (n : nat),
    WorksheetConfig.validate config = Ok tt ->
    ProblemGenerator.loopBound
      (Js.orElse (Js.orElse count (WorksheetConfig.problemCount config)) (VInt 20))
    = Some n ->
    returns (ProblemGenerator.generateProblems (Some config) count) st
      (fun problems _ =>
         length problems = n /\
         Forall (fun p =>
           WellFormedProblem p /\
           forall st0, ProblemGenerator.validateProblem p config st0 = (Ok true, st0))
           problems).
Proof.
  intros config count st n Hv Hn.
  eapply returns_mono.
  - apply (generateWith_valid (fun min max => ProblemGenerator.randomInt min max false)
             config count st n randomInt_plain_spec Hv Hn).
  - intros ps st' (Hlen & Hall & _). auto.
Qed.

Lemma generateProblems_output_passes_validation_witness :
  returns (ProblemGenerator.generateProblems (Some within10Mixed) VNull)
    (freshState constantWorld)
    (fun problems _ =>
       length problems = 5%nat /\
       Forall (fun p =>
         WellFormedProblem p /\
         forall st0,
           ProblemGenerator.validateProblem p within10Mixed st0 = (Ok true, st0))
         problems).
Proof.
  exact (generateProblems_output_passes_validation within10Mixed VNull
           (freshState constantWorld) 5%nat
           ltac:(vm_compute; reflexivity) ltac:(vm_compute; reflexivity)).
Defined.

(** X5. When a run of generateProblems for a valid configuration writes
    no warning to the console, no two of the returned problems are equal:
    problems at different positions differ in an operand or in the
    operator. *)
Theorem generateProblems_unique_unless_warned :
  forall (config : WorksheetConfig.Config) (count : Value) (st : State) (n : nat),
    WorksheetConfig.validate config = Ok tt ->
    ProblemGenerator.loopBound
      (Js.orElse (Js.orElse count (WorksheetConfig.problemCount config)) (VInt 20))
    = Some n ->
    returns (ProblemGenerator.generateProblems (Some config) count) st
      (fun problems st' =>
         console st' = console st ->
         forall i j p q,
           problems !! i = Some p -> problems !! j = Some q -> i <> j ->
           MathProblem.equals p q = false).
Proof.
  intros config count st n Hv Hn.
  eapply returns_mono.
  - apply (generateWith_valid (fun min max => ProblemGenerator.randomInt min max false)
             config count st n randomInt_plain_spec Hv Hn).
  - intros ps st' (_ & _ & _ & ws & Hc & Hclean) Hquiet.
    rewrite Hquiet in Hc. apply console_unchanged in Hc.
    destruct (Hclean Hc) as (Hnd & _).
    apply NoDup_signatures_equals. exact Hnd.
Qed.

Lemma generateProblems_unique_unless_warned_witness :
  returns (ProblemGenerator.generateProblems (Some within10Mixed) (VInt 2))
    (freshState fifthCallWorld)
    (fun problems st' =>
       console st' = console (freshState fifthCallWorld) ->
       forall i j p q,
         problems !! i = Some p -> problems !! j = Some q -> i <> j ->
         MathProblem.equals p q = false).
Proof.
  exact (generateProblems_unique_unless_warned within10Mixed (VInt 2)
           (freshState fifthCallWorld) 2%nat
           ltac:(vm_compute; reflexivity) ltac:(vm_compute; reflexivity)).
Defined.

(** X6. After a run of generateProblems for a valid configuration that
    wrote no warning, the generator's records describe the returned
    problems: generatedProblems holds exactly their signatures, and
    getNumberUsage gives for every number how often it occurs among their
    operands. *)
Theorem generateProblems_records_output :
  forall (config : WorksheetConfig.Config) (count : Value) (st : State) (n : nat),
    WorksheetConfig.validate config = Ok tt ->
    ProblemGenerator.loopBound
      (Js.orElse (Js.orElse count (WorksheetConfig.problemCount config)) (VInt 20))
    = Some n ->
    returns (ProblemGenerator.generateProblems (Some config) count) st
      (fun problems st' =>
         console st' = console st ->
         generatedProblems st' = list_to_set (signatures problems) /\
         forall num,
           ProblemGenerator.getNumberUsage num st'
           = (Ok (operandUses num problems), st')).
Proof.
  intros config count st n Hv Hn.
  eapply returns_mono.
  - apply (generateWith_valid (fun min max => ProblemGenerator.randomInt min max false)
             config count st n randomInt_plain_spec Hv Hn).
  - intros ps st' (_ & _ & _ & ws & Hc & Hclean) Hquiet.
    rewrite Hquiet in Hc. apply console_unchanged in Hc.
    destruct (Hclean Hc) as (_ & Hg & Hu).
    split; [exact Hg|]. intros num.
    unfold ProblemGenerator.getNumberUsage, gets. rewrite Hu. reflexivity.
Qed.

Lemma generateProblems_records_output_witness :
  returns (ProblemGenerator.generateProblems (Some within10Mixed) (VInt 2))
    (freshState fifthCallWorld)
    (fun problems st' =>
       console st' = console (freshState fifthCallWorld) ->
       generatedProblems st' = list_to_set (signatures problems) /\
       forall num,
         ProblemGenerator.getNumberUsage num st'
         = (Ok (operandUses num problems), st')).
Proof.
  exact (generateProblems_records_output within10Mixed (VInt 2)
           (freshState fifthCallWorld) 2%nat
           ltac:(vm_compute; reflexivity) ltac:(vm_compute; reflexivity)).
Defined.

(** X18. generateProblemsWithOptimizedDistribution gives the same
    guarantees as generateProblems: for a valid configuration it returns
    as many problems as asked for, each valid and accepted by
    validateProblem, and pairwise unequal when no warning was written. *)
Theorem optimized_generation_returns_valid_problems :
  forall (config : WorksheetConfig.Config) (count : Value) (st : State) (n : nat),
    WorksheetConfig.validate config = Ok tt ->
    ProblemGenerator.loopBound
      (Js.orElse (Js.orElse count (WorksheetConfig.problemCount config)) (VInt 20))
    = Some n ->
    returns (ProblemGenerator.generateProblemsWithOptimizedDistribution
               (Some config) count) st
      (fun problems st' =>
         length problems = n /\
         Forall (fun p =>
           WellFormedProblem p /\
           forall st0, ProblemGenerator.validateProblem p config st0 = (Ok true, st0))
           problems /\
         (console st' = console st ->
          forall i j p q,
            problems !! i = Some p -> problems !! j = Some q -> i <> j ->
            MathProblem.equals p q = false)).
Proof.
  intros config count st n Hv Hn.
  eapply returns_mono.
  - apply (generateWith_valid ProblemGenerator.randomIntUniform
             config count st n randomIntUniform_spec Hv Hn).
  - intros ps st' (Hlen & Hall & _ & ws & Hc & Hclean).
    split; [exact Hlen|]. split; [exact Hall|]. intros Hquiet.
    rewrite Hquiet in Hc. apply console_unchanged in Hc.
    destruct (Hclean Hc) as (Hnd & _).
    apply NoDup_signatures_equals. exact Hnd.
Qed.

Lemma optimized_generation_returns_valid_problems_witness :
  returns (ProblemGenerator.generateProblemsWithOptimizedDistribution
             (Some within10Addition) (VInt 2)) (freshState fifthCallWorld)
    (fun problems st' =>
       length problems = 2%nat /\
       Forall (fun p =>
         WellFormedProblem p /\
         forall st0,
           ProblemGenerator.validateProblem p within10Addition st0 = (Ok true, st0))
         problems /\
       (console st' = console (freshState fifthCallWorld) ->
        forall i j p q,
          problems !! i = Some p -> problems !! j = Some q -> i <> j ->
          MathProblem.equals p q = false)).
Proof.
  exact (optimized_generation_returns_valid_problems within10Addition (VInt 2)
           (freshState fifthCallWorld) 2%nat
           ltac:(vm_compute; reflexivity) ltac:(vm_compute; reflexivity)).
Defined.

(* ===================================================================== *)
(** ** ProblemGenerator: the shares of additions and subtractions *)
(* ===================================================================== *)

Section ShareFacts.

Import MathProblem ProblemGenerator.





End ShareFacts.



(* ===================================================================== *)
(** ** ProblemGenerator: balanced generation as two runs *)
(* ===================================================================== *)

Section BalancedFacts.

Import MathProblem ProblemGenerator.

Lemma background_keys_nonempty :
  map_Forall (fun k (_ : BackgroundStyle) => k <> ""%string) BACKGROUND_STYLES.
Proof. apply (bool_decide_unpack _). vm_compute. exact I. Qed.

Lemma truthy_orElse_null url : truthy (Js.orElse url VNull) = truthy url.
Proof. unfold Js.orElse. destruct (truthy url) eqn:E; [exact E | reflexivity]. Qed.

Lemma orElse_int a v : a <> 0 -> Js.orElse (VInt a) v = VInt a.
Proof.
  intros Ha. unfold Js.orElse. simpl.
  destruct (a =? 0) eqn:E; [apply Z.eqb_eq in E; contradiction | reflexivity].
Qed.







End BalancedFacts.



(* ===================================================================== *)
(** ** ProblemGenerator: constrained generation *)
(* ===================================================================== *)

Section ConstrainedFacts.

Import MathProblem ProblemGenerator.

Variable constraints : Constraints.
Variable config : WorksheetConfig.Config.
Variable d : DifficultyLevel.
Variable oc : OperationType.
Hypothesis Hd : WorksheetConfig.getDifficultyConfig config = Some d.
Hypothesis Hrange : 0 <= minNumber d <= maxNumber d.
Hypothesis Ho : WorksheetConfig.getOperationConfig config = Some oc.
Hypothesis Hknown : KnownOperation oc.

Lemma findConstrained_effect remaining : forall st,
  returns (findConstrained constraints config remaining) st (fun found st' =>
    world st' = world st /\ console st' = console st /\
    numberUsageTracker st' = numberUsageTracker st /\
    match found with
    | Some p =>
        Kept constraints d oc p /\
        (getProblemSignature p ∉ generatedProblems st) /\
        generatedProblems st' = {[getProblemSignature p]} ∪ generatedProblems st
    | None => generatedProblems st' = generatedProblems st
    end).
Proof.
  induction remaining as [|k IH]; intros st; simpl.
  - apply returns_ret. repeat split.
  - rewrite Hd, Ho. apply returns_bind.
    destruct (singleProblemWith_good (fun min max => randomInt min max false)
                d oc randomInt_plain_spec Hrange Hknown st)
      as (p & st1 & Hp & [Hr Hc] & Hwf & (Sw & Sc & Sg & St)).
    exists p, st1. split; [exact Hp|].
    apply returns_bind. exists true, st1.
    split; [eapply validateProblem_accepts; eauto|].
    cbn [andb].
    assert (returns (findConstrained constraints config k) st1 (fun found st' =>
              world st' = world st /\ console st' = console st /\
              numberUsageTracker st' = numberUsageTracker st /\
              match found with
              | Some p =>
                  Kept constraints d oc p /\
                  (getProblemSignature p ∉ generatedProblems st) /\
                  generatedProblems st'
                  = {[getProblemSignature p]} ∪ generatedProblems st
              | None => generatedProblems st' = generatedProblems st
              end)) as Hrec.
    { eapply returns_mono; [apply IH|].
      intros found st' (Hw & Hcn & Hu & Hres).
      split; [congruence|]. split; [congruence|]. split; [congruence|].
      destruct found as [q|]; rewrite <- Sg; exact Hres. }
    apply returns_bind.
    destruct (meetsConstraints constraints p) eqn:Hmeets.
    + apply returns_gets.
      destruct (bool_decide (getProblemSignature p ∈ generatedProblems st1))
        eqn:Hdup; simpl; [exact Hrec|].
      apply bool_decide_eq_false in Hdup.
      eexists _, _. split; [reflexivity|]. simpl.
      split; [exact Sw|]. split; [exact Sc|]. split; [exact St|].
      split; [unfold Kept; auto|].
      rewrite <- Sg. split; [exact Hdup | reflexivity].
    + apply returns_ret. simpl. exact Hrec.
Qed.

Lemma constrainedSlots_effect n : forall st,
  returns (constrainedSlots constraints config n) st (fun ps st' =>
    (length ps <= n)%nat /\ Forall (Kept constraints d oc) ps /\
    NoDup (signatures ps) /\
    (forall sg, sg ∈ signatures ps -> sg ∉ generatedProblems st) /\
    generatedProblems st' = list_to_set (signatures ps) ∪ generatedProblems st /\
    world st' = world st /\ console st' = console st /\
    numberUsageTracker st' = numberUsageTracker st).
Proof.
  induction n as [|n IH]; intros st; cbn [constrainedSlots].
  - apply returns_ret. split; [reflexivity|]. split; [constructor|].
    split; [constructor|]. split; [intros sg H; inversion H|].
    split; [simpl; rewrite (left_id_L ∅ (∪)); reflexivity|].
    repeat split.
  - apply returns_bind.
    eapply returns_mono; [apply findConstrained_effect|].
    intros found st1 (Hw1 & Hc1 & Hu1 & Hres). apply returns_bind.
    eapply returns_mono; [apply IH|].
    intros ps st2 (Hlen & Hkept & Hnd & Hfresh & Hg & Hw2 & Hc2 & Hu2).
    apply returns_ret.
    destruct found as [p|].
    + destruct Hres as (Hk & Hnew & Hg1).
      split; [simpl; lia|]. split; [constructor; assumption|].
      unfold signatures in *. simpl.
      split.
      { constructor; [|exact Hnd]. intros Hin. apply (Hfresh _ Hin).
        rewrite Hg1. apply elem_of_union_l, elem_of_singleton. reflexivity. }
      split.
      { intros sg Hsg. apply elem_of_cons in Hsg as [-> | Hsg]; [exact Hnew|].
        intros Hin. apply (Hfresh _ Hsg). rewrite Hg1.
        apply elem_of_union_r. exact Hin. }
      split.
      { rewrite Hg, Hg1. rewrite (assoc_L (∪)).
        rewrite (comm_L (∪) (list_to_set _) {[_]}). reflexivity. }
      split; [congruence|]. split; congruence.
    + split; [lia|]. split; [exact Hkept|]. split; [exact Hnd|].
      split; [intros sg Hsg; rewrite <- Hres; apply Hfresh; exact Hsg|].
      split; [rewrite Hg, Hres; reflexivity|].
      split; [congruence|]. split; congruence.
Qed.

End ConstrainedFacts.

(** X7. generateConstrainedProblems for a valid configuration returns at
    most problemCount problems and writes no warning: a slot for which no
    candidate is found within the retries is left out. Every returned
    problem is valid, accepted by validateProblem and meets the
    constraints; the signatures are pairwise different, and none was in
    generatedProblems before the call, which the call does not clear but
    extends. The usage tracker is not touched. *)
Theorem constrained_generation_meets_constraints :
  forall (constraints : ProblemGenerator.Constraints)
         (config : WorksheetConfig.Config) (n : Z) (st : State),
    WorksheetConfig.validate config = Ok tt ->
    WorksheetConfig.problemCount config = VInt n ->
    returns (ProblemGenerator.generateConstrainedProblems constraints config) st
      (fun problems st' =>
         (Z.of_nat (length problems) <= n) /\
         Forall (fun p =>
           WellFormedProblem p /\
           ProblemGenerator.meetsConstraints constraints p = true /\
           forall st0, ProblemGenerator.validateProblem p config st0 = (Ok true, st0))
           problems /\
         NoDup (signatures problems) /\
         (forall sg, sg ∈ signatures problems -> sg ∉ generatedProblems st) /\
         generatedProblems st'
         = list_to_set (signatures problems) ∪ generatedProblems st /\
         console st' = console st /\
         numberUsageTracker st' = numberUsageTracker st).
Proof.
  intros constraints config n st Hv Hn.
  destruct (valid_config_parts config Hv)
    as (d & oc & m & Hd & Hmin & Hmax & Ho & Hk & Hm & Hrange).
  rewrite Hn in Hm. injection Hm as <-.
  unfold ProblemGenerator.generateConstrainedProblems.
  rewrite Hn, (orElse_int n) by lia. cbn [ProblemGenerator.loopBound].
  eapply returns_mono.
  - apply (constrainedSlots_effect constraints config d oc Hd ltac:(lia) Ho Hk).
  - intros ps st' (Hlen & Hkept & Hnd & Hfresh & Hg & _ & Hc & Hu).
    split; [lia|]. split; [|auto].
    eapply Forall_impl; [exact Hkept|].
    intros p (Hwf & Hr & Hcf & Hmeets).
    split; [exact Hwf|]. split; [exact Hmeets|].
    intros st0. eapply validateProblem_accepts; eauto.
Qed.

Lemma constrained_generation_meets_constraints_witness :
  returns (ProblemGenerator.generateConstrainedProblems
             {| ProblemGenerator.minResult := Some 3;
                ProblemGenerator.maxResult := None;
                ProblemGenerator.allowZero := false;
                ProblemGenerator.specificOperands := None |}
             within10Mixed) (freshState constantWorld)
    (fun problems st' =>
       Z.of_nat (length problems) <= 5 /\
       Forall (fun p => 3 <= MathProblem.result p) problems /\
       console st' = []).
Proof.
  eapply returns_mono.
  - apply (constrained_generation_meets_constraints
             {| ProblemGenerator.minResult := Some 3;
                ProblemGenerator.maxResult := None;
                ProblemGenerator.allowZero := false;
                ProblemGenerator.specificOperands := None |}
             within10Mixed 5 (freshState constantWorld));
      [vm_compute; reflexivity | reflexivity].
  - intros ps st' (Hlen & Hall & _ & _ & _ & Hc & _).
    split; [exact Hlen|]. split; [|exact Hc].
    eapply Forall_impl; [exact Hall|].
    intros p (_ & Hmeets & _).
    unfold ProblemGenerator.meetsConstraints in Hmeets. simpl in Hmeets.
    rewrite !andb_true_iff, negb_true_iff in Hmeets.
    destruct Hmeets as [[[Hmin _] _] _]. apply Z.ltb_ge in Hmin. exact Hmin.
Defined.


(* ===================================================================== *)
(** ** LayoutEngine: the grid depends on the number of problems only *)
(* ===================================================================== *)

Section LayoutShapeFacts.

Import LayoutEngine.

Lemma imap_SamePosition {A B} (f : nat -> A -> ProblemPosition)
    (g : nat -> B -> ProblemPosition) (l : list A) (k : list B) :
  length l = length k ->
  (forall i a b, l !! i = Some a -> k !! i = Some b -> SamePosition (f i a) (g i b)) ->
  Forall2 SamePosition (imap f l) (imap g k).
Proof.
  intros Hlen H. apply Forall2_same_length_lookup.
  split; [rewrite !length_imap; exact Hlen|].
  intros i x y Hx Hy. rewrite list_lookup_imap in Hx. rewrite list_lookup_imap in Hy.
  destruct (l !! i) as [a|] eqn:El; [|discriminate].
  destruct (k !! i) as [b|] eqn:Ek; [|discriminate].
  simpl in Hx, Hy. injection Hx as <-. injection Hy as <-.
  apply (H i a b El Ek).
Qed.

Lemma calculateProblemPositions_shape ps qs layoutConfig availableSpace :
  length ps = length qs ->
  Forall2 SamePosition
    (calculateProblemPositions ps layoutConfig availableSpace)
    (calculateProblemPositions qs layoutConfig availableSpace).
Proof.
  intros Hlen. unfold calculateProblemPositions. rewrite Hlen.
  apply imap_SamePosition; [exact Hlen|].
  intros i a b _ _. reflexivity.
Qed.

Lemma foldl_shape {A} (F G : A -> ProblemPosition -> A) l k :
  (forall m a b, SamePosition a b -> F m a = G m b) ->
  Forall2 SamePosition l k -> forall m, foldl F m l = foldl G m k.
Proof.
  intros HF. induction 1 as [|a b l k Hab _ IH]; intros m; [reflexivity|].
  simpl. rewrite (HF m a b Hab). apply IH.
Qed.

Lemma optimizeVerticalSpacing_shape l k layout1 layout2 :
  Forall2 SamePosition l k ->
  layoutConfig layout1 = layoutConfig layout2 ->
  availableSpace layout1 = availableSpace layout2 ->
  Forall2 SamePosition (optimizeVerticalSpacing l layout1)
                       (optimizeVerticalSpacing k layout2).
Proof.
  intros H E1 E2. pose proof (Forall2_length _ _ _ H) as Hlen.
  unfold optimizeVerticalSpacing. rewrite E1, E2, Hlen.
  destruct H as [|a b l k Hab H]; [constructor|].
  cbv beta iota zeta.
  assert (Forall2 SamePosition (a :: l) (b :: k)) as Hall
    by (constructor; assumption).
  destruct (rowsFor (length (b :: k)) (lc_columns (layoutConfig layout2)) <=? 1);
    [exact Hall|].
  rewrite (foldl_shape _ (fun max p => Qmax max (y (position p) + height (position p))%Q)
             (a :: l) (b :: k)); [| |exact Hall].
  2: { intros m x x' Hx. unfold SamePosition in Hx. rewrite Hx. reflexivity. }
  destruct (Qltb 0 _); [|exact Hall].
  apply imap_SamePosition; [simpl in *; lia|].
  intros i x x' Hx Hx'.
  pose proof (Forall2_lookup_lr _ _ _ _ _ _ Hall Hx Hx') as Hpos.
  unfold SamePosition in *.
  destruct (0 <? Z.of_nat i / lc_columns (layoutConfig layout2)); [|exact Hpos].
  simpl. rewrite Hpos. reflexivity.
Qed.

Lemma compareByPosition_shape a a' b b' :
  SamePosition a a' -> SamePosition b b' ->
  compareByPosition a b = compareByPosition a' b'.
Proof.
  unfold SamePosition, compareByPosition. intros -> ->. reflexivity.
Qed.

Lemma insertSorted_shape a a' l l' :
  SamePosition a a' -> Forall2 SamePosition l l' ->
  Forall2 SamePosition (insertSorted compareByPosition a l)
                       (insertSorted compareByPosition a' l').
Proof.
  intros Ha. induction 1 as [|b b' l l' Hb Hl IH]; simpl.
  - constructor; [exact Ha | constructor].
  - rewrite (compareByPosition_shape a a' b b' Ha Hb).
    destruct (Qltb 0 (compareByPosition a' b')).
    + constructor; assumption.
    + constructor; [exact Ha|]. constructor; assumption.
Qed.

Lemma sort_shape l l' :
  Forall2 SamePosition l l' ->
  Forall2 SamePosition (sort compareByPosition l) (sort compareByPosition l').
Proof.
  induction 1 as [|a a' l l' Ha _ IH]; simpl; [constructor|].
  apply insertSorted_shape; assumption.
Qed.

Lemma sweep_shape rest : forall rest' previous previous',
  SamePosition previous previous' -> Forall2 SamePosition rest rest' ->
  Forall2 SamePosition (sweep previous rest) (sweep previous' rest').
Proof.
  induction rest as [|c rest IH]; intros rest' p p' Hp H;
    inversion H as [|? c' ? rest'' Hc Hrest]; subst; simpl; [constructor|].
  unfold SamePosition in Hp, Hc. rewrite Hp, Hc.
  constructor.
  - destruct (_ && _); [reflexivity | exact Hc].
  - apply IH; [|exact Hrest].
    destruct (_ && _); [reflexivity | exact Hc].
Qed.

Lemma preventOverlaps_shape l l' :
  Forall2 SamePosition l l' ->
  Forall2 SamePosition (preventOverlaps l) (preventOverlaps l').
Proof.
  intros H. unfold preventOverlaps.
  destruct (sort_shape l l' H) as [|a a' s s' Ha Hs]; [constructor|].
  constructor; [exact Ha|]. apply sweep_shape; assumption.
Qed.

Lemma forallb_shape (f g : ProblemPosition -> bool) l k :
  (forall a b, SamePosition a b -> f a = g b) ->
  Forall2 SamePosition l k -> forallb f l = forallb g k.
Proof.
  intros Hfg. induction 1 as [|a b l k Hab _ IH]; [reflexivity|].
  simpl. rewrite (Hfg a b Hab), IH. reflexivity.
Qed.

Lemma existsb_shape (f g : ProblemPosition -> bool) l k :
  (forall a b, SamePosition a b -> f a = g b) ->
  Forall2 SamePosition l k -> existsb f l = existsb g k.
Proof.
  intros Hfg. induction 1 as [|a b l k Hab _ IH]; [reflexivity|].
  simpl. rewrite (Hfg a b Hab), IH. reflexivity.
Qed.

Lemma hasOverlaps_shape l k :
  Forall2 SamePosition l k -> hasOverlaps l = hasOverlaps k.
Proof.
  induction 1 as [|a b l k Hab H IH]; [reflexivity|].
  simpl. rewrite IH. f_equal.
  apply existsb_shape; [|exact H].
  intros x x' Hx. unfold SamePosition in *. unfold problemsOverlap.
  rewrite Hab, Hx. reflexivity.
Qed.

Lemma validateLayout_shape layout1 layout2 :
  Forall2 SamePosition (problems layout1) (problems layout2) ->
  pageSize layout1 = pageSize layout2 ->
  validateLayout layout1 = validateLayout layout2.
Proof.
  intros H Hpage. unfold validateLayout.
  assert (forallb (fun p => validateProblemPosition p layout1) (problems layout1)
          = forallb (fun p => validateProblemPosition p layout2) (problems layout2))
    as ->.
  { apply forallb_shape; [|exact H].
    intros a b Hab. unfold validateProblemPosition, SamePosition in *.
    rewrite Hab. reflexivity. }
  rewrite (hasOverlaps_shape _ _ H).
  assert (problemsFitInBounds (problems layout1) layout1
          = problemsFitInBounds (problems layout2) layout2) as ->.
  { unfold problemsFitInBounds. rewrite Hpage.
    apply forallb_shape; [|exact H].
    intros a b Hab. unfold SamePosition in Hab. cbv zeta. rewrite Hab.
    reflexivity. }
  reflexivity.
Qed.

(** Whether [calculateLayout] returns depends on the number of problems
    and on the layout of the configuration only. *)
Lemma calculateLayout_shape ps qs config1 config2 layout2 :
  length ps = length qs ->
  WorksheetConfig.layout config1 = WorksheetConfig.layout config2 ->
  calculateLayout (Some qs) (Some config2) = Ok layout2 ->
  exists layout1,
    calculateLayout (Some ps) (Some config1) = Ok layout1 /\
    Forall2 SamePosition (problems layout1) (problems layout2).
Proof.
  intros Hlen Hlayout. unfold calculateLayout.
  destruct qs as [|q qs]; [discriminate|].
  destruct ps as [|p ps]; [discriminate|].
  assert (getLayoutConfig config1 = getLayoutConfig config2) as ->.
  { unfold getLayoutConfig, WorksheetConfig.getLayoutConfig. rewrite Hlayout.
    reflexivity. }
  destruct (getLayoutConfig config2) as [lc|e]; [|discriminate].
  cbv zeta. rewrite Hlen.
  match goal with
  | |- (if negb (validateLayout ?o2) then _ else _) = _ ->
       exists _, (if negb (validateLayout ?o1) then _ else _) = _ /\ _ =>
      assert (Forall2 SamePosition (problems o1) (problems o2)) as Hshape;
      [|rewrite (validateLayout_shape o1 o2 Hshape eq_refl);
        destruct (negb (validateLayout o2)); [discriminate|];
        intros H; injection H as <-; eexists; split; [reflexivity | exact Hshape]]
  end.
  unfold optimizeSpacing. cbn [problems layoutConfig availableSpace].
  apply preventOverlaps_shape. unfold optimizeHorizontalAlignment.
  apply optimizeVerticalSpacing_shape; [|reflexivity|reflexivity].
  apply calculateProblemPositions_shape. exact Hlen.
Qed.

Lemma imap_labels {A} (f : nat -> A -> ProblemPosition)
    (g : nat -> A -> MathProblem.Problem * Metadata) (l : list A) :
  (forall i a, labelOf (f i a) = g i a) -> labelOf <$> imap f l = imap g l.
Proof.
  intros H. rewrite fmap_imap. apply imap_ext. intros i a _. apply H.
Qed.

Lemma imap_keeps_labels (f : nat -> ProblemPosition -> ProblemPosition) l :
  (forall i a, labelOf (f i a) = labelOf a) -> labelOf <$> imap f l = labelOf <$> l.
Proof.
  intros H. rewrite fmap_imap. rewrite <- (imap_const labelOf l).
  apply imap_ext. intros i a _. apply H.
Qed.

Lemma optimizeVerticalSpacing_labels l layout :
  labelOf <$> optimizeVerticalSpacing l layout = labelOf <$> l.
Proof.
  unfold optimizeVerticalSpacing. destruct l as [|a l]; [reflexivity|].
  cbv zeta. destruct (_ <=? 1); [reflexivity|].
  destruct (Qltb 0 _); [|reflexivity].
  apply imap_keeps_labels. intros i x. destruct (0 <? _); reflexivity.
Qed.

Lemma insertSorted_Permutation compare a l :
  insertSorted compare a l ≡ₚ a :: l.
Proof.
  induction l as [|b l IH]; simpl; [reflexivity|].
  destruct (Qltb 0 (compare a b)); [|reflexivity].
  rewrite IH. apply perm_swap.
Qed.

Lemma sort_Permutation compare l : sort compare l ≡ₚ l.
Proof.
  induction l as [|a l IH]; simpl; [reflexivity|].
  rewrite insertSorted_Permutation, IH. reflexivity.
Qed.

Lemma sweep_labels rest : forall previous,
  labelOf <$> sweep previous rest = labelOf <$> rest.
Proof.
  induction rest as [|c rest IH]; intros p; simpl; [reflexivity|].
  rewrite IH. f_equal. destruct (_ && _); reflexivity.
Qed.

Lemma preventOverlaps_labels l : labelOf <$> preventOverlaps l ≡ₚ labelOf <$> l.
Proof.
  unfold preventOverlaps.
  rewrite <- (sort_Permutation compareByPosition l) at 2.
  destruct (sort compareByPosition l) as [|a s]; [reflexivity|].
  simpl. rewrite sweep_labels. reflexivity.
Qed.

(** No stage of [calculateLayout] loses, repeats or relabels a problem. *)
Lemma calculateLayout_labels ps config layout :
  calculateLayout (Some ps) (Some config) = Ok layout ->
  labelOf <$> problems layout
  ≡ₚ imap (gridLabel (md_columns (layout_metadata layout))) ps /\
  totalProblems (layout_metadata layout) = Z.of_nat (length ps).
Proof.
  unfold calculateLayout. destruct ps as [|p ps]; [discriminate|].
  destruct (getLayoutConfig config) as [lc|e]; [|discriminate].
  cbv zeta.
  match goal with |- context [validateLayout ?o] =>
    destruct (negb (validateLayout o)); [discriminate|]
  end.
  intros H. injection H as <-.
  unfold optimizeSpacing. cbn [problems layout_metadata md_columns totalProblems].
  split; [|reflexivity].
  rewrite preventOverlaps_labels. unfold optimizeHorizontalAlignment.
  rewrite optimizeVerticalSpacing_labels.
  unfold calculateProblemPositions. cbv zeta.
  rewrite (imap_labels _ (gridLabel (lc_columns lc))); [reflexivity|].
  intros i a. reflexivity.
Qed.

Lemma layoutSucceeds_allowed :
  forallb (layoutSucceeds "two-column") (seq 1 50) = true /\
  forallb (layoutSucceeds "three-column") (seq 1 50) = true.
Proof. split; vm_compute; reflexivity. Qed.

Lemma layout_keys k lt :
  LAYOUT_TYPES !! k = Some lt ->
  k = "two-column"%string \/ k = "three-column"%string.
Proof.
  intros H. apply elem_of_list_to_map_2 in H.
  repeat (apply elem_of_cons in H as [H | H]; [injection H as -> _; auto|]).
  inversion H.
Qed.

End LayoutShapeFacts.

(** X16. A layout that calculateLayout returns holds every given problem
    exactly once: its entries are a rearrangement of the problems, each
    with the index it had in the argument and with the row and column of
    that index in the grid, row = floor(index / columns) and
    column = index mod columns. *)
Theorem layout_keeps_every_problem :
  forall (ps : list MathProblem.Problem) (config : WorksheetConfig.Config)
         (layout : LayoutEngine.Layout),
    LayoutEngine.calculateLayout (Some ps) (Some config) = Ok layout ->
    LayoutEngine.problem <$> LayoutEngine.problems layout ≡ₚ ps /\
    Forall (fun a =>
      let m := LayoutEngine.metadata a in
      let columns := LayoutEngine.md_columns (LayoutEngine.layout_metadata layout) in
      ps !! Z.to_nat (LayoutEngine.index m) = Some (LayoutEngine.problem a) /\
      LayoutEngine.row m = LayoutEngine.index m / columns /\
      LayoutEngine.column m = Z.rem (LayoutEngine.index m) columns)
      (LayoutEngine.problems layout) /\
    LayoutEngine.totalProblems (LayoutEngine.layout_metadata layout)
    = Z.of_nat (length ps).
Proof.
  intros ps config layout H.
  destruct (calculateLayout_labels ps config layout H) as [Hperm Htotal].
  split; [|split; [|exact Htotal]].
  - assert (fst <$> (labelOf <$> LayoutEngine.problems layout)
            ≡ₚ fst <$> imap (gridLabel (LayoutEngine.md_columns
                                         (LayoutEngine.layout_metadata layout))) ps)
      as Hfst by (rewrite Hperm; reflexivity).
    rewrite <- list_fmap_compose in Hfst.
    rewrite fmap_imap in Hfst.
    rewrite (imap_ext _ (const id) ps) in Hfst by (intros i x _; reflexivity).
    rewrite imap_const, list_fmap_id in Hfst. exact Hfst.
  - apply Forall_forall. intros a Ha.
    assert (labelOf a ∈ labelOf <$> LayoutEngine.problems layout) as Hin
      by (apply list_elem_of_fmap; exists a; auto).
    rewrite Hperm in Hin. apply elem_of_lookup_imap in Hin as (i & p & Hlabel & Hp).
    unfold labelOf, gridLabel in Hlabel. injection Hlabel as Hpr Hmeta.
    cbv zeta. rewrite Hmeta, Hpr. simpl.
    rewrite Nat2Z.id. auto.
Qed.

Lemma layout_keeps_every_problem_witness :
  exists layout,
    LayoutEngine.calculateLayout (Some eightProblems) (Some defaultConfig) = Ok layout /\
    LayoutEngine.problem <$> LayoutEngine.problems layout ≡ₚ eightProblems.
Proof.
  eexists. split; [vm_compute; reflexivity|].
  exact (proj1 (layout_keeps_every_problem eightProblems defaultConfig _
                  ltac:(vm_compute; reflexivity))).
Defined.

(** X17. For a valid configuration and any list of 1 to 50 problems, the
    problem counts validation allows, calculateLayout returns a layout:
    'Invalid layout result' is never thrown. The layout has one entry for
    each problem, no two rectangles intersect and all are within the
    page. *)
Theorem layout_succeeds_for_allowed_counts :
  forall (ps : list MathProblem.Problem) (config : WorksheetConfig.Config),
    WorksheetConfig.validate config = Ok tt ->
    (1 <= length ps <= 50)%nat ->
    exists layout,
      LayoutEngine.calculateLayout (Some ps) (Some config) = Ok layout /\
      length (LayoutEngine.problems layout) = length ps /\
      (forall i j a b,
         i <> j ->
         LayoutEngine.problems layout !! i = Some a ->
         LayoutEngine.problems layout !! j = Some b ->
         ~ Intersect (LayoutEngine.position a) (LayoutEngine.position b)) /\
      Forall (fun a => WithinPage (2480, 3508)%Q (LayoutEngine.position a))
             (LayoutEngine.problems layout).
Proof.
  intros ps config Hv Hlen.
  pose proof (proj1 (validate_ok_invariant_config config) Hv)
    as (_ & _ & (k & Ek & [lt Hk]) & _).
  assert (layoutSucceeds k (length ps) = true) as Hok.
  { destruct layoutSucceeds_allowed as [H2 H3].
    rewrite forallb_forall in H2, H3.
    destruct (layout_keys k lt Hk) as [-> | ->]; [apply H2 | apply H3];
      apply in_seq; lia. }
  unfold layoutSucceeds in Hok.
  destruct (LayoutEngine.calculateLayout
              (Some (replicate (length ps) plainProblem))
              (Some (configWithLayout k))) as [layout2|] eqn:H2; [|discriminate].
  destruct (calculateLayout_shape ps (replicate (length ps) plainProblem)
              config (configWithLayout k) layout2
              ltac:(rewrite length_replicate; reflexivity) Ek H2)
    as (layout & Hlayout & _).
  exists layout. split; [exact Hlayout|].
  split.
  { destruct (calculateLayout_labels ps config layout Hlayout) as [Hperm _].
    apply Permutation_length in Hperm.
    rewrite length_fmap, length_imap in Hperm. exact Hperm. }
  destruct (calculateLayout_validated _ _ _ Hlayout) as [Hvalid Hpage].
  apply validateLayout_true in Hvalid as [Hno Hfit].
  split.
  - intros i j a b Hij Ha Hb.
    destruct (Nat.lt_total i j) as [Hlt | [Heq | Hgt]]; [|contradiction|].
    + eapply hasOverlaps_false; eassumption.
    + intros Hi. apply Intersect_sym in Hi. revert Hi.
      eapply hasOverlaps_false; eassumption.
  - rewrite <- Hpage. apply problemsFitInBounds_true. exact Hfit.
Qed.

Lemma layout_succeeds_for_allowed_counts_witness :
  exists layout,
    LayoutEngine.calculateLayout (Some eightProblems) (Some defaultConfig) = Ok layout /\
    length (LayoutEngine.problems layout) = 8%nat.
Proof.
  destruct (layout_succeeds_for_allowed_counts eightProblems defaultConfig
              ltac:(vm_compute; reflexivity) ltac:(simpl; lia))
    as (layout & H1 & H2 & _).
  exists layout. split; [exact H1 | exact H2].
Defined.


(* ===================================================================== *)
(** ** ConfigurationManager: the feasibility bound and the generator *)
(* ===================================================================== *)

Section BoundFacts.

Import MathProblem ProblemGenerator ConfigurationManager.

Lemma pairsWith_count g l : forall c,
  foldl (fun count a => foldl (fun count _ => count + 1) count (g a)) c l
  = c + Z.of_nat (length (pairsWith g l)).
Proof.
  unfold pairsWith. induction l as [|a l IH]; intros c.
  - simpl. lia.
  - cbn [foldl mbind list_bind].
    rewrite IH, foldl_count, length_app, length_fmap. lia.
Qed.

Lemma pairsWith_square k l :
  length (pairsWith (fun _ => k) l) = (length l * length k)%nat.
Proof.
  unfold pairsWith. induction l as [|a l IH]; [reflexivity|].
  cbn [mbind list_bind]. rewrite length_app, length_fmap, IH. reflexivity.
Qed.

Lemma elem_of_pairsWith g l a b : (a, b) ∈ pairsWith g l <-> a ∈ l /\ b ∈ g a.
Proof.
  unfold pairsWith. rewrite list_elem_of_bind. split.
  - intros (a' & Hin & Ha). apply list_elem_of_fmap in Hin as (b' & E & Hb).
    injection E as -> ->. auto.
  - intros [Ha Hb]. exists a. split; [|exact Ha].
    apply list_elem_of_fmap. exists b. auto.
Qed.

Lemma length_additionKeys d :
  minNumber d <= maxNumber d + 1 ->
  Z.of_nat (length (additionKeys d))
  = (maxNumber d - minNumber d + 1) * (maxNumber d - minNumber d + 1).
Proof.
  intros H. unfold additionKeys.
  rewrite length_fmap, pairsWith_square, length_seqZ. nia.
Qed.

Lemma length_subtractionKeys d :
  Z.of_nat (length (subtractionKeys d))
  = countOrderedPairs (minNumber d) (maxNumber d).
Proof.
  unfold subtractionKeys, countOrderedPairs.
  rewrite length_fmap, pairsWith_count. lia.
Qed.

Lemma key_addition d p :
  InRange d p -> operator p = "+"%string -> problemKey p ∈ additionKeys d.
Proof.
  intros [R1 R2] Hop. unfold problemKey, additionKeys. rewrite Hop.
  apply list_elem_of_fmap. eexists. split; [reflexivity|].
  apply elem_of_pairsWith. rewrite !elem_of_seqZ. lia.
Qed.

Lemma key_subtraction d p :
  WellFormedProblem p -> InRange d p -> operator p = "-"%string ->
  problemKey p ∈ subtractionKeys d.
Proof.
  intros (_ & _ & _ & Hwf) [R1 R2] Hop. unfold problemKey, subtractionKeys.
  destruct Hwf as [[Hplus _] | (_ & _ & Hle)]; [congruence|].
  rewrite Hop. apply list_elem_of_fmap. eexists. split; [reflexivity|].
  apply elem_of_pairsWith. rewrite !elem_of_seqZ. lia.
Qed.

Lemma unique_keys ps : NoDup (signatures ps) -> NoDup (problemKey <$> ps).
Proof.
  intros H.
  apply (NoDup_fmap_1
           (fun k : string * (Z * Z) =>
              pretty (fst (snd k)) +:+ fst k +:+ pretty (snd (snd k)))).
  rewrite <- list_fmap_compose. exact H.
Qed.

Lemma unique_within (K : list (string * (Z * Z))) ps :
  NoDup (signatures ps) -> Forall (fun p => problemKey p ∈ K) ps ->
  (length ps <= length K)%nat.
Proof.
  intros Hnd Hall. rewrite <- (length_fmap problemKey ps).
  apply submseteq_length, NoDup_submseteq; [apply unique_keys; exact Hnd|].
  intros k Hk. apply list_elem_of_fmap in Hk as (p & -> & Hp).
  rewrite Forall_forall in Hall. apply Hall. exact Hp.
Qed.

Lemma operation_names :
  map_Forall (fun k oc =>
                (k = "addition"%string -> op_name oc = "加法"%string) /\
                (k = "subtraction"%string -> op_name oc = "减法"%string) /\
                (k = "mixed"%string -> op_name oc = "加减混合"%string))
             OPERATION_TYPES.
Proof. apply (bool_decide_unpack _). vm_compute. exact I. Qed.

End BoundFacts.

(** X20. The feasibility bound of the ConfigurationManager is a true
    bound for the generator. For a valid configuration, a run of
    generateProblems that writes no duplicate warning returns at most
    _calculateMaxPossibleProblems(config) problems; so asking for more
    always makes the generator fall back on a duplicate and warn. *)
Theorem more_than_possible_forces_duplicates :
  forall (config : WorksheetConfig.Config) (count : Value) (st : State)
         (n : nat) (m : Z),
    WorksheetConfig.validate config = Ok tt ->
    ProblemGenerator.loopBound
      (Js.orElse (Js.orElse count (WorksheetConfig.problemCount config)) (VInt 20))
    = Some n ->
    ConfigurationManager._calculateMaxPossibleProblems config = Ok m ->
    returns (ProblemGenerator.generateProblems (Some config) count) st
      (fun problems st' =>
         length problems = n /\
         (console st' = console st -> Z.of_nat n <= m)).
Proof.
  intros config count st n m Hv Hn Hm.
  pose proof (proj1 (validate_ok_invariant_config config) Hv)
    as (_ & (ko & Eko & [eo Hko]) & _).
  destruct (valid_config_parts config Hv)
    as (d & oc & c & Hd & Hmin & Hmax & Ho & Hk & _).
  assert (oc = eo) as ->.
  { unfold WorksheetConfig.getOperationConfig in Ho. rewrite Eko in Ho.
    simpl in Ho. congruence. }
  destruct (operation_names ko eo Hko) as (Na & Ns & Nm).
  unfold ConfigurationManager._calculateMaxPossibleProblems in Hm.
  rewrite Hd, Eko in Hm.
  eapply returns_mono.
  - apply (generateWith_effect (fun p => InRange d p /\ Conforms eo p)
             ProblemGenerator.generateSingleProblem config count st eo n Ho);
      [|exact Hn].
    rewrite Hd. apply singleProblemWith_good;
      [apply randomInt_plain_spec | lia | exact Hk].
  - intros ps st' (Hlen & HP & Hwf & _ & ws & Hc & Hclean).
    split; [exact Hlen|]. intros Hquiet.
    rewrite Hquiet in Hc. apply console_unchanged in Hc.
    destruct (Hclean Hc) as (Hnd & _).
    rewrite <- Hlen. rewrite Forall_forall in HP, Hwf.
    destruct (operation_keys ko eo Hko) as [-> | [-> | ->]];
      simpl in Hm; injection Hm as <-.
    + rewrite <- (length_additionKeys d) by lia.
      apply Nat2Z.inj_le, unique_within; [exact Hnd|].
      apply Forall_forall. intros p Hp. destruct (HP p Hp) as [Hr [Ca _]].
      apply key_addition; [exact Hr | apply Ca, Na; reflexivity].
    + rewrite <- (length_subtractionKeys d).
      apply Nat2Z.inj_le, unique_within; [exact Hnd|].
      apply Forall_forall. intros p Hp. destruct (HP p Hp) as [Hr [_ Cs]].
      apply key_subtraction; [apply Hwf; exact Hp | exact Hr|].
      apply Cs, Ns; reflexivity.
    + replace ((maxNumber d - minNumber d + 1) ^ 2)
        with ((maxNumber d - minNumber d + 1) * (maxNumber d - minNumber d + 1))
        by ring.
      rewrite <- (length_additionKeys d) by lia.
      rewrite <- (length_subtractionKeys d), <- Nat2Z.inj_add, <- length_app.
      apply Nat2Z.inj_le, unique_within; [exact Hnd|].
      apply Forall_forall. intros p Hp. destruct (HP p Hp) as [Hr _].
      apply elem_of_app.
      destruct (well_formed_operator p (Hwf p Hp)) as [Hop | Hop].
      * left. apply key_addition; assumption.
      * right. apply key_subtraction; [apply Hwf; exact Hp | exact Hr | exact Hop].
Qed.

Lemma more_than_possible_forces_duplicates_witness :
  returns (ProblemGenerator.generateProblems
             (Some (WorksheetConfig.mkConfig
                      (VString "within10") (VString "subtraction")
                      (VString "two-column") (VString "blank") (VString "a4")
                      VNull (VInt 50) (VBool false) (VString "") (VInt 0)))
             (VInt 56)) (freshState constantWorld)
    (fun problems st' =>
       length problems = 56%nat /\
       console st' <> console (freshState constantWorld)).
Proof.
  eapply returns_mono.
  - apply (more_than_possible_forces_duplicates
             (WorksheetConfig.mkConfig
                (VString "within10") (VString "subtraction")
                (VString "two-column") (VString "blank") (VString "a4")
                VNull (VInt 50) (VBool false) (VString "") (VInt 0))
             (VInt 56) (freshState constantWorld) 56%nat 55);
      vm_compute; reflexivity.
  - intros ps st' [Hlen Hbound]. split; [exact Hlen|].
    intros Hquiet. specialize (Hbound Hquiet). lia.
Defined.


(* ===================================================================== *)
(** ** WorksheetConfig: serialization *)
(* ===================================================================== *)

Section JsonFacts.

Import WorksheetConfig.

(** Constructing again from the fields of a constructed configuration
    changes none of them. *)
Lemma new_from_constructed now now' options c :
  new now options = Ok c ->
  new now' (mkOptions (difficulty c) (operationType c) (layout c)
                      (backgroundStyle c) (paperFormat c) (customBackgroundUrl c)
                      (problemCount c) (showAnswers c) (title c))
  = Ok (mkConfig (difficulty c) (operationType c) (layout c)
                 (backgroundStyle c) (paperFormat c) (customBackgroundUrl c)
                 (problemCount c) (showAnswers c) (title c) (VInt now')).
Proof.
  intros Hnew.
  pose proof (new_ok_validated _ _ _ Hnew) as Hv.
  pose proof (new_ok_fields _ _ _ Hnew) as Hc. subst c.
  unfold new. simpl. rewrite !orElse_idem.
  match goal with |- context [validate ?t] =>
    assert (validate t = Ok tt) as -> by exact Hv
  end.
  reflexivity.
Qed.

End JsonFacts.

(** X21. Serialization round trip: for a configuration that the
    constructor produced, toJSON() returns, and fromJSON of the result
    gives back the same configuration, all nine fields and createdAt,
    whatever the time of the call. *)
Theorem config_json_round_trip :
  forall (now : Z) (options : WorksheetConfig.Options) (c : WorksheetConfig.Config),
    WorksheetConfig.new now options = Ok c ->
    exists json,
      WorksheetConfig.toJSON c = Ok json /\
      forall now', WorksheetConfig.fromJSON now' json = Ok c.
Proof.
  intros now options c Hnew.
  pose proof (new_ok_fields _ _ _ Hnew) as Hc.
  assert (WorksheetConfig.createdAt c = VInt now) as Hat by (rewrite Hc; reflexivity).
  unfold WorksheetConfig.toJSON. rewrite Hat.
  eexists. split; [reflexivity|].
  intros now'. unfold WorksheetConfig.fromJSON.
  cbn [WorksheetConfig.json_options WorksheetConfig.json_createdAt].
  rewrite (new_from_constructed now now' options c Hnew).
  cbn [WorksheetConfig.difficulty WorksheetConfig.operationType
       WorksheetConfig.layout WorksheetConfig.backgroundStyle
       WorksheetConfig.paperFormat WorksheetConfig.customBackgroundUrl
       WorksheetConfig.problemCount WorksheetConfig.showAnswers
       WorksheetConfig.title].
  rewrite <- Hat. destruct c; reflexivity.
Qed.

Lemma config_json_round_trip_witness :
  exists c json,
    WorksheetConfig.new 7 (onlyCount (VInt 12)) = Ok c /\
    WorksheetConfig.toJSON c = Ok json /\
    WorksheetConfig.fromJSON 9 json = Ok c.
Proof.
  eexists.
  destruct (config_json_round_trip 7 (onlyCount (VInt 12)) _
              ltac:(vm_compute; reflexivity)) as (json & H1 & H2).
  exists json. split; [vm_compute; reflexivity|].
  split; [exact H1 | apply H2].
Defined.


(* ===================================================================== *)
(** ** ConfigurationManager: validation and history *)
(* ===================================================================== *)

Section ManagerFacts.

Import WorksheetConfig ConfigurationManager.




End ManagerFacts.




(* ===================================================================== *)
(** ** ConfigurationManager: options that pass validateOptions *)
(* ===================================================================== *)

Section OptionFacts.

Import WorksheetConfig ConfigurationManager.

Variable jsLength : string -> nat.

Lemma checkProperty_nil property rule options value :
  checkProperty jsLength property rule options value = [] ->
  (missing value = true /\ required rule = false) \/
  (missing value = false /\
   match type rule with
   | Some t => String.eqb (typeOf value) t = true
   | None => True
   end /\
   validator rule value options = true).
Proof.
  unfold checkProperty.
  destruct (required rule), (missing value); simpl; try discriminate; auto.
  - destruct (type rule) as [t|].
    + destruct (String.eqb (typeOf value) t); simpl; [|discriminate].
      destruct (validator rule value options); simpl; [auto | discriminate].
    + destruct (validator rule value options); simpl; [auto | discriminate].
  - destruct (type rule) as [t|].
    + destruct (String.eqb (typeOf value) t); simpl; [|discriminate].
      destruct (validator rule value options); simpl; [auto | discriminate].
    + destruct (validator rule value options); simpl; [auto | discriminate].
Qed.

Lemma isString_eq v s : isString v s = true -> v = VString s.
Proof.
  destruct v as [| | | | |t]; try discriminate.
  simpl. intros H. apply String.eqb_eq in H. congruence.
Qed.

Lemma count_validator v :
  isInteger v && (problemCount_min <=? asInt v) && (asInt v <=? problemCount_max)
  = true ->
  CountInRange v.
Proof.
  unfold CountInRange, problemCount_min, problemCount_max.
  destruct v as [| | |n| |]; simpl; try discriminate.
  rewrite andb_true_iff, !Z.leb_le. intros H. exists n. split; [reflexivity | lia].
Qed.

(** What [validateOptions] has checked when it reports no error. *)
Lemma validateOptions_nil options :
  validateOptions jsLength options = [] ->
  KeyOf DIFFICULTY_LEVELS (o_difficulty options) /\
  KeyOf OPERATION_TYPES (o_operationType options) /\
  KeyOf LAYOUT_TYPES (o_layout options) /\
  KeyOf BACKGROUND_STYLES (o_backgroundStyle options) /\
  o_paperFormat options = VString "a4" /\
  CountInRange (o_problemCount options) /\
  (missing (o_customBackgroundUrl options) = true \/
   (o_backgroundStyle options = VString "custom" ->
    truthy (o_customBackgroundUrl options) = true)).
Proof.
  unfold validateOptions, validationRules. cbn [mbind list_bind].
  intros H.
  apply app_eq_nil in H as [Hd H]. apply app_eq_nil in H as [Ho H].
  apply app_eq_nil in H as [Hl H]. apply app_eq_nil in H as [Hb H].
  apply app_eq_nil in H as [Hp H]. apply app_eq_nil in H as [Hc H].
  apply app_eq_nil in H as [_ H]. apply app_eq_nil in H as [_ H].
  apply app_eq_nil in H as [Hu _].
  apply checkProperty_nil in Hd as [[_ Hd] | (_ & _ & Hd)]; [discriminate|].
  apply checkProperty_nil in Ho as [[_ Ho] | (_ & _ & Ho)]; [discriminate|].
  apply checkProperty_nil in Hl as [[_ Hl] | (_ & _ & Hl)]; [discriminate|].
  apply checkProperty_nil in Hb as [[_ Hb] | (_ & _ & Hb)]; [discriminate|].
  apply checkProperty_nil in Hp as [[_ Hp] | (_ & _ & Hp)]; [discriminate|].
  apply checkProperty_nil in Hc as [[_ Hc] | (_ & _ & Hc)]; [discriminate|].
  cbn [validator] in *.
  apply defined_lookup in Hd, Ho, Hl, Hb.
  apply isString_eq in Hp. apply count_validator in Hc.
  split; [exact Hd|]. split; [exact Ho|]. split; [exact Hl|].
  split; [exact Hb|]. split; [exact Hp|]. split; [exact Hc|].
  apply checkProperty_nil in Hu as [[Hu _] | (_ & _ & Hu)]; [left; exact Hu|].
  right. intros Hcustom. cbn [validator] in Hu. rewrite Hcustom in Hu.
  simpl in Hu.
  destruct (o_customBackgroundUrl options) as [| | | | |s]; try discriminate.
  exact Hu.
Qed.

End OptionFacts.

(** X24. Options that validateOptions reports as valid are accepted by
    the WorksheetConfig constructor, which then stores the difficulty,
    operation type, layout, background style, paper format and problem
    count as given, with one exception: validateOptions lets the custom
    background style pass without a customBackgroundUrl, and for such
    options the constructor throws 'Custom background URL is
    required'. *)
Theorem validated_options_construct :
  forall (jsLength : string -> nat) (now : Z) (options : WorksheetConfig.Options),
    ConfigurationManager.validateOptions jsLength options = [] ->
    (exists c,
       WorksheetConfig.new now options = Ok c /\
       WorksheetConfig.difficulty c = WorksheetConfig.o_difficulty options /\
       WorksheetConfig.operationType c = WorksheetConfig.o_operationType options /\
       WorksheetConfig.layout c = WorksheetConfig.o_layout options /\
       WorksheetConfig.backgroundStyle c = WorksheetConfig.o_backgroundStyle options /\
       WorksheetConfig.paperFormat c = VString "a4" /\
       WorksheetConfig.problemCount c = WorksheetConfig.o_problemCount options) \/
    (WorksheetConfig.o_backgroundStyle options = VString "custom" /\
     ConfigurationManager.missing (WorksheetConfig.o_customBackgroundUrl options) = true /\
     WorksheetConfig.new now options = Throw ErrCustomBackgroundUrl).
Proof.
  intros jsLength now options Hvalid.
  destruct (validateOptions_nil jsLength options Hvalid)
    as ((kd & Ed & [d Hd]) & (ko & Eo & [o Ho]) & (kl & El & [l Hl]) &
        (kb & Eb & [b Hb]) & Ep & (n & En & Hn) & Hurl).
  destruct options as [od oo ol ob op ou oc os ot]. simpl in *. subst.
  unfold WorksheetConfig.new.
  cbn [WorksheetConfig.o_difficulty WorksheetConfig.o_operationType
       WorksheetConfig.o_layout WorksheetConfig.o_backgroundStyle
       WorksheetConfig.o_paperFormat WorksheetConfig.o_customBackgroundUrl
       WorksheetConfig.o_problemCount WorksheetConfig.o_showAnswers
       WorksheetConfig.o_title].
  cbv zeta.
  rewrite (orElse_key kd) by exact (difficulty_keys_nonempty kd d Hd).
  rewrite (orElse_key ko) by exact (operation_keys_nonempty ko o Ho).
  rewrite (orElse_key kl) by exact (proj1 (layout_table kl l Hl)).
  rewrite (orElse_key kb) by exact (background_keys_nonempty kb b Hb).
  rewrite (orElse_key "a4") by discriminate.
  rewrite (orElse_int n) by lia.
  match goal with |- context [WorksheetConfig.validate ?t] => set (this := t) end.
  assert (KeyOf DIFFICULTY_LEVELS (WorksheetConfig.difficulty this)) as Kd
    by (exists kd; eauto).
  assert (KeyOf OPERATION_TYPES (WorksheetConfig.operationType this)) as Ko
    by (exists ko; eauto).
  assert (KeyOf LAYOUT_TYPES (WorksheetConfig.layout this)) as Kl
    by (exists kl; eauto).
  assert (KeyOf BACKGROUND_STYLES (WorksheetConfig.backgroundStyle this)) as Kb
    by (exists kb; eauto).
  assert (CountInRange (WorksheetConfig.problemCount this)) as Kc
    by (exists n; auto).
  destruct (String.eqb kb "custom" && negb (truthy ou)) eqn:Hcase.
  - right. apply andb_true_iff in Hcase as [Hc Hu].
    apply String.eqb_eq in Hc. subst kb. apply negb_true_iff in Hu.
    split; [reflexivity|].
    assert (ConfigurationManager.missing ou = true) as Hmissing.
    { destruct Hurl as [H | H]; [exact H|]. rewrite (H eq_refl) in Hu. discriminate. }
    split; [exact Hmissing|].
    assert (WorksheetConfig.validate this = Throw ErrCustomBackgroundUrl) as ->;
      [|reflexivity].
    unfold WorksheetConfig.validate.
    rewrite (proj2 (defined_lookup _ _) Kd), (proj2 (defined_lookup _ _) Ko),
      (proj2 (defined_lookup _ _) Kl), (proj2 (defined_lookup _ _) Kb).
    rewrite (proj2 (count_check _) Kc).
    subst this. cbn [WorksheetConfig.backgroundStyle WorksheetConfig.customBackgroundUrl].
    rewrite truthy_orElse_null, Hu. reflexivity.
  - left.
    assert (WorksheetConfig.validate this = Ok tt) as ->.
    { apply validate_ok_invariant_config.
      split; [exact Kd|]. split; [exact Ko|]. split; [exact Kl|].
      split; [exact Kb|]. split; [exact Kc|].
      subst this.
      cbn [WorksheetConfig.backgroundStyle WorksheetConfig.customBackgroundUrl].
      intros Hc. injection Hc as ->.
      change (String.eqb "custom" "custom") with true in Hcase.
      simpl in Hcase. apply negb_false_iff in Hcase.
      apply truthy_nonempty. rewrite truthy_orElse_null. exact Hcase. }
    eexists. split; [reflexivity|]. subst this. simpl. auto 7.
Qed.

Lemma validated_options_construct_witness :
  WorksheetConfig.new 0
    (WorksheetConfig.mkOptions
       (VString "within10") (VString "addition") (VString "two-column")
       (VString "custom") (VString "a4") VUndefined (VInt 10) VUndefined VUndefined)
  = Throw ErrCustomBackgroundUrl.
Proof.
  destruct (validated_options_construct (fun s => String.length s) 0
              (WorksheetConfig.mkOptions
                 (VString "within10") (VString "addition") (VString "two-column")
                 (VString "custom") (VString "a4") VUndefined (VInt 10)
                 VUndefined VUndefined)
              ltac:(vm_compute; reflexivity)) as [(c & Hc & _) | (_ & _ & H)].
  - vm_compute in Hc. discriminate.
  - exact H.
Defined.
